(** * Dynamite minibatch helpers (Source/Dynamite/CNTKLibraryHelpers.h)

    A shallow embedding of [Index], [MakeEye], [Eye] and [FromCNTKMB],
    together with a model of the CNTK library primitives they call, and the
    properties of the specification stated over that embedding. *)

From Stdlib Require Import NArith List String Lia SpecFloat.
From stdpp Require Import base numbers list gmap strings.

(** ** Outcomes of a C++ call *)

(** [std::logic_error] is what the source throws itself ([throw logic_error]
    and [CNTK::LogicError]); [invalid_argument] is what the library
    primitives throw when their arguments are rejected; [length_error] and
    [bad_alloc] are what the constructor of [std::vector] throws. *)
Inductive exn : Type :=
| logic_error (what : string)
| invalid_argument (what : string)
| length_error (what : string)
| bad_alloc.

(** A call returns, throws, or has undefined behaviour (an out-of-range
    [operator[]], [back()] of an empty vector). *)
Inductive outcome (A : Type) : Type :=
| Ret (a : A)
| Throw (e : exn)
| Undef.
Arguments Ret {A} a.
Arguments Throw {A} e.
Arguments Undef {A}.

Definition of_option {A : Type} (o : option A) : outcome A :=
  match o with Some a => Ret a | None => Undef end.

Definition obind {A B : Type} (o : outcome A) (f : A → outcome B) : outcome B :=
  match o with
  | Ret a => f a
  | Throw e => Throw e
  | Undef => Undef
  end.

(** Stateful code: the state survives a throw, as the objects a C++
    function has already written do. *)
Definition M (St A : Type) : Type := St → outcome A * St.

Definition ret {St A : Type} (a : A) : M St A := λ s, (Ret a, s).

Definition bind {St A B : Type} (m : M St A) (f : A → M St B) : M St B :=
  λ s, match m s with
       | (Ret a, s') => f a s'
       | (Throw e, s') => (Throw e, s')
       | (Undef, s') => (Undef, s')
       end.

Definition lift {St A : Type} (o : outcome A) : M St A := λ s, (o, s).

Definition get {St : Type} : M St St := λ s, (Ret s, s).

Notation "x <~ c1 ;; c2" := (bind c1 (λ x, c2))
  (at level 100, c1 at next level, right associativity).
Notation "c1 ;;; c2" := (bind c1 (λ _, c2))
  (at level 100, right associativity).

(** [for (size_t i = i0; i < i0 + todo; i++) body(i);] *)
Fixpoint for_loop {St : Type} (body : nat → M St unit) (todo i : nat) : M St unit :=
  match todo with
  | O => ret tt
  | S todo' => body i ;;; for_loop body todo' (S i)
  end.

(** ** size_t

    Arithmetic on [size_t] wraps around modulo [2^64]; the operands are
    [size_t] values, below [SIZE_MOD]. *)

Definition SIZE_MOD : N := 2 ^ 64.

Definition size_add (a b : N) : N := ((a + b) mod SIZE_MOD)%N.
Definition size_sub (a b : N) : N :=
  if (b <=? a)%N then (a - b)%N else (a + SIZE_MOD - b)%N.
Definition size_mul (a b : N) : N := ((a * b) mod SIZE_MOD)%N.

(** ** Element types

    The element type of a tensor, with the constants and operations the
    code and the matrix product use. The integers are an instance, and so
    are the IEEE 754 formats binary32 ([float]) and binary64 ([double]),
    with their rounding, infinities and NaN. *)
Class Element (E : Type) : Type := {
  e_zero : E;
  e_one : E;
  e_add : E → E → E;
  e_mul : E → E → E
}.

(** The laws of exact arithmetic (integers, rationals). Floating-point
    types do not satisfy them on every value: see [ExactOn]. *)
Class ElementLaws (E : Type) `{Element E} : Prop := {
  e_add_0_l : ∀ x : E, e_add e_zero x = x;
  e_add_0_r : ∀ x : E, e_add x e_zero = x;
  e_mul_0_l : ∀ x : E, e_mul e_zero x = e_zero;
  e_mul_1_l : ∀ x : E, e_mul e_one x = x
}.

(** The same on the values of a set [P] only, as floating-point arithmetic
    has it: there [P] holds the finite values other than the negative zero.
    The four laws are the steps of a dot product with a row of an identity
    matrix: a zero term before the selected component, the selected
    component, a zero term after it, and the scaling by 1. *)
Class ExactOn {E : Type} `{Element E} (P : E → Prop) : Prop := {
  e_skip : ∀ y : E, P y → e_add e_zero (e_mul e_zero y) = e_zero;
  e_pick : ∀ x : E, P x → e_add e_zero (e_mul e_one x) = x;
  e_keep : ∀ x y : E, P x → P y → e_add x (e_mul e_zero y) = x;
  e_scale : ∀ x : E, P x → e_mul e_one x = x
}.

#[export] Instance Z_Element : Element Z :=
  {| e_zero := 0%Z; e_one := 1%Z; e_add := Z.add; e_mul := Z.mul |}.

(** [float]: IEEE 754 binary32, 24 bits of precision, with round to nearest
    even, signed zeros, infinities and NaN. *)
Definition binary32 : Type := spec_float.

#[export] Instance binary32_Element : Element binary32 :=
  {| e_zero := S754_zero false;
     e_one := S754_finite false 8388608 (-23);
     e_add := SFadd 24 128;
     e_mul := SFmul 24 128 |}.

(** [double]: IEEE 754 binary64, 53 bits of precision. *)
Definition binary64 : Type := spec_float.

Definition binary64_Element : Element binary64 :=
  {| e_zero := S754_zero false;
     e_one := S754_finite false 4503599627370496 (-52);
     e_add := SFadd 53 1024;
     e_mul := SFmul 53 1024 |}.

(** The finite values of a format other than the negative zero. *)
Definition plain (prec emax : Z) (x : spec_float) : Prop :=
  match x with
  | S754_zero s => s = false
  | S754_finite _ m e => bounded prec emax m e = true
  | _ => False
  end.

(** ** The CNTK library primitives used by the helpers *)
Module CNTK.

(** Modelled from the spec: the enumeration [CNTK::DataType] is declared in
    CNTKLibrary.h; the source names [Float] and [Double] and reaches every
    other enumerator through [default:]. *)
Inductive DataType : Type := Unknown | Float | Double | UChar | Float16.

#[export] Instance DataType_eq_dec : EqDecision DataType.
Proof. solve_decision. Defined.

Definition DataType_to_nat (d : DataType) : nat :=
  match d with Unknown => 0 | Float => 1 | Double => 2 | UChar => 3 | Float16 => 4 end.

Definition DataType_of_nat (n : nat) : option DataType :=
  match n with
  | 0 => Some Unknown | 1 => Some Float | 2 => Some Double
  | 3 => Some UChar | 4 => Some Float16 | _ => None
  end.

#[export] Instance DataType_countable : Countable DataType.
Proof.
  refine (inj_countable DataType_to_nat DataType_of_nat _).
  intros []; reflexivity.
Defined.

(** Modelled from the spec: [CNTK::DeviceDescriptor], the target device
    identifier; [CPUDevice] is the host. *)
Inductive DeviceDescriptor : Type := CPUDevice | GPUDevice (id : N).

#[export] Instance DeviceDescriptor_eq_dec : EqDecision DeviceDescriptor.
Proof. solve_decision. Defined.

(** Modelled from the spec: [CNTK::NDShape], the shape descriptor, a vector
    of [size_t] dimensions. *)
Definition NDShape : Type := list N.

(** Modelled from the spec: the accessors of [NDShape]: its dimensions,
    its rank and the number of elements it spans. *)
Definition Dimensions (shape : NDShape) : list N := shape.
Definition Rank (shape : NDShape) : N := N.of_nat (length shape).
Definition TotalSize (shape : NDShape) : N := foldr N.mul 1%N shape.

(** Modelled from the spec: [shape[axis]], undefined outside the rank. *)
Definition shape_at (shape : NDShape) (axis : nat) : outcome N :=
  of_option (shape !! axis).

(** Modelled from the spec: [NDShape::SubShape(begin, end)], used to strip
    the trailing axes of a shape; a range outside the shape is rejected. *)
Definition SubShape (shape : NDShape) (beginAxisId endAxisId : N) : outcome NDShape :=
  if ((beginAxisId <=? endAxisId) && (endAxisId <=? Rank shape))%N
  then Ret (take (N.to_nat endAxisId - N.to_nat beginAxisId)
                 (drop (N.to_nat beginAxisId) shape))
  else Throw (invalid_argument "NDShape::SubShape").

(** Modelled from the spec: [CNTK::Axis], the two dynamic axes of an input:
    the sequence (length) axis and the batch axis. *)
Inductive Axis : Type := DefaultDynamicAxis | DefaultBatchAxis.

(** Modelled from the spec: sequential streams get the standard pair of
    dynamic axes, non-sequential streams get only the batch axis. *)
Definition DefaultInputVariableDynamicAxes : list Axis :=
  [DefaultDynamicAxis; DefaultBatchAxis].

Section Tensors.
Context {E : Type} `{Element E}.

(** Modelled from the spec: [CNTK::NDArrayView], a tensor value tagged with
    its element data type, device and storage format; [buffer] holds the
    elements in column-major order (the first axis varies fastest). *)
Record NDArrayView : Type := mkNDArrayView {
  GetDataType : DataType;
  Shape : NDShape;
  Device : DeviceDescriptor;
  IsSparse : bool;
  IsReadOnly : bool;
  buffer : list E
}.

(** The buffer holds one element per position of the shape. The view of
    a sparse tensor holds its elements as well: the storage format is a
    flag. *)
Definition well_formed (v : NDArrayView) : Prop :=
  length (buffer v) = N.to_nat (TotalSize (Shape v)).

(** Modelled from the spec: the deep-copy-to-device primitive
    [NDArrayView::DeepClone(device)]; the copy is writable. *)
Definition DeepClone (v : NDArrayView) (device : DeviceDescriptor) : NDArrayView :=
  {| GetDataType := GetDataType v; Shape := Shape v; Device := device;
     IsSparse := IsSparse v; IsReadOnly := false; buffer := buffer v |}.

(** Modelled from the spec: [NDArrayView::AsShape], the pure reshape: same
    storage under a new shape descriptor of the same total size. *)
Definition AsShape (v : NDArrayView) (newShape : NDShape) : outcome NDArrayView :=
  if (TotalSize newShape =? TotalSize (Shape v))%N
  then Ret {| GetDataType := GetDataType v; Shape := newShape; Device := Device v;
              IsSparse := IsSparse v; IsReadOnly := IsReadOnly v; buffer := buffer v |}
  else Throw (invalid_argument "NDArrayView::AsShape").

(** Modelled from the spec (used by [SliceView]): extent values that are
    missing default to 1. *)
Definition pad_extent (rank : nat) (extent : list N) : list N :=
  extent ++ replicate (rank - length extent) 1%N.

(** Modelled from the spec (used by [SliceView]): the box lies inside the
    tensor. *)
Definition slice_in_range (dims startOffset extent : list N) : bool :=
  forallb (λ '(d, (o, e)), (o + e <=? d)%N) (zip dims (zip startOffset extent)).

(** Modelled from the spec (used by [SliceView]): the elements of the box
    [startOffset, startOffset + extent) of a column-major buffer; the three
    lists are given last axis first. *)
Fixpoint slice_rev (rdims roffs rexts : list N) (buf : list E) : list E :=
  match rdims, roffs, rexts with
  | _ :: rd, o :: ro, e :: re =>
      let stride := N.to_nat (TotalSize rd) in
      concat (map (λ k, slice_rev rd ro re
                          (take stride (drop ((N.to_nat o + k) * stride) buf)))
                  (seq 0 (N.to_nat e)))
  | _, _, _ => buf
  end.

(** Modelled from the spec: [NDArrayView::SliceView(startOffset, extent,
    readOnly)]. The result has shape [extent]; as the source notes, extent
    values missing at the end default to 1 but generate no output axis. *)
Definition SliceView (v : NDArrayView) (startOffset extent : list N) (readOnly : bool)
  : outcome NDArrayView :=
  let dims := Dimensions (Shape v) in
  let full := pad_extent (length dims) extent in
  if (length startOffset =? length dims)%nat && (length extent <=? length dims)%nat
     && slice_in_range dims startOffset full
  then Ret {| GetDataType := GetDataType v; Shape := extent; Device := Device v;
              IsSparse := IsSparse v; IsReadOnly := readOnly;
              buffer := slice_rev (rev dims) (rev startOffset) (rev full) (buffer v) |}
  else Throw (invalid_argument "NDArrayView::SliceView").

(** Modelled from the spec (used by [MatrixProduct]): element [(i, j)] of
    a column-major matrix with [rows] rows. *)
Definition mat_get (rows : nat) (buf : list E) (i j : nat) : E :=
  nth (i + rows * j) buf e_zero.

(** Modelled from the spec (used by [MatrixProduct]): a matrix operand,
    its row and column counts and its element function, after the optional
    transposition. *)
Definition mat_op (trans : bool) (rows cols : nat) (buf : list E)
  : nat * nat * (nat → nat → E) :=
  if trans then (cols, rows, λ i j, mat_get rows buf j i)
  else (rows, cols, mat_get rows buf).

(** Modelled from the spec (used by [MatrixProduct]): the sum of the [k]
    products of a row by a column. *)
Definition dot (k : nat) (a b : nat → E) : E :=
  fold_left (λ acc x, e_add acc (e_mul (a x) (b x))) (seq 0 k) e_zero.

(** Modelled from the spec: [NDArrayView::MatrixProduct(transC, A, transA,
    B, transB, alpha, outputRank)], the matrix product [alpha * op(A) x
    op(B)] materialized into dense storage. The first [outputRank] axes of
    [A] are its rows and the remaining axes are reduced against the leading
    axes of [B]. *)
Definition MatrixProduct (transC : bool) (inputA : NDArrayView) (transA : bool)
    (inputB : NDArrayView) (transB : bool) (alpha : E) (outputRank : nat)
  : outcome NDArrayView :=
  let shapeA := Shape inputA in
  let shapeB := Shape inputB in
  let reduced := (length shapeA - outputRank)%nat in
  let rowsA := N.to_nat (TotalSize (take outputRank shapeA)) in
  let colsA := N.to_nat (TotalSize (drop outputRank shapeA)) in
  let rowsB := N.to_nat (TotalSize (take reduced shapeB)) in
  let colsB := N.to_nat (TotalSize (drop reduced shapeB)) in
  let '(m, k, a) := mat_op transA rowsA colsA (buffer inputA) in
  let '(k', p, b) := mat_op transB rowsB colsB (buffer inputB) in
  if (k =? k')%nat && bool_decide (GetDataType inputA = GetDataType inputB) then
    let c := λ i j, e_mul alpha (dot k (a i) (λ x, b x j)) in
    let plain := negb (transA || transB || transC) in
    Ret {| GetDataType := GetDataType inputB;
           Shape := if plain then take outputRank shapeA ++ drop reduced shapeB
                    else if transC then [N.of_nat p; N.of_nat m]
                    else [N.of_nat m; N.of_nat p];
           Device := Device inputB;
           IsSparse := false;
           IsReadOnly := false;
           buffer := if transC
                     then flat_map (λ i, map (λ j, c i j) (seq 0 p)) (seq 0 m)
                     else flat_map (λ j, map (λ i, c i j) (seq 0 m)) (seq 0 p) |}
  else Throw (invalid_argument "NDArrayView::MatrixProduct").

(** Modelled from the spec: [CNTK::Variable] (the name [Variable] is
    reserved in Rocq); a default-constructed variable, the input variable
    that describes a stream, or a graph constant wrapping a tensor. *)
Inductive CNTKVariable : Type :=
| DefaultVariable
| InputVariable (shape : NDShape) (isSparse : bool) (dataType : DataType)
                (dynamicAxes : list Axis)
| Constant (value : NDArrayView).

(** Modelled from the spec: [Variable::DynamicAxes()]. *)
Definition DynamicAxes (v : CNTKVariable) : list Axis :=
  match v with
  | InputVariable _ _ _ dynamicAxes => dynamicAxes
  | _ => []
  end.

(** Modelled from the spec: [CNTK::Value], one packed stream of a batch;
    its shape is the sample shape followed by the two axes (length,
    batch). *)
Record Value : Type := mkValue { Data : NDArrayView }.

(** Modelled from the spec (used by [UnpackVariableValue]): the view of
    batch item [s] of a packed stream, [per] consecutive elements under the
    shape sample shape ++ [length]. *)
Definition sequence_view (data : NDArrayView) (sampleShape : NDShape) (len : N)
    (s : nat) : NDArrayView :=
  let per := N.to_nat (TotalSize sampleShape * len) in
  {| GetDataType := GetDataType data;
     Shape := sampleShape ++ [len];
     Device := Device data;
     IsSparse := IsSparse data;
     IsReadOnly := IsReadOnly data;
     buffer := take per (drop (s * per) (buffer data)) |}.

(** Modelled from the spec: [Value::UnpackVariableValue(variable, device)],
    the external unpacking primitive, which splits a packed stream into
    per-example views. The spec gives a packed stream the shape sample
    shape ++ [length, batchSize] and no further structure (no record of
    the lengths of the single sequences), so item [s] is the slice [s]
    along the batch axis, of shape sample shape ++ [length], in batch-item
    order. A view shares the storage of the stream: it has its data type,
    storage format and device, and [device] is not used. *)
Definition UnpackVariableValue (value : Value) (variable : CNTKVariable)
    (device : DeviceDescriptor) : outcome (list NDArrayView) :=
  match variable with
  | InputVariable sampleShape _ _ _ =>
      let data := Data value in
      let rank := length sampleShape in
      match drop rank (Shape data) with
      | [len; batch] =>
          if bool_decide (take rank (Shape data) = sampleShape) then
            Ret (map (sequence_view data sampleShape len) (seq 0 (N.to_nat batch)))
          else Throw (invalid_argument "Value::UnpackVariableValue")
      | _ => Throw (invalid_argument "Value::UnpackVariableValue")
      end
  | _ => Throw (invalid_argument "Value::UnpackVariableValue")
  end.

End Tensors.
Arguments NDArrayView E : clear implicits.
Arguments CNTKVariable E : clear implicits.
Arguments Value E : clear implicits.

End CNTK.

(** ** namespace Dynamite *)
Module Dynamite.
Import CNTK.

Section Helpers.
Context {E : Type} `{Element E}.

(** [Index]: slice the last dimension of an NDArrayView (index with index
    [i], then drop the axis). *)
Definition Index (data : NDArrayView E) (i : N) : outcome (NDArrayView E) :=
  let dims := Dimensions (Shape data) in
  let startOffset := replicate (length dims) 0%N in
  let extent := dims in
  match last startOffset, last extent with
  | Some so, Some ex =>
      if negb (so =? i)%N || negb (ex =? 1)%N then
        let startOffset := <[pred (length startOffset) := i]> startOffset in
        let extent := removelast extent in
        SliceView data startOffset extent true
      else
        let newShape := removelast dims in
        AsShape data newShape
  | _, _ => Undef
  end.

(** What the helpers share with the rest of the process: the
    function-local [static map<pair<size_t, DataType>, NDArrayViewPtr>
    cached] of [Eye], and the free store, [can_allocate bytes] telling
    whether [operator new] grants a request of [bytes] bytes (decided
    outside the program). [eyesMade] is the side-channel call counter of
    the tests: [MakeEye] counts its own calls and no code reads the
    count. *)
Record World : Type := mkWorld {
  cached : gmap (N * DataType) (NDArrayView E);
  eyesMade : nat;
  can_allocate : N → bool
}.

(** The cache when the process starts, with a free store that grants
    every request. *)
Definition initial_world : World :=
  {| cached := ∅; eyesMade := 0; can_allocate := λ _, true |}.

(** [vector<T>::max_size()] for an element type of [elementSize] bytes:
    [PTRDIFF_MAX / sizeof(T)], as libstdc++ defines it. *)
Definition PTRDIFF_MAX : N := 2 ^ 63 - 1.

Definition vector_max_size (elementSize : N) : N := (PTRDIFF_MAX / elementSize)%N.

(** [vector<T> v(count, value)]: the constructor throws [std::length_error]
    when [count] exceeds [max_size()], and [std::bad_alloc] when the free
    store refuses the [count * sizeof(T)] bytes. *)
Definition vector_new (elementSize count : N) (value : E) : M World (list E) :=
  λ w,
    if (vector_max_size elementSize <? count)%N
    then (Throw (length_error "cannot create std::vector larger than max_size()"), w)
    else if can_allocate w (count * elementSize)%N
    then (Ret (replicate (N.to_nat count) value), w)
    else (Throw bad_alloc, w).

(** The side channel: one more call of [MakeEye]. *)
Definition count_MakeEye : M World unit :=
  λ w, (Ret tt, {| cached := cached w; eyesMade := S (eyesMade w);
                   can_allocate := can_allocate w |}).

(** Run a loop over a local object. *)
Definition on_local {St : Type} (m : M St unit) (s : St) : M World St :=
  λ w, match m s with
       | (Ret _, s') => (Ret s', w)
       | (Throw e, _) => (Throw e, w)
       | (Undef, _) => (Undef, w)
       end.

(** [buffer[i*n + i] = 1] *)
Definition MakeEye_set (n : N) (i : nat) : M (list E) unit :=
  λ buffer,
    let idx := N.to_nat (size_add (size_mul (N.of_nat i) n) (N.of_nat i)) in
    if (idx <? length buffer)%nat then (Ret tt, <[idx := e_one]> buffer)
    else (Undef, buffer).

(** [MakeEye<ElementType>]: helper for converting data to dense. The
    template argument is represented by [elementSize], the value of
    [sizeof(ElementType)]. The first step is the side channel that counts
    the call; the code has no statement for it. *)
Definition MakeEye (elementSize : N) (n : N) (dataType : DataType)
    (device : DeviceDescriptor) : M World (NDArrayView E) :=
  count_MakeEye ;;;
  buffer <~ vector_new elementSize (size_mul n n) e_zero ;;
  buffer <~ on_local (for_loop (MakeEye_set n) (N.to_nat n) 0) buffer ;;
  let eye := mkNDArrayView dataType [n; n] CPUDevice false false buffer in
  let eye := DeepClone eye device in
  ret eye.

(** [cached[key] = eye] *)
Definition cache_insert (key : N * DataType) (eye : NDArrayView E) : M World unit :=
  λ w, (Ret tt, {| cached := <[key := eye]> (cached w); eyesMade := eyesMade w;
                   can_allocate := can_allocate w |}).

(** [throw logic_error("Eye: Unsupported data type.")] *)
Definition UnsupportedTypeError : exn :=
  logic_error "Eye: Unsupported data type.".

(** [Eye]: the identity matrix of order [n], cached per [(n, dataType)]. *)
Definition Eye (n : N) (dataType : DataType) (device : DeviceDescriptor)
  : M World (NDArrayView E) :=
  λ w,
    let key := (n, dataType) in
    match cached w !! key with
    | Some eye => (Ret eye, w)
    | None =>
        (* need to create it *)
        (eye <~ match dataType with
                | Float => MakeEye 4 n dataType device (* MakeEye<float> *)
                | Double => MakeEye 8 n dataType device (* MakeEye<double> *)
                | _ => lift (Throw UnsupportedTypeError)
                end ;;
         cache_insert key eye ;;;
         ret eye) w
    end.

(** The two [CNTK::LogicError] of [FromCNTKMB]. *)
Definition BatchShapeMismatchError : exn :=
  logic_error "FromCNTKMB: Streams must all have the same number of sequences.".

Definition MalformedStreamError : exn :=
  logic_error "FromCNTKMB: Streams declared as !isSequence must have a trailing dimension of 1.".

(** The objects [FromCNTKMB] writes: its out-parameter [res], its local
    [numSeq] and the cache of [Eye]. *)
Record Locals : Type := mkLocals {
  res : list (list (CNTKVariable E));
  numSeq : nat;
  world : World
}.

(** Run a computation on [arg = res[i]] (a reference) and the cache. *)
Definition in_arg {A : Type} (i : nat) (m : M (list (CNTKVariable E) * World) A)
  : M Locals A :=
  λ σ,
    match res σ !! i with
    | None => (Undef, σ)
    | Some arg =>
        let '(o, (arg', w')) := m (arg, world σ) in
        (o, {| res := <[i := arg']> (res σ); numSeq := numSeq σ; world := w' |})
    end.

(** Run a computation on the cache alone. *)
Definition in_world {A : Type} (m : M World A) : M (list (CNTKVariable E) * World) A :=
  λ '(arg, w), let '(o, w') := m w in (o, (arg, w')).

(** [arg[s] = v] *)
Definition store (s : nat) (v : CNTKVariable E) : M (list (CNTKVariable E) * World) unit :=
  λ '(arg, w),
    if (s <? length arg)%nat then (Ret tt, (<[s := v]> arg, w))
    else (Undef, (arg, w)).

(** Return the example in the correct shape: without a sequence axis the
    trailing dimension must be 1 and is sliced off. *)
Definition FromCNTKMB_shape (hasAxis : bool) (data : NDArrayView E)
  : outcome (NDArrayView E) :=
  if negb hasAxis then
    match last (Dimensions (Shape data)) with
    | None => Undef
    | Some back =>
        if negb (back =? 1)%N then Throw MalformedStreamError
        else Index data 0 (* slice off sample axis (the last in C++) *)
    end
  else Ret data.

(** A sparse example is multiplied with an identity matrix. *)
Definition FromCNTKMB_dense (data : NDArrayView E) : M World (NDArrayView E) :=
  if IsSparse data then
    n <~ lift (shape_at (Shape data) 0) ;;
    eye <~ Eye n (GetDataType data) (Device data) ;;
    lift (MatrixProduct false eye false data false e_one 1)
  else ret data.

(** The body of the loop over the sequences of one argument. *)
Definition FromCNTKMB_example (hasAxis : bool) (sequences : list (NDArrayView E))
    (s : nat) : M (list (CNTKVariable E) * World) unit :=
  data <~ lift (of_option (sequences !! s)) ;;
  data <~ lift (FromCNTKMB_shape hasAxis data) ;;
  data <~ in_world (FromCNTKMB_dense data) ;;
  store s (Constant data).

(** [if (numSeq == 0) numSeq = sequences.size(); else if (numSeq !=
    sequences.size()) LogicError(...)] *)
Definition check_numSeq (size : nat) : M Locals unit :=
  λ σ,
    if (numSeq σ =? 0)%nat then
      (Ret tt, {| res := res σ; numSeq := size; world := world σ |})
    else if negb (numSeq σ =? size)%nat then (Throw BatchShapeMismatchError, σ)
    else (Ret tt, σ).

(** Prepare argument [i]: the reference input variable of stream [i] and
    its unpacked sequences (vector[numBatchItems] of NDArrayViews). *)
Definition FromCNTKMB_unpack (inputs : list (Value E)) (isSequence : list bool)
    (device : DeviceDescriptor) (i : nat)
  : outcome (CNTKVariable E * list (NDArrayView E)) :=
  obind (of_option (inputs !! i)) (λ input,
  let fullShape := Shape (Data input) in
  obind (SubShape fullShape 0 (size_sub (Rank fullShape) 2)) (λ sampleShape,
  obind (of_option (isSequence !! i)) (λ isSeq,
  let dynamicAxes :=
    if isSeq : bool then DefaultInputVariableDynamicAxes else [DefaultBatchAxis] in
  let variable :=
    InputVariable sampleShape (IsSparse (Data input)) (GetDataType (Data input))
                  dynamicAxes in
  obind (UnpackVariableValue input variable device) (λ sequences,
  Ret (variable, sequences))))).

(** [arg.resize(numSeq)], then the loop over the sequences. *)
Definition FromCNTKMB_fill (hasAxis : bool) (sequences : list (NDArrayView E))
    (numSeq : nat) : M (list (CNTKVariable E) * World) unit :=
  (λ '(arg, w), (Ret tt, (resize numSeq DefaultVariable arg, w))) ;;;
  for_loop (FromCNTKMB_example hasAxis sequences) numSeq 0.

(** The body of the loop over the arguments. *)
Definition FromCNTKMB_arg (inputs : list (Value E)) (isSequence : list bool)
    (device : DeviceDescriptor) (i : nat) : M Locals unit :=
  prepared <~ lift (FromCNTKMB_unpack inputs isSequence device i) ;;
  let '(variable, sequences) := prepared in
  check_numSeq (length sequences) ;;;
  let hasAxis := (1 <? length (DynamicAxes variable))%nat in
  σ <~ get ;;
  in_arg i (FromCNTKMB_fill hasAxis sequences (numSeq σ)).

(** The state in which the loop over the arguments starts: [res] cleared
    and resized to [numArgs] entries, [numSeq = 0]. *)
Definition FromCNTKMB_entry (inputs : list (Value E)) (w : World) : Locals :=
  let numArgs := length inputs in
  let res1 : list (list (CNTKVariable E)) := [] in (* res.clear() *)
  let res2 := resize numArgs [] res1 in
  {| res := res2; numSeq := 0; world := w |}.

(** The first [i] iterations of the loop over the arguments. *)
Definition FromCNTKMB_upto (inputs : list (Value E)) (isSequence : list bool)
    (device : DeviceDescriptor) (w : World) (i : nat) : outcome unit * Locals :=
  for_loop (FromCNTKMB_arg inputs isSequence device) i 0 (FromCNTKMB_entry inputs w).

(** [FromCNTKMB]: returns vector[numArgs] OF vector[numBatchItems] OF
    Constant. The result is the outcome of the call together with [res]
    and the cache as the call leaves them. *)
Definition FromCNTKMB (res0 : list (list (CNTKVariable E))) (inputs : list (Value E))
    (isSequence : list bool) (device : DeviceDescriptor) (w : World)
  : outcome unit * list (list (CNTKVariable E)) * World :=
  let numArgs := length inputs in
  let '(o, σ') := FromCNTKMB_upto inputs isSequence device w numArgs in
  (o, res σ', world σ').

End Helpers.
Arguments World E : clear implicits.
Arguments Locals E : clear implicits.

(** ** Vocabulary of the specification *)
Section Specification.
Context {E : Type} `{Element E}.

(** [b] is the buffer of the identity matrix of order [n]. *)
Definition is_eye (n : nat) (b : list E) : Prop :=
  length b = (n * n)%nat ∧
  ∀ i j : nat, (i < n)%nat → (j < n)%nat →
    b !! (i * n + j)%nat = Some (if (i =? j)%nat then e_one else e_zero).

(** The buffer after the first [k] iterations of the loop of [MakeEye]. *)
Definition eye_upto (n k : nat) (b : list E) : Prop :=
  length b = (n * n)%nat ∧
  ∀ i j : nat, (i < n)%nat → (j < n)%nat →
    b !! (i * n + j)%nat =
      Some (if (i =? j)%nat && (i <? k)%nat then e_one else e_zero).

(** [t] is an identity tensor of order [n]: dense, of shape [n x n]. *)
Definition identity_tensor (n : N) (dataType : DataType) (t : NDArrayView E) : Prop :=
  GetDataType t = dataType ∧ Shape t = [n; n] ∧ IsSparse t = false ∧
  is_eye (N.to_nat n) (buffer t).

(** [sizeof] of the element type that [Eye] hands to [MakeEye] for a data
    type: 4 for [float], 8 for [double]. *)
Definition ElementType_size (dataType : DataType) : N :=
  match dataType with Double => 8 | _ => 4 end.

(** The buffer of [MakeEye] for the order [n] can be constructed: [n*n]
    elements are at most [max_size()] and the free store grants them. *)
Definition buffer_fits (dataType : DataType) (n : N) (w : World E) : Prop :=
  (n * n ≤ vector_max_size (ElementType_size dataType))%N ∧
  can_allocate w (n * n * ElementType_size dataType)%N = true.

(** Every cached tensor was built by [MakeEye] for its own key, and the
    key has a supported data type. This holds for the empty cache and is
    kept by [Eye], the only code that writes the cache. *)
Definition cache_ok (w : World E) : Prop :=
  ∀ (n : N) (dataType : DataType) (t : NDArrayView E),
    cached w !! (n, dataType) = Some t →
    (dataType = Float ∨ dataType = Double) ∧
    ∃ (elementSize : N) (device : DeviceDescriptor) (w0 w1 : World E),
      MakeEye elementSize n dataType device w0 = (Ret t, w1).

(** A sequence of later calls of [Eye], whatever their outcomes. *)
Fixpoint Eye_calls (calls : list (N * DataType * DeviceDescriptor)) (w : World E)
  : World E :=
  match calls with
  | [] => w
  | (n, dataType, device) :: calls' => Eye_calls calls' (Eye n dataType device w).2
  end.

(** The input variable that [FromCNTKMB] creates for a stream. *)
Definition stream_variable (input : Value E) (sampleShape : NDShape) (isSeq : bool)
  : CNTKVariable E :=
  InputVariable sampleShape (IsSparse (Data input)) (GetDataType (Data input))
    (if isSeq then DefaultInputVariableDynamicAxes else [DefaultBatchAxis]).

(** The claim that a failing call leaves no partial result: after a throw
    the caller's collection holds no example. *)
Definition leaves_no_partial_result (inputs : list (Value E))
    (isSequence : list bool) (device : DeviceDescriptor) (w : World E) : Prop :=
  ∀ (res0 res' : list (list (CNTKVariable E))) (e : exn) (w' : World E),
    FromCNTKMB res0 inputs isSequence device w = (Throw e, res', w') →
    ∀ arg : list (CNTKVariable E), arg ∈ res' → arg = [].

(** The invariants of the two loops of [FromCNTKMB], relative to a
    property [Pw] of the cache. *)
Section Invariants.
Variable Pw : World E → Prop.
Variables (inputs : list (Value E)) (isSequence : list bool)
          (device : DeviceDescriptor).

(** Entry [s] of an argument holds the constant made from sequence [s]. *)
Definition example_done (hasAxis : bool) (sequences : list (NDArrayView E))
    (s : nat) (v : option (CNTKVariable E)) : Prop :=
  ∃ (data d1 d2 : NDArrayView E) (wa wb : World E),
    sequences !! s = Some data ∧
    FromCNTKMB_shape hasAxis data = Ret d1 ∧
    Pw wa ∧ FromCNTKMB_dense d1 wa = (Ret d2, wb) ∧
    v = Some (Constant d2).

(** Entry [j] of [res] holds one constant per unpacked sequence of
    argument [j]. *)
Definition arg_done (j : nat) (r : option (list (CNTKVariable E))) : Prop :=
  ∃ (variable : CNTKVariable E) (sequences : list (NDArrayView E))
    (arg : list (CNTKVariable E)),
    FromCNTKMB_unpack inputs isSequence device j = Ret (variable, sequences) ∧
    r = Some arg ∧ length arg = length sequences ∧
    ∀ s : nat, (s < length sequences)%nat →
      example_done (1 <? length (DynamicAxes variable))%nat sequences s (arg !! s).

(** The invariant of the loop over the arguments, before iteration [i]. *)
Definition args_inv (i : nat) (σ : Locals E) : Prop :=
  Pw (world σ) ∧ length (res σ) = length inputs ∧
  (∀ j : nat, (j < i)%nat → arg_done j (res σ !! j)) ∧
  (∀ j : nat, (i ≤ j < length inputs)%nat → res σ !! j = Some []) ∧
  (∀ j variable sequences, (j < i)%nat →
     FromCNTKMB_unpack inputs isSequence device j = Ret (variable, sequences) →
     length sequences = 0%nat ∨ length sequences = numSeq σ).

End Invariants.

End Specification.

(** ** Concrete batches *)
Section Batches.

(** Streams and tensors of integers on the CPU device, tagged [Float]. *)
Definition stream (shape : list N) (sparse : bool) (elements : list Z) : Value Z :=
  mkValue (mkNDArrayView Float shape CPUDevice sparse false elements).

(** One sequence, two sequences, three sequences: sample shape [2],
    length 1. *)
Definition batch_of_1 : Value Z := stream [2; 1; 1]%N false [1; 2]%Z.
Definition batch_of_2 : Value Z := stream [2; 1; 2]%N false [3; 4; 5; 6]%Z.
Definition batch_of_3 : Value Z := stream [2; 1; 3]%N false [1; 2; 3; 4; 5; 6]%Z.

Definition dense_view (shape : list N) (elements : list Z) : NDArrayView Z :=
  mkNDArrayView Float shape CPUDevice false false elements.

Definition tensor_2x3 : NDArrayView Z := dense_view [2; 3]%N [1; 2; 3; 4; 5; 6]%Z.

Definition eye_2 : NDArrayView Z := dense_view [2; 2]%N [1; 0; 0; 1]%Z.

(** A sparse stream of two examples of shape [2] and length 1, and a dense
    stream of two sequences of length 2. *)
Definition sparse_batch : Value Z := stream [2; 1; 2]%N true [3; 4; 5; 6]%Z.
Definition long_batch : Value Z := stream [2; 2; 2]%N false [1; 2; 3; 4; 5; 6; 7; 8]%Z.

(** A stream of one sequence of length 2, and a sparse stream of one
    example tagged with an element type that [Eye] does not support. *)
Definition long_single : Value Z := stream [2; 2; 1]%N false [1; 2; 3; 4]%Z.
Definition uchar_batch : Value Z :=
  mkValue (mkNDArrayView UChar [2; 1; 1]%N CPUDevice true false [7; 8]%Z).

(** Single-precision values: 1, 2, 3 and +infinity. *)
Definition float_1 : binary32 := S754_finite false 8388608 (-23).
Definition float_2 : binary32 := S754_finite false 8388608 (-22).
Definition float_3 : binary32 := S754_finite false 12582912 (-22).
Definition float_inf : binary32 := S754_infinity false.

(** Sparse examples of single-precision values and the streams of one
    example that hold them: the vector (2, 3), and the vector (+inf, 1). *)
Definition float_example : NDArrayView binary32 :=
  mkNDArrayView Float [2]%N CPUDevice true false [float_2; float_3].
Definition float_batch : Value binary32 :=
  mkValue (mkNDArrayView Float [2; 1; 1]%N CPUDevice true false [float_2; float_3]).

Definition inf_example : NDArrayView binary32 :=
  mkNDArrayView Float [2]%N CPUDevice true false [float_inf; float_1].
Definition inf_batch : Value binary32 :=
  mkValue (mkNDArrayView Float [2; 1; 1]%N CPUDevice true false [float_inf; float_1]).

End Batches.

(** ** The scalar laws hold for the integers *)
#[export] Instance Z_ElementLaws : ElementLaws Z.
Proof. split; intros x; unfold e_add, e_mul, e_zero, e_one; simpl; lia. Qed.

(** Exact arithmetic is exact on every value. *)
Lemma ElementLaws_ExactOn {E : Type} `{Element E} :
  ElementLaws E → ExactOn (λ _ : E, True).
Proof.
  intros laws. split; intros.
  - rewrite e_mul_0_l. apply e_add_0_l.
  - rewrite e_mul_1_l. apply e_add_0_l.
  - rewrite e_mul_0_l. apply e_add_0_r.
  - apply e_mul_1_l.
Qed.

#[export] Instance Z_ExactOn : ExactOn (λ _ : Z, True).
Proof. apply ElementLaws_ExactOn. exact Z_ElementLaws. Qed.

(** ** Floating-point arithmetic is exact on the plain values *)

(** The product of 1 with a finite value is that value: the product of
    the mantissas is shifted back by the rounding step without losing a
    bit. *)
Ltac mul_by_one prec emax m e :=
  let Hb := fresh "Hb" in
  let Hc := fresh "Hc" in
  let He := fresh "He" in
  intros Hb; unfold bounded in Hb; apply andb_prop in Hb as [Hc He];
  unfold canonical_mantissa in Hc; apply Z.eqb_eq in Hc;
  unfold SFmul; cbv beta iota delta [xorb PosDef.Pos.mul];
  unfold binary_round_aux, shr_fexp;
  cbn [Zdigits2 digits2_pos shr_record_of_loc];
  match goal with
  | |- context [fexp prec emax (Z.pos ?d + (?c + e))%Z] =>
      replace (Z.pos d + (c + e))%Z with (Z.pos (digits2_pos m) + e)%Z by lia;
      rewrite Hc; replace (e - (c + e))%Z with (- c)%Z by lia
  end;
  cbv beta iota zeta delta
    [IntDef.Z.opp SpecFloat.shr SpecFloat.iter_pos SpecFloat.shr_1 SpecFloat.shr_m
     SpecFloat.shr_r SpecFloat.shr_s orb SpecFloat.loc_of_shr_record
     SpecFloat.round_nearest_even SpecFloat.Zdigits2];
  match goal with
  | |- context [fexp prec emax (Z.pos (digits2_pos m) + ?e')%Z] =>
      replace e' with e by lia; rewrite Hc
  end;
  rewrite Z.sub_diag, He; reflexivity.

Lemma binary32_mul_1 (s : bool) (m : positive) (e : Z) :
  bounded 24 128 m e = true →
  SFmul 24 128 (S754_finite false 8388608 (-23)) (S754_finite s m e)
    = S754_finite s m e.
Proof. mul_by_one (24%Z) (128%Z) m e. Qed.

Lemma binary64_mul_1 (s : bool) (m : positive) (e : Z) :
  bounded 53 1024 m e = true →
  SFmul 53 1024 (S754_finite false 4503599627370496 (-52)) (S754_finite s m e)
    = S754_finite s m e.
Proof. mul_by_one (53%Z) (1024%Z) m e. Qed.

Ltac float_laws mul_1 :=
  split; unfold e_add, e_mul, e_zero, e_one; cbn [binary32_Element binary64_Element];
  [ intros [[] | | | [] m e] Hy; try discriminate Hy; try contradiction Hy; reflexivity
  | intros [[] | | | s m e] Hx; try discriminate Hx; try contradiction Hx;
    [reflexivity | rewrite (mul_1 s m e Hx); reflexivity]
  | intros [[] | | | s m e] [[] | | | [] m' e'] Hx Hy;
    try discriminate Hx; try contradiction Hx;
    try discriminate Hy; try contradiction Hy; reflexivity
  | intros [[] | | | s m e] Hx; try discriminate Hx; try contradiction Hx;
    [reflexivity | apply (mul_1 s m e Hx)] ].

#[export] Instance binary32_ExactOn : @ExactOn binary32 binary32_Element (plain 24 128).
Proof. float_laws binary32_mul_1. Qed.

Lemma binary64_ExactOn : @ExactOn binary64 binary64_Element (plain 53 1024).
Proof. float_laws binary64_mul_1. Qed.

(** ** Loops *)
Section Loops.
Context {St : Type}.
Implicit Types (body : nat → M St unit) (I : nat → St → Prop).

Lemma for_loop_S body (todo i : nat) (s : St) :
  for_loop body (S todo) i s =
    match body i s with
    | (Ret _, s') => for_loop body todo (S i) s'
    | (Throw e, s') => (Throw e, s')
    | (Undef, s') => (Undef, s')
    end.
Proof. reflexivity. Qed.

(** Every iteration returns and keeps the invariant: so does the loop. *)
Lemma for_loop_ret body I (todo i : nat) (s : St) :
  I i s →
  (∀ k t, (i ≤ k < i + todo)%nat → I k t →
          ∃ t', body k t = (Ret tt, t') ∧ I (S k) t') →
  ∃ s', for_loop body todo i s = (Ret tt, s') ∧ I (i + todo)%nat s'.
Proof.
  revert i s. induction todo as [|todo IH]; intros i s Hi Hstep.
  - exists s. rewrite Nat.add_0_r. split; [reflexivity | exact Hi].
  - destruct (Hstep i s ltac:(lia) Hi) as (t' & Hb & Hi').
    destruct (IH (S i) t' Hi') as (s' & Hl & Hs').
    { intros k t Hk. apply Hstep. lia. }
    exists s'. rewrite for_loop_S, Hb. split; [exact Hl|].
    replace (i + S todo)%nat with (S i + todo)%nat by lia. exact Hs'.
Qed.

(** The invariant rule: a loop that returns has kept the invariant through
    every iteration; a loop that does not return stopped in its first
    failing iteration [k], entered in a state that satisfies the
    invariant. *)
Lemma for_loop_inv body I (todo i : nat) (s : St) (o : outcome unit) (s' : St) :
  I i s →
  (∀ k t t', (i ≤ k < i + todo)%nat → I k t → body k t = (Ret tt, t') → I (S k) t') →
  for_loop body todo i s = (o, s') →
  (o = Ret tt ∧ I (i + todo)%nat s') ∨
  (o ≠ Ret tt ∧ ∃ k t, (i ≤ k < i + todo)%nat ∧ I k t ∧ body k t = (o, s')).
Proof.
  revert i s. induction todo as [|todo IH]; intros i s Hi Hstep Hrun.
  - left. simpl in Hrun. unfold ret in Hrun. injection Hrun as <- <-.
    rewrite Nat.add_0_r. split; [reflexivity | exact Hi].
  - rewrite for_loop_S in Hrun.
    destruct (body i s) as [[[] | e |] t] eqn:Hb.
    + destruct (IH (S i) t) as [[-> Hs'] | (Hne & k & u & Hk & Hu & Hbk)].
      * apply (Hstep i s t); [lia | exact Hi | exact Hb].
      * intros k u u' Hk. apply Hstep. lia.
      * exact Hrun.
      * left. split; [reflexivity|].
        replace (i + S todo)%nat with (S i + todo)%nat by lia. exact Hs'.
      * right. split; [exact Hne|]. exists k, u. split; [lia|]. split; assumption.
    + injection Hrun as <- <-. right. split; [discriminate|].
      exists i, s. split; [lia|]. split; assumption.
    + injection Hrun as <- <-. right. split; [discriminate|].
      exists i, s. split; [lia|]. split; assumption.
Qed.

(** A loop of [a + b] iterations is the loop of the first [a] followed by
    the loop of the last [b]. *)
Lemma for_loop_add body (a b i : nat) (s : St) :
  for_loop body (a + b) i s =
    match for_loop body a i s with
    | (Ret _, s') => for_loop body b (i + a) s'
    | (Throw e, s') => (Throw e, s')
    | (Undef, s') => (Undef, s')
    end.
Proof.
  revert i s. induction a as [|a IH]; intros i s.
  - simpl. rewrite Nat.add_0_r. reflexivity.
  - change (S a + b)%nat with (S (a + b)). rewrite !for_loop_S.
    destruct (body i s) as [[[] | e |] t]; try reflexivity.
    rewrite IH. replace (i + S a)%nat with (S i + a)%nat by lia. reflexivity.
Qed.

(** A loop that does not return stopped in iteration [i + a]: the first
    [a] iterations returned and the next one ended the loop. *)
Lemma for_loop_stops body (todo i : nat) (s : St) (o : outcome unit) (s' : St) :
  for_loop body todo i s = (o, s') → o ≠ Ret tt →
  ∃ (a : nat) (t : St),
    (a < todo)%nat ∧ for_loop body a i s = (Ret tt, t) ∧
    body (i + a)%nat t = (o, s').
Proof.
  revert i s. induction todo as [|todo IH]; intros i s Hrun Hne.
  - simpl in Hrun. unfold ret in Hrun. injection Hrun as <- _. contradiction.
  - rewrite for_loop_S in Hrun.
    destruct (body i s) as [[[] | e |] t] eqn:Hb.
    + destruct (IH (S i) t Hrun Hne) as (a & t' & Ha & Hloop & Hlast).
      exists (S a), t'. split; [lia|]. split.
      * rewrite for_loop_S, Hb. exact Hloop.
      * replace (i + S a)%nat with (S i + a)%nat by lia. exact Hlast.
    + exists 0%nat, s. split; [lia|]. split; [reflexivity|].
      rewrite Nat.add_0_r, Hb. exact Hrun.
    + exists 0%nat, s. split; [lia|]. split; [reflexivity|].
      rewrite Nat.add_0_r, Hb. exact Hrun.
Qed.

End Loops.

(** ** Shapes and column-major buffers *)
Section Buffers.
Context {E : Type} `{Element E}.

Lemma TotalSize_app (s1 s2 : NDShape) :
  TotalSize (s1 ++ s2) = (TotalSize s1 * TotalSize s2)%N.
Proof.
  unfold TotalSize. induction s1 as [|d s1 IH]; simpl.
  - destruct (foldr N.mul 1%N s2); reflexivity.
  - rewrite IH. lia.
Qed.

Lemma TotalSize_rev (s : NDShape) : TotalSize (rev s) = TotalSize s.
Proof.
  induction s as [|d s IH]; simpl; [reflexivity|].
  rewrite TotalSize_app, IH. unfold TotalSize. simpl. lia.
Qed.

Lemma TotalSize_cons (d : N) (s : NDShape) :
  TotalSize (d :: s) = (d * TotalSize s)%N.
Proof. reflexivity. Qed.

(** Cutting a buffer into [d] consecutive chunks of [stride] elements and
    gluing them back gives the buffer. *)
Lemma concat_chunks (stride d : nat) (buf : list E) :
  length buf = (d * stride)%nat →
  concat (map (λ k, take stride (drop (k * stride) buf)) (seq 0 d)) = buf.
Proof.
  revert buf. induction d as [|d IH]; intros buf Hlen.
  - simpl in *. destruct buf; [reflexivity | discriminate].
  - change (seq 0 (S d)) with (0%nat :: seq 1 d).
    rewrite <- List.seq_shift, map_cons, List.map_map. simpl concat.
    transitivity (take stride buf ++ drop stride buf); [|apply take_drop].
    f_equal.
    transitivity (concat (map (λ k, take stride (drop (k * stride) (drop stride buf)))
                              (seq 0 d))).
    + f_equal. apply map_ext. intros k. rewrite drop_drop. f_equal.
    + apply IH. rewrite length_drop. lia.
Qed.

(** A slice that starts at the origin and spans every axis is the whole
    buffer. *)
Lemma slice_rev_full (rd : list N) (buf : list E) :
  length buf = N.to_nat (TotalSize rd) →
  slice_rev rd (replicate (length rd) 0%N) rd buf = buf.
Proof.
  revert buf. induction rd as [|d rd IH]; intros buf Hlen; [reflexivity|].
  simpl. rewrite TotalSize_cons, N2Nat.inj_mul in Hlen.
  set (stride := N.to_nat (TotalSize rd)) in *.
  etransitivity; [|apply (concat_chunks stride (N.to_nat d) buf Hlen)].
  f_equal. apply map_ext_in. intros k Hk. apply in_seq in Hk.
  apply IH. rewrite length_take, length_drop. nia.
Qed.

Lemma rev_replicate {A : Type} (n : nat) (x : A) :
  rev (replicate n x) = replicate n x.
Proof.
  induction n as [|n IH]; [reflexivity|].
  rewrite replicate_S_end at 2. simpl. rewrite IH. reflexivity.
Qed.

Lemma slice_in_range_index (init : list N) (d i : N) :
  slice_in_range (init ++ [d]) (replicate (length init) 0%N ++ [i]) (init ++ [1%N])
  = (i + 1 <=? d)%N.
Proof.
  unfold slice_in_range. induction init as [|e init IH]; simpl.
  - apply andb_true_r.
  - rewrite IH. rewrite N.leb_refl. reflexivity.
Qed.

End Buffers.

(** ** Index *)
Section Index_correct.
Context {E : Type} `{Element E}.

Lemma Index_unfold (T : NDArrayView E) (init : list N) (d i : N) :
  Shape T = init ++ [d] →
  Index T i =
    if (i =? 0)%N && (d =? 1)%N then AsShape T init
    else SliceView T (replicate (length init) 0%N ++ [i]) init true.
Proof.
  intros Hshape. unfold Index, Dimensions. rewrite Hshape.
  rewrite length_app. simpl length.
  replace (length init + 1)%nat with (S (length init)) by lia.
  rewrite replicate_S_end, !last_snoc, removelast_last.
  rewrite length_app, length_replicate. simpl length.
  replace (Init.Nat.pred (length init + 1)) with (length init + 0)%nat by lia.
  replace (<[(length init + 0)%nat := i]> (replicate (length init) 0%N ++ [0%N]))
    with (replicate (length init) 0%N ++ [i]).
  2:{ rewrite insert_app_r_alt by (rewrite length_replicate; lia).
      rewrite length_replicate.
      replace (length init + 0 - length init)%nat with 0%nat by lia. reflexivity. } rewrite (N.eqb_sym 0 i).
  destruct (i =? 0)%N, (d =? 1)%N; reflexivity.
Qed.

Lemma SliceView_last (T : NDArrayView E) (init : list N) (d i : N) :
  Shape T = init ++ [d] → (i < d)%N → well_formed T →
  SliceView T (replicate (length init) 0%N ++ [i]) init true =
    Ret {| GetDataType := GetDataType T; Shape := init; Device := Device T;
           IsSparse := IsSparse T; IsReadOnly := true;
           buffer := take (N.to_nat (TotalSize init))
                          (drop (N.to_nat i * N.to_nat (TotalSize init)) (buffer T)) |}.
Proof.
  intros Hshape Hi Hwf. unfold SliceView, Dimensions, pad_extent. rewrite Hshape.
  rewrite !length_app, length_replicate. simpl length.
  replace (length init + 1 - length init)%nat with 1%nat by lia. simpl replicate.
  rewrite Nat.eqb_refl, slice_in_range_index.
  replace (length init <=? length init + 1)%nat with true
    by (symmetry; apply Nat.leb_le; lia).
  replace (i + 1 <=? d)%N with true by (symmetry; apply N.leb_le; lia).
  simpl andb. cbv iota. do 2 f_equal.
  rewrite !rev_unit. simpl. rewrite app_nil_r.
  rewrite rev_replicate. rewrite TotalSize_rev.
  rewrite Nat.add_0_r.
  rewrite <- (length_rev init) at 1.
  apply slice_rev_full.
  unfold well_formed in Hwf. rewrite Hshape, TotalSize_app in Hwf.
  rewrite length_take, length_drop, TotalSize_rev, Hwf.
  change (TotalSize [d]) with (d * 1)%N.
  rewrite N2Nat.inj_mul. generalize (N.to_nat (TotalSize init)). intros p.
  assert (N.to_nat i < N.to_nat (d * 1))%nat by lia. nia.
Qed.

Lemma AsShape_last (T : NDArrayView E) (init : list N) :
  Shape T = init ++ [1%N] →
  AsShape T init =
    Ret {| GetDataType := GetDataType T; Shape := init; Device := Device T;
           IsSparse := IsSparse T; IsReadOnly := IsReadOnly T; buffer := buffer T |}.
Proof.
  intros Hshape. unfold AsShape. rewrite Hshape, TotalSize_app.
  change (TotalSize [1%N]) with 1%N. rewrite N.mul_1_r, N.eqb_refl. reflexivity.
Qed.

(** C3: for a tensor [T] of rank at least 1 (shape [init ++ [d]]) and a
    valid index [i < d] on its last axis, [Index T i] returns a tensor of
    shape [init] (the last axis is gone on both paths) that holds the slice
    of [T] at offset [i] on that axis, with the data type, device and
    storage format of [T]; the reshape path ([AsShape]) is taken exactly
    when [i = 0] and [d = 1], the slice path ([SliceView]) otherwise. *)
Theorem Index_drops_last_axis (T : NDArrayView E) (init : list N) (d i : N) :
  Shape T = init ++ [d] → (i < d)%N → well_formed T →
  let P := N.to_nat (TotalSize init) in
  ∃ T' : NDArrayView E,
    Index T i = Ret T' ∧
    Shape T' = init ∧
    length (Shape T') = Init.Nat.pred (length (Shape T)) ∧
    buffer T' = take P (drop (N.to_nat i * P) (buffer T)) ∧
    (∀ k : nat, (k < P)%nat → buffer T' !! k = buffer T !! (N.to_nat i * P + k)%nat) ∧
    well_formed T' ∧
    GetDataType T' = GetDataType T ∧ Device T' = Device T ∧
    IsSparse T' = IsSparse T ∧
    Index T i = (if (i =? 0)%N && (d =? 1)%N then AsShape T init
                 else SliceView T (replicate (length init) 0%N ++ [i]) init true).
Proof.
  intros Hshape Hi Hwf P.
  assert (Hlen : length (buffer T) = (P * N.to_nat d)%nat).
  { unfold well_formed in Hwf. rewrite Hwf, Hshape, TotalSize_app.
    change (TotalSize [d]) with (d * 1)%N. unfold P. lia. }
  assert (Hchunk : length (take P (drop (N.to_nat i * P) (buffer T))) = P).
  { rewrite length_take, length_drop, Hlen.
    assert (N.to_nat i < N.to_nat d)%nat by lia. nia. }
  pose proof (Index_unfold T init d i Hshape) as Hpath.
  assert (Hres : Index T i =
    Ret {| GetDataType := GetDataType T; Shape := init; Device := Device T;
           IsSparse := IsSparse T;
           IsReadOnly := if (i =? 0)%N && (d =? 1)%N then IsReadOnly T else true;
           buffer := take P (drop (N.to_nat i * P) (buffer T)) |}).
  { rewrite Hpath. destruct ((i =? 0)%N && (d =? 1)%N) eqn:Hcase.
    - apply andb_true_iff in Hcase as [Hi0 Hd1].
      apply N.eqb_eq in Hi0, Hd1. subst i d.
      rewrite (AsShape_last T init Hshape). do 2 f_equal.
      simpl. rewrite drop_0. rewrite take_ge; [reflexivity | lia].
    - apply (SliceView_last T init d i Hshape Hi Hwf). }
  eexists. split; [exact Hres|]. simpl.
  repeat split; try reflexivity.
  - rewrite Hshape, length_app. simpl. lia.
  - intros k Hk. rewrite lookup_take_lt by exact Hk. apply lookup_drop.
  - unfold well_formed. simpl. exact Hchunk.
  - exact Hpath.
Qed.

End Index_correct.

(** ** MakeEye and Eye *)
Section Eye_correct.
Context {E : Type} `{Element E}.

Lemma MakeEye_index (n : N) (k : nat) :
  (n * n < SIZE_MOD)%N → (k < N.to_nat n)%nat →
  N.to_nat (size_add (size_mul (N.of_nat k) n) (N.of_nat k))
  = (k * N.to_nat n + k)%nat.
Proof.
  intros Hn Hk. unfold size_add, size_mul.
  assert (N.of_nat k * n + N.of_nat k < n * n)%N by nia.
  rewrite (N.mod_small (N.of_nat k * n)) by nia.
  rewrite N.mod_small by lia. lia.
Qed.

Lemma MakeEye_loop (n : N) :
  (n * n < SIZE_MOD)%N →
  ∃ b : list E,
    for_loop (MakeEye_set n) (N.to_nat n) 0
             (replicate (N.to_nat (size_mul n n)) e_zero) = (Ret tt, b)
    ∧ is_eye (N.to_nat n) b.
Proof.
  intros Hn. set (m := N.to_nat n).
  destruct (for_loop_ret (MakeEye_set n) (eye_upto m) m 0
              (replicate (N.to_nat (size_mul n n)) e_zero)) as (b & Hrun & Hb).
  - unfold size_mul. rewrite N.mod_small by exact Hn.
    split.
    + rewrite length_replicate. unfold m. lia.
    + intros i j Hi Hj.
      replace ((i <? 0)%nat) with false by reflexivity.
      rewrite andb_false_r. apply lookup_replicate_2. unfold m in *. nia.
  - intros k b [_ Hk] [Hlen Hb]. unfold MakeEye_set.
    rewrite (MakeEye_index n k Hn) by (unfold m in Hk; lia). fold m.
    assert (Hin : (k * m + k < length b)%nat) by (rewrite Hlen; nia).
    apply Nat.ltb_lt in Hin as Hin'. rewrite Hin'.
    eexists. split; [reflexivity|]. split.
    + rewrite length_insert. exact Hlen.
    + intros i j Hi Hj.
      destruct (decide (i = k ∧ j = k)) as [[-> ->] | Hne].
      * rewrite list_lookup_insert_eq by exact Hin.
        rewrite Nat.eqb_refl. replace (k <? S k)%nat with true
          by (symmetry; apply Nat.ltb_lt; lia). reflexivity.
      * rewrite list_lookup_insert_ne.
        2:{ intros Heq. apply Hne.
            assert (i = k) by nia. subst i. split; [reflexivity | lia]. }
        rewrite (Hb i j Hi Hj).
        destruct (i =? j)%nat eqn:Hij; [|reflexivity].
        apply Nat.eqb_eq in Hij. subst j.
        assert (i ≠ k) by (intros ->; apply Hne; split; reflexivity).
        replace (i <? S k)%nat with (i <? k)%nat; [reflexivity|].
        destruct (Nat.ltb_spec i k), (Nat.ltb_spec i (S k)); try reflexivity; lia.
  - exists b. split; [exact Hrun|]. destruct Hb as [Hlen Hb]. split; [exact Hlen|].
    intros i j Hi Hj. rewrite (Hb i j Hi Hj). simpl.
    replace (i <? m)%nat with true by (symmetry; apply Nat.ltb_lt; lia).
    rewrite andb_true_r. reflexivity.
Qed.

(** [MakeEye] step by step: the call is counted, the buffer is
    constructed, the loop sets the diagonal, the host tensor is cloned. *)
Lemma MakeEye_unfold (elementSize n : N) (dataType : DataType)
    (device : DeviceDescriptor) (w : World E) :
  MakeEye elementSize n dataType device w =
    let w1 := (count_MakeEye w).2 in
    match vector_new elementSize (size_mul n n) e_zero w1 with
    | (Ret buffer, _) =>
        match for_loop (MakeEye_set n) (N.to_nat n) 0 buffer with
        | (Ret _, buffer) =>
            (Ret (DeepClone (mkNDArrayView dataType [n; n] CPUDevice false false buffer)
                            device), w1)
        | (Throw e, _) => (Throw e, w1)
        | (Undef, _) => (Undef, w1)
        end
    | (Throw e, _) => (Throw e, w1)
    | (Undef, _) => (Undef, w1)
    end.
Proof.
  unfold MakeEye, bind, count_MakeEye, vector_new, on_local, ret. simpl.
  destruct (_ <? _)%N; [reflexivity|].
  destruct (can_allocate w _); [|reflexivity].
  destruct (for_loop _ _ _ _) as [[[] | e |] b]; reflexivity.
Qed.

(** [MakeEye] changes nothing but the count of its calls. *)
Lemma MakeEye_world (elementSize n : N) (dataType : DataType)
    (device : DeviceDescriptor) (w : World E) :
  (MakeEye elementSize n dataType device w).2 = (count_MakeEye w).2.
Proof.
  rewrite MakeEye_unfold. cbv zeta. unfold vector_new.
  destruct (_ <? _)%N; [reflexivity|].
  destruct (can_allocate _ _); [|reflexivity].
  destruct (for_loop _ _ _ _) as [[[] | e |] b]; reflexivity.
Qed.

Lemma vector_new_fits (elementSize count : N) (value : E) (w : World E) :
  (count ≤ vector_max_size elementSize)%N →
  can_allocate w (count * elementSize)%N = true →
  vector_new elementSize count value w = (Ret (replicate (N.to_nat count) value), w).
Proof.
  intros Hmax Hmem. unfold vector_new.
  replace (vector_max_size elementSize <? count)%N with false
    by (symmetry; apply N.ltb_ge; exact Hmax).
  rewrite Hmem. reflexivity.
Qed.

Lemma max_size_no_wrap (elementSize count : N) :
  (count ≤ vector_max_size elementSize)%N → (count < SIZE_MOD)%N.
Proof.
  intros Hmax. unfold vector_max_size in Hmax.
  assert (PTRDIFF_MAX / elementSize ≤ PTRDIFF_MAX)%N.
  { destruct (N.eq_dec elementSize 0%N) as [-> | Hne]; [vm_compute; discriminate|].
    apply N.Div0.div_le_upper_bound. nia. }
  assert (PTRDIFF_MAX < SIZE_MOD)%N by reflexivity. lia.
Qed.

Lemma MakeEye_ok (elementSize n : N) (dataType : DataType)
    (device : DeviceDescriptor) (w : World E) :
  (n * n ≤ vector_max_size elementSize)%N →
  can_allocate w (n * n * elementSize)%N = true →
  ∃ b : list E,
    for_loop (MakeEye_set n) (N.to_nat n) 0
             (replicate (N.to_nat (size_mul n n)) e_zero) = (Ret tt, b)
    ∧ is_eye (N.to_nat n) b
    ∧ MakeEye elementSize n dataType device w =
        (Ret (DeepClone (mkNDArrayView dataType [n; n] CPUDevice false false b) device),
         (count_MakeEye w).2).
Proof.
  intros Hmax Hmem. pose proof (max_size_no_wrap _ _ Hmax) as Hn.
  destruct (MakeEye_loop n Hn) as (b & Hrun & Hb).
  exists b. split; [exact Hrun|]. split; [exact Hb|].
  rewrite MakeEye_unfold. cbv zeta.
  assert (Hsz : size_mul n n = (n * n)%N) by (apply N.mod_small; exact Hn).
  rewrite vector_new_fits by (rewrite Hsz; assumption).
  rewrite Hrun. reflexivity.
Qed.

Lemma MakeEye_identity (elementSize n : N) (dataType : DataType)
    (device : DeviceDescriptor) (w w' : World E) (t : NDArrayView E) :
  (n * n < SIZE_MOD)%N → MakeEye elementSize n dataType device w = (Ret t, w') →
  identity_tensor n dataType t ∧ Device t = device.
Proof.
  intros Hn Hmk. destruct (MakeEye_loop n Hn) as (b & Hrun & Hb).
  rewrite MakeEye_unfold in Hmk. cbv zeta in Hmk. unfold vector_new in Hmk.
  destruct (_ <? _)%N; [discriminate|].
  destruct (can_allocate _ _); [|discriminate].
  rewrite Hrun in Hmk. injection Hmk as <- _.
  repeat split; try reflexivity; apply Hb.
Qed.

Lemma cache_ok_initial : cache_ok initial_world.
Proof. intros n dt t Hl. simpl in Hl. rewrite lookup_empty in Hl. discriminate. Qed.

Lemma Eye_hit (n : N) (dataType : DataType) (device : DeviceDescriptor)
    (w : World E) (t : NDArrayView E) :
  cached w !! (n, dataType) = Some t → Eye n dataType device w = (Ret t, w).
Proof. intros Hl. unfold Eye. rewrite Hl. reflexivity. Qed.

Lemma Eye_miss_unsupported (n : N) (dataType : DataType) (device : DeviceDescriptor)
    (w : World E) :
  cached w !! (n, dataType) = None → dataType ≠ Float → dataType ≠ Double →
  Eye n dataType device w = (Throw UnsupportedTypeError, w).
Proof.
  intros Hl Hf Hd. unfold Eye. rewrite Hl.
  destruct dataType; try congruence; reflexivity.
Qed.

Lemma Eye_miss_supported (n : N) (dataType : DataType) (device : DeviceDescriptor)
    (w : World E) :
  cached w !! (n, dataType) = None → dataType = Float ∨ dataType = Double →
  Eye n dataType device w =
    match MakeEye (ElementType_size dataType) n dataType device w with
    | (Ret eye, w1) => (Ret eye, (cache_insert (n, dataType) eye w1).2)
    | (Throw e, w1) => (Throw e, w1)
    | (Undef, w1) => (Undef, w1)
    end.
Proof.
  intros Hl Hdt. unfold Eye. rewrite Hl.
  destruct Hdt as [-> | ->]; unfold bind; simpl ElementType_size;
    destruct (MakeEye _ _ _ _ w) as [[eye | e |] w1]; reflexivity.
Qed.

(** [Eye] leaves the free store alone. *)
Lemma Eye_can_allocate (n : N) (dataType : DataType) (device : DeviceDescriptor)
    (w : World E) :
  can_allocate (Eye n dataType device w).2 = can_allocate w.
Proof.
  destruct (cached w !! (n, dataType)) as [t|] eqn:Hl.
  - rewrite (Eye_hit _ _ _ _ _ Hl). reflexivity.
  - destruct (decide (dataType = Float ∨ dataType = Double)) as [Hdt | Hdt].
    + rewrite (Eye_miss_supported _ _ _ _ Hl Hdt).
      pose proof (MakeEye_world (ElementType_size dataType) n dataType device w) as Hw.
      destruct (MakeEye _ _ _ _ w) as [[eye | e |] w1]; simpl in *; subst w1;
        reflexivity.
    + rewrite Eye_miss_unsupported by tauto. reflexivity.
Qed.

Lemma Eye_cache_ok (n : N) (dataType : DataType) (device : DeviceDescriptor)
    (w w' : World E) (o : outcome (NDArrayView E)) :
  cache_ok w → Eye n dataType device w = (o, w') → cache_ok w'.
Proof.
  intros Hok Hrun. destruct (cached w !! (n, dataType)) as [t|] eqn:Hl.
  - rewrite (Eye_hit _ _ _ _ _ Hl) in Hrun. injection Hrun as <- <-. exact Hok.
  - destruct (decide (dataType = Float ∨ dataType = Double)) as [Hdt | Hdt].
    + rewrite (Eye_miss_supported _ _ _ _ Hl Hdt) in Hrun.
      pose proof (MakeEye_world (ElementType_size dataType) n dataType device w) as Hw.
      destruct (MakeEye _ _ _ _ w) as [[eye | e |] w1] eqn:Hmk;
        injection Hrun as <- <-; simpl in Hw; subst w1; try exact Hok.
      intros n' dt' t Hl'. simpl in Hl'.
      destruct (decide ((n, dataType) = (n', dt'))) as [Heq | Hne].
      * injection Heq as <- <-. rewrite lookup_insert_eq in Hl'.
        injection Hl' as <-. split; [exact Hdt|]. eauto.
      * rewrite lookup_insert_ne in Hl' by exact Hne. exact (Hok _ _ _ Hl').
    + rewrite Eye_miss_unsupported in Hrun by tauto.
      injection Hrun as <- <-. exact Hok.
Qed.

(** The cache is append-only: [Eye] never changes or removes an entry. *)
Lemma Eye_keeps_entries (n : N) (dataType : DataType) (device : DeviceDescriptor)
    (w : World E) (key : N * DataType) (t : NDArrayView E) :
  cached w !! key = Some t → cached (Eye n dataType device w).2 !! key = Some t.
Proof.
  intros Hk.
  destruct (cached w !! (n, dataType)) as [t'|] eqn:Hl.
  - rewrite (Eye_hit _ _ _ _ _ Hl). exact Hk.
  - assert (Hne : (n, dataType) ≠ key) by (intros <-; congruence).
    destruct (decide (dataType = Float ∨ dataType = Double)) as [Hdt | Hdt].
    + rewrite (Eye_miss_supported _ _ _ _ Hl Hdt).
      pose proof (MakeEye_world (ElementType_size dataType) n dataType device w) as Hw.
      destruct (MakeEye _ _ _ _ w) as [[eye | e |] w1]; simpl in *; subst w1;
        simpl; try exact Hk.
      rewrite lookup_insert_ne by exact Hne. exact Hk.
    + rewrite Eye_miss_unsupported by tauto. exact Hk.
Qed.

Lemma Eye_calls_keep_entries (calls : list (N * DataType * DeviceDescriptor))
    (w : World E) (key : N * DataType) (t : NDArrayView E) :
  cached w !! key = Some t → cached (Eye_calls calls w) !! key = Some t.
Proof.
  revert w. induction calls as [|[[n dt] dev] calls IH]; intros w Hk; [exact Hk|].
  simpl. apply IH. apply Eye_keeps_entries. exact Hk.
Qed.

Lemma Eye_ret_cached (n : N) (dataType : DataType) (device : DeviceDescriptor)
    (w w' : World E) (t : NDArrayView E) :
  Eye n dataType device w = (Ret t, w') → cached w' !! (n, dataType) = Some t.
Proof.
  intros Hrun.
  destruct (cached w !! (n, dataType)) as [t'|] eqn:Hl.
  - rewrite (Eye_hit _ _ _ _ _ Hl) in Hrun. injection Hrun as <- <-. exact Hl.
  - destruct (decide (dataType = Float ∨ dataType = Double)) as [Hdt | Hdt].
    + rewrite (Eye_miss_supported _ _ _ _ Hl Hdt) in Hrun.
      destruct (MakeEye _ _ _ _ w) as [[eye | e |] w1]; try discriminate.
      injection Hrun as <- <-. simpl. apply lookup_insert_eq.
    + rewrite Eye_miss_unsupported in Hrun by tauto. discriminate.
Qed.

Lemma Eye_ret_identity (n : N) (dataType : DataType) (device : DeviceDescriptor)
    (w w' : World E) (t : NDArrayView E) :
  cache_ok w → (n * n < SIZE_MOD)%N → Eye n dataType device w = (Ret t, w') →
  identity_tensor n dataType t.
Proof.
  intros Hok Hn Hrun.
  pose proof (Eye_cache_ok _ _ _ _ _ _ Hok Hrun) as Hok'.
  destruct (Hok' _ _ _ (Eye_ret_cached _ _ _ _ _ _ Hrun))
    as [_ (sz & dev & u0 & u1 & Hmk)].
  apply (MakeEye_identity sz n dataType dev u0 u1 t Hn Hmk).
Qed.

(** A miss that returns has built the tensor on the requested device and
    counted one call of [MakeEye]. *)
Lemma Eye_miss_ret (n : N) (dataType : DataType) (device : DeviceDescriptor)
    (w w' : World E) (t : NDArrayView E) :
  cached w !! (n, dataType) = None → Eye n dataType device w = (Ret t, w') →
  Device t = device ∧ eyesMade w' = S (eyesMade w) ∧
  cached w' = <[(n, dataType) := t]> (cached w).
Proof.
  intros Hl Hrun.
  destruct (decide (dataType = Float ∨ dataType = Double)) as [Hdt | Hdt].
  - rewrite (Eye_miss_supported _ _ _ _ Hl Hdt) in Hrun.
    pose proof (MakeEye_world (ElementType_size dataType) n dataType device w) as Hw.
    destruct (MakeEye _ _ _ _ w) as [[eye | e |] w1] eqn:Hmk; try discriminate.
    injection Hrun as <- <-. simpl in Hw. subst w1.
    split; [|split; reflexivity].
    rewrite MakeEye_unfold in Hmk. cbv zeta in Hmk.
    destruct (vector_new _ _ _ _) as [[b | e |] u]; try discriminate.
    destruct (for_loop _ _ _ _) as [[[] | e |] b']; try discriminate.
    injection Hmk as <-. reflexivity.
  - rewrite Eye_miss_unsupported in Hrun by tauto. discriminate.
Qed.

(** C5: on a cache miss for a supported data type, when the buffer can be
    constructed ([n*n] elements are at most [max_size()] and the free store
    grants them), [Eye n dataType device] allocates a zero-filled host
    buffer of [n*n] elements, sets [buffer[i*n+i] = 1] for every [i < n]
    (the loop returns with 1 on the diagonal and 0 elsewhere), builds the
    tensor on the CPU device, deep-copies it to [device], returns that copy
    and stores it (not the host tensor) in the cache under the key
    [(n, dataType)]. *)
Theorem Eye_miss_builds_identity (n : N) (dataType : DataType)
    (device : DeviceDescriptor) (w : World E) :
  cached w !! (n, dataType) = None → dataType = Float ∨ dataType = Double →
  buffer_fits dataType n w →
  ∃ b : list E,
    (vector_new (ElementType_size dataType) (size_mul n n) e_zero w).1
      = Ret (replicate (N.to_nat (n * n)) e_zero) ∧
    for_loop (MakeEye_set n) (N.to_nat n) 0 (replicate (N.to_nat (n * n)) e_zero)
      = (Ret tt, b) ∧
    length b = N.to_nat (n * n) ∧
    (∀ i j : nat, (i < N.to_nat n)%nat → (j < N.to_nat n)%nat →
       b !! (i * N.to_nat n + j)%nat = Some (if (i =? j)%nat then e_one else e_zero)) ∧
    let host := mkNDArrayView dataType [n; n] CPUDevice false false b in
    let eye := DeepClone host device in
    Device host = CPUDevice ∧ Device eye = device ∧ buffer eye = b ∧
    Shape eye = [n; n] ∧ GetDataType eye = dataType ∧
    (MakeEye (ElementType_size dataType) n dataType device w).1 = Ret eye ∧
    (Eye n dataType device w).1 = Ret eye ∧
    cached (Eye n dataType device w).2 = <[(n, dataType) := eye]> (cached w) ∧
    cached (Eye n dataType device w).2 !! (n, dataType) = Some eye.
Proof.
  intros Hmiss Hdt [Hmax Hmem].
  pose proof (max_size_no_wrap _ _ Hmax) as Hn.
  assert (Hsz : size_mul n n = (n * n)%N) by (apply N.mod_small; exact Hn).
  destruct (MakeEye_ok (ElementType_size dataType) n dataType device w Hmax Hmem)
    as (b & Hloop & [Hlen Hb] & Hmk).
  exists b. rewrite Hsz in Hloop.
  split; [rewrite Hsz, vector_new_fits by assumption; reflexivity|].
  split; [exact Hloop|]. split; [rewrite Hlen; lia|]. split; [exact Hb|].
  simpl. rewrite (Eye_miss_supported n dataType device w Hmiss Hdt), Hmk.
  repeat split; try reflexivity. simpl. apply lookup_insert_eq.
Qed.

(** C4: once a call [Eye n dataType d1] has returned, its tensor is stored
    in the cache under [(n, dataType)] and stays there; every later call
    [Eye n dataType d2], on any device [d2] and after any further calls of
    [Eye], returns that stored tensor and leaves the cache and the count of
    [MakeEye] calls unchanged (nothing is rebuilt: [MakeEye] counts its own
    calls, and the first call, when it was a miss, counted one and built
    the tensor on [d1]). When the cache was written by [Eye] only and
    [n*n] fits [size_t], the tensor has shape [n x n] and the values 1 on
    the diagonal, 0 elsewhere. *)
Theorem Eye_hit_returns_cached (n : N) (dataType : DataType)
    (d1 d2 : DeviceDescriptor) (w0 w1 : World E) (t1 : NDArrayView E)
    (calls : list (N * DataType * DeviceDescriptor)) :
  Eye n dataType d1 w0 = (Ret t1, w1) →
  let w2 := Eye_calls calls w1 in
  cached w1 !! (n, dataType) = Some t1 ∧
  cached w2 !! (n, dataType) = Some t1 ∧
  Eye n dataType d2 w2 = (Ret t1, w2) ∧
  eyesMade (Eye n dataType d2 w2).2 = eyesMade w2 ∧
  cached (Eye n dataType d2 w2).2 = cached w2 ∧
  (cached w0 !! (n, dataType) = None →
   Device t1 = d1 ∧ eyesMade w1 = S (eyesMade w0)) ∧
  (cache_ok w0 → (n * n < SIZE_MOD)%N →
   Shape t1 = [n; n] ∧
   ∀ i j : nat, (i < N.to_nat n)%nat → (j < N.to_nat n)%nat →
     buffer t1 !! (i * N.to_nat n + j)%nat
       = Some (if (i =? j)%nat then e_one else e_zero)).
Proof.
  intros Hrun w2.
  pose proof (Eye_ret_cached _ _ _ _ _ _ Hrun) as Hstored.
  assert (Hlater : cached w2 !! (n, dataType) = Some t1)
    by (apply Eye_calls_keep_entries; exact Hstored).
  split; [exact Hstored|]. split; [exact Hlater|].
  rewrite (Eye_hit n dataType d2 w2 t1 Hlater). simpl.
  do 3 (split; [reflexivity|]). split.
  - intros Hmiss. destruct (Eye_miss_ret _ _ _ _ _ _ Hmiss Hrun) as (Hd & Hc & _).
    split; assumption.
  - intros Hok Hn.
    destruct (Eye_ret_identity _ _ _ _ _ _ Hok Hn Hrun) as (_ & Hshape & _ & _ & Hb).
    split; assumption.
Qed.

End Eye_correct.

(** ** FromCNTKMB *)
Section FromCNTKMB_steps.
Context {E : Type} `{Element E}.

Lemma FromCNTKMB_dense_unfold (data : NDArrayView E) (w : World E) :
  FromCNTKMB_dense data w =
    if IsSparse data then
      match Shape data !! 0%nat with
      | None => (Undef, w)
      | Some n =>
          match Eye n (GetDataType data) (Device data) w with
          | (Ret eye, w') => (MatrixProduct false eye false data false e_one 1, w')
          | (Throw e, w') => (Throw e, w')
          | (Undef, w') => (Undef, w')
          end
      end
    else (Ret data, w).
Proof.
  unfold FromCNTKMB_dense, bind, lift, ret, shape_at, of_option.
  destruct (IsSparse data); [|reflexivity].
  destruct (Shape data !! 0%nat); [|reflexivity].
  destruct (Eye _ _ _ w) as [[eye | e |] w']; reflexivity.
Qed.

Lemma FromCNTKMB_example_unfold (hasAxis : bool) (sequences : list (NDArrayView E))
    (s : nat) (arg : list (CNTKVariable E)) (w : World E) :
  FromCNTKMB_example hasAxis sequences s (arg, w) =
    match sequences !! s with
    | None => (Undef, (arg, w))
    | Some data =>
        match FromCNTKMB_shape hasAxis data with
        | Ret d1 =>
            match FromCNTKMB_dense d1 w with
            | (Ret d2, w') =>
                if (s <? length arg)%nat then (Ret tt, (<[s := Constant d2]> arg, w'))
                else (Undef, (arg, w'))
            | (Throw e, w') => (Throw e, (arg, w'))
            | (Undef, w') => (Undef, (arg, w'))
            end
        | Throw e => (Throw e, (arg, w))
        | Undef => (Undef, (arg, w))
        end
    end.
Proof.
  unfold FromCNTKMB_example, bind, lift, in_world, store, of_option.
  destruct (sequences !! s) as [data|]; [|reflexivity].
  destruct (FromCNTKMB_shape hasAxis data) as [d1 | e |]; try reflexivity.
  destruct (FromCNTKMB_dense d1 w) as [[d2 | e |] w']; reflexivity.
Qed.

Lemma FromCNTKMB_fill_unfold (hasAxis : bool) (sequences : list (NDArrayView E))
    (n : nat) (arg : list (CNTKVariable E)) (w : World E) :
  FromCNTKMB_fill hasAxis sequences n (arg, w) =
    for_loop (FromCNTKMB_example hasAxis sequences) n 0
             (resize n DefaultVariable arg, w).
Proof. reflexivity. Qed.

Lemma FromCNTKMB_arg_unfold (inputs : list (Value E)) (isSequence : list bool)
    (device : DeviceDescriptor) (i : nat) (σ : Locals E) :
  FromCNTKMB_arg inputs isSequence device i σ =
    match FromCNTKMB_unpack inputs isSequence device i with
    | Ret (variable, sequences) =>
        if (numSeq σ =? 0)%nat || (numSeq σ =? length sequences)%nat then
          match res σ !! i with
          | None =>
              (Undef, {| res := res σ; numSeq := length sequences; world := world σ |})
          | Some arg =>
              let '(o, (arg', w')) :=
                FromCNTKMB_fill (1 <? length (DynamicAxes variable))%nat sequences
                                (length sequences) (arg, world σ) in
              (o, {| res := <[i := arg']> (res σ); numSeq := length sequences;
                     world := w' |})
          end
        else (Throw BatchShapeMismatchError, σ)
    | Throw e => (Throw e, σ)
    | Undef => (Undef, σ)
    end.
Proof.
  unfold FromCNTKMB_arg, bind, lift, get, check_numSeq, in_arg.
  destruct (FromCNTKMB_unpack inputs isSequence device i) as [[variable sequences] | e |];
    try reflexivity.
  destruct (numSeq σ =? 0)%nat eqn:H0; simpl.
  - reflexivity.
  - destruct (numSeq σ =? length sequences)%nat eqn:Hn; simpl; [|reflexivity].
    apply Nat.eqb_eq in Hn. rewrite <- Hn. destruct σ; reflexivity.
Qed.

End FromCNTKMB_steps.

(** Invariants of the two loops of [FromCNTKMB], relative to a property
    [Pw] of the cache that [Eye] keeps. *)
Section FromCNTKMB_invariants.
Context {E : Type} `{Element E}.
Variable Pw : World E → Prop.
Hypothesis Pw_Eye :
  ∀ n dataType device (w w' : World E) (o : outcome (NDArrayView E)),
    Pw w → Eye n dataType device w = (o, w') → Pw w'.
Variables (inputs : list (Value E)) (isSequence : list bool)
          (device : DeviceDescriptor).

Local Abbreviation example_done := (Dynamite.example_done Pw).
Local Abbreviation arg_done := (Dynamite.arg_done Pw inputs isSequence device).
Local Abbreviation args_inv := (Dynamite.args_inv Pw inputs isSequence device).

Lemma dense_keeps_Pw (d : NDArrayView E) (w w' : World E)
    (o : outcome (NDArrayView E)) :
  Pw w → FromCNTKMB_dense d w = (o, w') → Pw w'.
Proof using Pw_Eye.
  intros HP Hrun. rewrite FromCNTKMB_dense_unfold in Hrun.
  destruct (IsSparse d).
  - destruct (Shape d !! 0%nat) as [n|].
    + destruct (Eye n (GetDataType d) (Device d) w) as [o1 w1] eqn:HE.
      pose proof (Pw_Eye _ _ _ _ _ _ HP HE) as HP1.
      destruct o1; injection Hrun as <- <-; exact HP1.
    + injection Hrun as <- <-. exact HP.
  - injection Hrun as <- <-. exact HP.
Qed.

Lemma example_step (hasAxis : bool) (sequences : list (NDArrayView E)) (s : nat)
    (arg arg' : list (CNTKVariable E)) (w w' : World E) (o : outcome unit) :
  Pw w → FromCNTKMB_example hasAxis sequences s (arg, w) = (o, (arg', w')) →
  Pw w' ∧ length arg' = length arg ∧
  (∀ t : nat, t ≠ s → arg' !! t = arg !! t) ∧
  (o = Ret tt → example_done hasAxis sequences s (arg' !! s)).
Proof using Pw_Eye.
  intros HP Hrun. rewrite FromCNTKMB_example_unfold in Hrun.
  destruct (sequences !! s) as [data|] eqn:Hs.
  2:{ injection Hrun as <- <- <-. repeat split; try done. }
  destruct (FromCNTKMB_shape hasAxis data) as [d1 | e |] eqn:Hsh.
  2,3: injection Hrun as <- <- <-; repeat split; done.
  destruct (FromCNTKMB_dense d1 w) as [o2 w2] eqn:Hd.
  pose proof (dense_keeps_Pw _ _ _ _ HP Hd) as HP2.
  destruct o2 as [d2 | e |].
  2,3: injection Hrun as <- <- <-; repeat split; done.
  destruct (s <? length arg)%nat eqn:Hlt.
  2:{ injection Hrun as <- <- <-. repeat split; done. }
  apply Nat.ltb_lt in Hlt. injection Hrun as <- <- <-.
  split; [exact HP2|]. split; [apply length_insert|]. split.
  - intros t Ht. apply list_lookup_insert_ne. congruence.
  - intros _. exists data, d1, d2, w, w2.
    rewrite list_lookup_insert_eq by exact Hlt. repeat split; assumption.
Qed.

Lemma fill_result (hasAxis : bool) (sequences : list (NDArrayView E)) (n : nat)
    (arg arg' : list (CNTKVariable E)) (w w' : World E) (o : outcome unit) :
  Pw w → FromCNTKMB_fill hasAxis sequences n (arg, w) = (o, (arg', w')) →
  Pw w' ∧ length arg' = n ∧
  (o = Ret tt →
   ∀ s : nat, (s < n)%nat → example_done hasAxis sequences s (arg' !! s)).
Proof using Pw_Eye.
  intros HP Hrun. rewrite FromCNTKMB_fill_unfold in Hrun.
  set (I := λ (k : nat) (st : list (CNTKVariable E) * World E),
              Pw st.2 ∧ length st.1 = n ∧
              ∀ s : nat, (s < k)%nat → example_done hasAxis sequences s (st.1 !! s)).
  assert (Hstep : ∀ k t t', (0 ≤ k < 0 + n)%nat → I k t →
            FromCNTKMB_example hasAxis sequences k t = (Ret tt, t') → I (S k) t').
  { intros k [a u] [a' u'] _ (HPu & Hlen & Hdone) Hb. simpl in *.
    destruct (example_step _ _ _ _ _ _ _ _ HPu Hb) as (HPu' & Hlen' & Hother & Hk).
    unfold I. simpl. split; [exact HPu'|]. split; [lia|].
    intros s Hs. destruct (decide (s = k)) as [-> | Hne].
    - apply Hk. reflexivity.
    - rewrite Hother by exact Hne. apply Hdone. lia. }
  assert (H0 : I 0%nat (resize n DefaultVariable arg, w)).
  { unfold I. simpl. split; [exact HP|]. split; [apply length_resize|].
    intros s Hs. lia. }
  destruct (for_loop_inv _ I n 0 _ o (arg', w') H0 Hstep Hrun)
    as [[-> (HP' & Hlen & Hdone)] | (Hne & k & [a u] & Hk & (HPu & Hlen & _) & Hb)].
  - simpl in *. split; [exact HP'|]. split; [exact Hlen|]. intros _. exact Hdone.
  - simpl in *.
    destruct (example_step _ _ _ _ _ _ _ _ HPu Hb) as (HPu' & Hlen' & _).
    split; [exact HPu'|]. split; [lia|]. intros ->. contradiction.
Qed.

Lemma arg_step (i : nat) (σ σ' : Locals E) (o : outcome unit) :
  Pw (world σ) → FromCNTKMB_arg inputs isSequence device i σ = (o, σ') →
  Pw (world σ') ∧ length (res σ') = length (res σ) ∧
  (∀ j : nat, j ≠ i → res σ' !! j = res σ !! j) ∧
  (o = Ret tt →
   arg_done i (res σ' !! i) ∧
   ∃ variable sequences,
     FromCNTKMB_unpack inputs isSequence device i = Ret (variable, sequences) ∧
     numSeq σ' = length sequences ∧
     (numSeq σ = 0%nat ∨ numSeq σ = length sequences)).
Proof using Pw_Eye.
  intros HP Hrun. rewrite FromCNTKMB_arg_unfold in Hrun.
  destruct (FromCNTKMB_unpack inputs isSequence device i)
    as [[variable sequences] | e |] eqn:Hun.
  2,3: injection Hrun as <- <-; repeat split; done.
  destruct ((numSeq σ =? 0)%nat || (numSeq σ =? length sequences)%nat) eqn:Hcheck.
  2:{ injection Hrun as <- <-. repeat split; done. }
  destruct (res σ !! i) as [arg|] eqn:Hri.
  2:{ injection Hrun as <- <-. repeat split; done. }
  destruct (FromCNTKMB_fill _ sequences (length sequences) (arg, world σ))
    as [o1 [arg' w']] eqn:Hfill.
  injection Hrun as <- <-. simpl.
  destruct (fill_result _ _ _ _ _ _ _ _ HP Hfill) as (HP' & Hlen & Hdone).
  split; [exact HP'|]. split; [apply length_insert|]. split.
  - intros j Hj. apply list_lookup_insert_ne. congruence.
  - intros ->. split.
    + exists variable, sequences, arg'.
      rewrite list_lookup_insert_eq by (apply lookup_lt_Some in Hri; exact Hri).
      repeat split; try done. apply Hdone. reflexivity.
    + exists variable, sequences. repeat split.
      apply orb_true_iff in Hcheck as [H0 | Hn]; apply Nat.eqb_eq in H0 || apply Nat.eqb_eq in Hn;
        [left | right]; assumption.
Qed.

Lemma args_inv_step (k : nat) (t t' : Locals E) :
  (k < length inputs)%nat → args_inv k t →
  FromCNTKMB_arg inputs isSequence device k t = (Ret tt, t') → args_inv (S k) t'.
Proof using Pw_Eye.
  intros Hk (HP & Hlen & Hdone & Hrest & Hcount) Hb.
  destruct (arg_step _ _ _ _ HP Hb) as (HP' & Hlen' & Hother & Hret).
  destruct (Hret eq_refl) as (Harg & variable & sequences & Hun & Hns' & Hns).
  split; [exact HP'|]. split; [lia|]. split; [|split].
  - intros j Hj. destruct (decide (j = k)) as [-> | Hne]; [exact Harg|].
    rewrite Hother by exact Hne. apply Hdone. lia.
  - intros j Hj. rewrite Hother by lia. apply Hrest. lia.
  - intros j v sq Hj Hunj. destruct (decide (j = k)) as [-> | Hne].
    + rewrite Hun in Hunj. injection Hunj as <- <-. right. symmetry. exact Hns'.
    + destruct (Hcount j v sq ltac:(lia) Hunj) as [H0 | Heq]; [left; exact H0|].
      destruct Hns as [Hz | Hz]; [left | right]; lia.
Qed.

Lemma args_inv_entry (w : World E) : Pw w → args_inv 0 (FromCNTKMB_entry inputs w).
Proof.
  intros HP. split; [exact HP|]. split; [apply length_resize|].
  split; [intros j Hj; lia|]. split; [|intros j v sq Hj; lia].
  intros j Hj. simpl. rewrite resize_nil. apply lookup_replicate_2. lia.
Qed.

Lemma args_inv_upto (w : World E) (i : nat) (σ : Locals E) :
  Pw w → (i ≤ length inputs)%nat →
  FromCNTKMB_upto inputs isSequence device w i = (Ret tt, σ) → args_inv i σ.
Proof using Pw_Eye.
  intros HP Hi Hrun. unfold FromCNTKMB_upto in Hrun.
  destruct (for_loop_inv (FromCNTKMB_arg inputs isSequence device) args_inv
              i 0 _ _ _ (args_inv_entry w HP)
              ltac:(intros k t t' Hk; apply args_inv_step; lia) Hrun)
    as [[_ Hinv] | [Hne _]]; [exact Hinv | contradiction].
Qed.

(** What a call of [FromCNTKMB] leaves in [res]: [numArgs] entries; after a
    normal return every entry is complete; otherwise the entries before
    the failing argument [k] are complete and those after it are empty. *)
Lemma FromCNTKMB_run (res0 res' : list (list (CNTKVariable E))) (w w' : World E)
    (o : outcome unit) :
  Pw w → FromCNTKMB res0 inputs isSequence device w = (o, res', w') →
  Pw w' ∧ length res' = length inputs ∧
  (o = Ret tt → ∀ j : nat, (j < length inputs)%nat → arg_done j (res' !! j)) ∧
  (o ≠ Ret tt →
   ∃ k : nat, (k < length inputs)%nat ∧
     (∀ j : nat, (j < k)%nat → arg_done j (res' !! j)) ∧
     (∀ j : nat, (k < j < length inputs)%nat → res' !! j = Some [])).
Proof using Pw_Eye.
  intros HP Hrun. unfold FromCNTKMB, FromCNTKMB_upto in Hrun.
  set (σ0 := FromCNTKMB_entry inputs w) in *.
  destruct (for_loop (FromCNTKMB_arg inputs isSequence device) (length inputs) 0 σ0)
    as [o1 σ1] eqn:Hloop.
  injection Hrun as <- <- <-.
  pose proof (args_inv_entry w HP) as H0. fold σ0 in H0.
  destruct (for_loop_inv (FromCNTKMB_arg inputs isSequence device) args_inv
              (length inputs) 0 σ0 o1 σ1 H0) as
    [[-> (HP1 & Hlen & Hdone & _)] | (Hne & k & t & Hk & (HPt & Hlen & Hdone & Hrest & _) & Hb)].
  - intros k t t' Hk. apply args_inv_step. lia.
  - exact Hloop.
  - split; [exact HP1|]. split; [exact Hlen|]. split; [|intros Hne; contradiction].
    intros _. exact Hdone.
  - destruct (arg_step _ _ _ _ HPt Hb) as (HP1 & Hlen1 & Hother & _).
    split; [exact HP1|]. split; [lia|]. split; [intros ->; contradiction|].
    intros _. exists k. split; [lia|]. split.
    + intros j Hj. rewrite Hother by lia. apply Hdone. exact Hj.
    + intros j Hj. rewrite Hother by lia. apply Hrest. lia.
Qed.

End FromCNTKMB_invariants.

(** The steps of one argument on a stream of shape
    sample shape ++ [length, batch]. *)
Section FromCNTKMB_shapes.
Context {E : Type} `{Element E}.

Lemma SubShape_sample (sample : NDShape) (len batch : N) :
  SubShape (sample ++ [len; batch]) 0
           (size_sub (Rank (sample ++ [len; batch])) 2) = Ret sample.
Proof.
  unfold SubShape, size_sub, Rank. rewrite length_app. simpl length.
  replace (2 <=? N.of_nat (length sample + 2))%N with true
    by (symmetry; apply N.leb_le; lia).
  replace (N.of_nat (length sample + 2) - 2)%N with (N.of_nat (length sample)) by lia.
  replace (N.of_nat (length sample) <=? N.of_nat (length sample + 2))%N with true
    by (symmetry; apply N.leb_le; lia).
  replace (0 <=? N.of_nat (length sample))%N with true
    by (symmetry; apply N.leb_le; lia).
  cbv [andb]. change (N.to_nat 0) with 0%nat.
  rewrite Nat2N.id, Nat.sub_0_r, drop_0, take_app_length. reflexivity.
Qed.

Lemma FromCNTKMB_unpack_stream (inputs : list (Value E)) (isSequence : list bool)
    (device : DeviceDescriptor) (i : nat) (input : Value E) (isSeq : bool)
    (sample : NDShape) (len batch : N) :
  inputs !! i = Some input → isSequence !! i = Some isSeq →
  Shape (Data input) = sample ++ [len; batch] →
  FromCNTKMB_unpack inputs isSequence device i =
    Ret (stream_variable input sample isSeq,
         map (sequence_view (Data input) sample len) (seq 0 (N.to_nat batch))).
Proof.
  intros Hin Hflag Hshape. unfold FromCNTKMB_unpack.
  rewrite Hin, Hflag. simpl. rewrite Hshape, SubShape_sample. simpl.
  rewrite ?Hshape, drop_app_length, take_app_length.
  rewrite bool_decide_eq_true_2 by reflexivity. reflexivity.
Qed.

Lemma FromCNTKMB_unpack_hasAxis (inputs : list (Value E)) (isSequence : list bool)
    (device : DeviceDescriptor) (i : nat) (isSeq : bool)
    (variable : CNTKVariable E) (sequences : list (NDArrayView E)) :
  isSequence !! i = Some isSeq →
  FromCNTKMB_unpack inputs isSequence device i = Ret (variable, sequences) →
  (1 <? length (DynamicAxes variable))%nat = isSeq.
Proof.
  intros Hflag Hun. unfold FromCNTKMB_unpack in Hun.
  destruct (inputs !! i) as [input|]; [|discriminate]. cbn [of_option obind] in Hun.
  destruct (SubShape _ _ _) as [sampleShape | e |]; try discriminate.
  cbn [of_option obind] in Hun. rewrite Hflag in Hun. cbn [of_option obind] in Hun.
  destruct (UnpackVariableValue _ _ _) as [sq | e |]; try discriminate.
  cbn [of_option obind] in Hun. injection Hun as <- <-. destruct isSeq; reflexivity.
Qed.

Lemma stream_variable_hasAxis (input : Value E) (sample : NDShape) (isSeq : bool) :
  (1 <? length (DynamicAxes (stream_variable input sample isSeq)))%nat = isSeq.
Proof. destruct isSeq; reflexivity. Qed.

(** Without a sequence axis, the shape step returns exactly when the
    trailing dimension is 1, and then removes that axis by a reshape. *)
Lemma FromCNTKMB_shape_false (data d1 : NDArrayView E) :
  FromCNTKMB_shape false data = Ret d1 →
  ∃ init : list N,
    Shape data = init ++ [1%N] ∧
    d1 = {| GetDataType := GetDataType data; Shape := init; Device := Device data;
            IsSparse := IsSparse data; IsReadOnly := IsReadOnly data;
            buffer := buffer data |}.
Proof.
  unfold FromCNTKMB_shape, Dimensions. simpl. intros Hsh.
  destruct (last (Shape data)) as [back|] eqn:Hlast; [|discriminate].
  destruct (back =? 1)%N eqn:Hb; simpl in Hsh; [|discriminate].
  apply N.eqb_eq in Hb. subst back.
  apply last_Some in Hlast as [init Hinit]. exists init. split; [exact Hinit|].
  rewrite (Index_unfold data init 1 0 Hinit) in Hsh. simpl in Hsh.
  rewrite (AsShape_last data init Hinit) in Hsh. injection Hsh as <-. reflexivity.
Qed.

Lemma FromCNTKMB_shape_malformed (data : NDArrayView E) (back : N) :
  last (Shape data) = Some back → back ≠ 1%N →
  FromCNTKMB_shape false data = Throw MalformedStreamError.
Proof.
  intros Hlast Hne. unfold FromCNTKMB_shape, Dimensions. simpl. rewrite Hlast.
  apply N.eqb_neq in Hne. rewrite Hne. reflexivity.
Qed.

Lemma MakeEye_ret_shape (elementSize n : N) (dataType : DataType)
    (device : DeviceDescriptor) (w w' : World E) (t : NDArrayView E) :
  MakeEye elementSize n dataType device w = (Ret t, w') →
  Shape t = [n; n] ∧ GetDataType t = dataType ∧ IsSparse t = false.
Proof.
  rewrite MakeEye_unfold. cbv zeta.
  destruct (vector_new _ _ _ _) as [[b0 | e |] u]; try discriminate.
  destruct (for_loop _ _ _ _) as [[[] | e |] b]; try discriminate.
  intros Hmk. injection Hmk as <- _. repeat split.
Qed.

(** The product of a square tensor of order [n] with a tensor of leading
    dimension [n] is defined and has the shape of the right operand. *)
Lemma MatrixProduct_square_shape (eye data : NDArrayView E) (n : N) (rest : list N) :
  Shape eye = [n; n] → GetDataType eye = GetDataType data → Shape data = n :: rest →
  ∃ p : NDArrayView E,
    MatrixProduct false eye false data false e_one 1 = Ret p ∧
    Shape p = Shape data ∧ GetDataType p = GetDataType data ∧
    Device p = Device data ∧ IsSparse p = false.
Proof.
  intros Heye Hdt Hdata. unfold MatrixProduct, mat_op.
  rewrite Heye, Hdata. simpl.
  rewrite !N.mul_1_r, Nat.eqb_refl.
  rewrite bool_decide_eq_true_2 by exact Hdt. simpl.
  eexists. split; [reflexivity|]. repeat split.
Qed.

(** The densification step keeps shape, data type and device, and returns
    a dense tensor whenever the cache holds tensors built by [MakeEye]. *)
Lemma FromCNTKMB_dense_shape (d1 d2 : NDArrayView E) (wa wb : World E) :
  cache_ok wa → FromCNTKMB_dense d1 wa = (Ret d2, wb) →
  Shape d2 = Shape d1 ∧ GetDataType d2 = GetDataType d1 ∧
  Device d2 = Device d1 ∧ IsSparse d2 = false.
Proof.
  intros Hok Hrun. rewrite FromCNTKMB_dense_unfold in Hrun.
  destruct (IsSparse d1) eqn:Hsp.
  2:{ injection Hrun as <- <-. repeat split. exact Hsp. }
  destruct (Shape d1) as [|n rest] eqn:Hshape; [discriminate|]. simpl in Hrun.
  destruct (Eye n (GetDataType d1) (Device d1) wa) as [[eye | e |] w1] eqn:HE;
    try discriminate.
  pose proof (Eye_cache_ok _ _ _ _ _ _ Hok HE) as Hok1.
  destruct (Hok1 _ _ _ (Eye_ret_cached _ _ _ _ _ _ HE))
    as [_ (sz & dev & u0 & u1 & Hmk)].
  destruct (MakeEye_ret_shape _ _ _ _ _ _ _ Hmk) as (Hes & Hedt & _).
  destruct (MatrixProduct_square_shape eye d1 n rest Hes Hedt Hshape)
    as (p & Hp & Hps & Hpdt & Hpdev & Hpsp).
  rewrite Hp in Hrun. injection Hrun as <- <-.
  rewrite Hps, Hshape. repeat split; assumption.
Qed.

End FromCNTKMB_shapes.

(** ** The product with the identity *)
Section Densification.
Context {E : Type} `{Element E} (P : E → Prop) {exact : ExactOn P}.

(** The terms of a zero row leave an accumulator that is still zero
    untouched. *)
Lemma dot_zero_terms (a b : nat → E) (l : list nat) :
  (∀ x : nat, In x l → a x = e_zero) → (∀ x : nat, In x l → P (b x)) →
  fold_left (λ acc x, e_add acc (e_mul (a x) (b x))) l e_zero = e_zero.
Proof.
  induction l as [|x l IH]; intros Hz HP; [reflexivity|].
  simpl. rewrite (Hz x) by (left; reflexivity).
  rewrite e_skip by (apply HP; left; reflexivity).
  apply IH; intros y Hy; [apply Hz | apply HP]; right; exact Hy.
Qed.

(** They leave the selected component untouched as well. *)
Lemma dot_zero_tail (a b : nat → E) (l : list nat) (acc : E) :
  P acc →
  (∀ x : nat, In x l → a x = e_zero) → (∀ x : nat, In x l → P (b x)) →
  fold_left (λ acc x, e_add acc (e_mul (a x) (b x))) l acc = acc.
Proof.
  intros Hacc. induction l as [|x l IH]; intros Hz HP; [reflexivity|].
  simpl. rewrite (Hz x) by (left; reflexivity).
  rewrite e_keep by (try exact Hacc; apply HP; left; reflexivity).
  apply IH; intros y Hy; [apply Hz | apply HP]; right; exact Hy.
Qed.

(** The dot product with row [i] of the identity selects component [i]. *)
Lemma dot_identity_row (n i : nat) (a b : nat → E) :
  (i < n)%nat → a i = e_one →
  (∀ x : nat, (x < n)%nat → x ≠ i → a x = e_zero) →
  (∀ x : nat, (x < n)%nat → P (b x)) →
  dot n a b = b i.
Proof.
  intros Hi Hone Hzero HP. unfold dot.
  replace n with (i + S (n - S i))%nat at 1 by lia.
  rewrite seq_app, fold_left_app.
  rewrite (dot_zero_terms a b (seq 0 i)).
  2:{ intros x Hx. apply in_seq in Hx. apply Hzero; lia. }
  2:{ intros x Hx. apply in_seq in Hx. apply HP; lia. }
  simpl. rewrite Hone, e_pick by (apply HP; exact Hi).
  apply dot_zero_tail; [apply HP; exact Hi | |];
    intros x Hx; apply in_seq in Hx; [apply Hzero | apply HP]; lia.
Qed.

Lemma eye_mat_get (n : nat) (b : list E) (i k : nat) :
  is_eye n b → (i < n)%nat → (k < n)%nat →
  mat_get n b i k = if (i =? k)%nat then e_one else e_zero.
Proof.
  intros [_ Hb] Hi Hk. unfold mat_get. rewrite nth_lookup.
  replace (i + n * k)%nat with (k * n + i)%nat by lia.
  rewrite (Hb k i Hk Hi). simpl. rewrite (Nat.eqb_sym k i). reflexivity.
Qed.

Lemma chunk_map (buf : list E) (off n : nat) :
  (off + n ≤ length buf)%nat →
  map (λ i, nth (off + i) buf e_zero) (seq 0 n) = take n (drop off buf).
Proof.
  revert off. induction n as [|n IH]; intros off Hlen; [reflexivity|].
  change (seq 0 (S n)) with (0%nat :: seq 1 n).
  rewrite <- List.seq_shift, map_cons, List.map_map.
  destruct (lookup_lt_is_Some_2 buf off ltac:(lia)) as [x Hx].
  rewrite (drop_S buf x off Hx). simpl take.
  rewrite Nat.add_0_r, nth_lookup, Hx. simpl. f_equal.
  rewrite <- (IH (S off)) by lia.
  apply map_ext. intros i. f_equal. lia.
Qed.

Lemma mat_get_P (rows : nat) (buf : list E) (i j : nat) :
  Forall P buf → (i + rows * j < length buf)%nat → P (mat_get rows buf i j).
Proof.
  intros HP Hlt. unfold mat_get. rewrite nth_lookup.
  destruct (lookup_lt_is_Some_2 buf _ Hlt) as [x Hx]. rewrite Hx. simpl.
  apply (proj1 (Forall_lookup P buf) HP _ _ Hx).
Qed.

(** [Identity(n) x X = X]: the product of an identity tensor of order [n]
    with a tensor [X] of leading dimension [n], whose elements are values
    on which the arithmetic is exact, has the shape and the elements of
    [X], in dense storage. *)
Lemma MatrixProduct_identity (eye X : NDArrayView E) (n : N) (rest : list N) :
  identity_tensor n (GetDataType X) eye → Shape X = n :: rest → well_formed X →
  Forall P (buffer X) →
  MatrixProduct false eye false X false e_one 1 =
    Ret {| GetDataType := GetDataType X; Shape := Shape X; Device := Device X;
           IsSparse := false; IsReadOnly := false; buffer := buffer X |}.
Proof.
  intros (Hdt & Hes & _ & Heye) HX Hwf HP. unfold MatrixProduct, mat_op.
  rewrite Hes, HX. simpl.
  rewrite !N.mul_1_r, Nat.eqb_refl.
  rewrite bool_decide_eq_true_2 by exact Hdt. simpl. do 2 f_equal.
  unfold well_formed in Hwf. rewrite HX, TotalSize_cons, N2Nat.inj_mul in Hwf.
  set (m := N.to_nat n) in *. set (p := N.to_nat (TotalSize rest)) in *.
  rewrite flat_map_concat_map.
  etransitivity; [|apply (concat_chunks m p (buffer X)); lia].
  f_equal. apply map_ext_in. intros j Hj. apply in_seq in Hj.
  rewrite <- chunk_map by nia.
  apply map_ext_in. intros i Hi. apply in_seq in Hi.
  assert (Hcol : ∀ x : nat, (x < m)%nat → P (mat_get m (buffer X) x j)).
  { intros x Hx. apply mat_get_P; [exact HP | nia]. }
  rewrite (dot_identity_row m i (mat_get m (buffer eye) i)
             (λ x, mat_get m (buffer X) x j)).
  - rewrite e_scale by (apply Hcol; lia). unfold mat_get. f_equal. lia.
  - lia.
  - rewrite (eye_mat_get m _ i i Heye) by lia. rewrite Nat.eqb_refl. reflexivity.
  - intros x Hx Hne. rewrite (eye_mat_get m _ i x Heye) by lia.
    destruct (Nat.eqb_spec i x); [congruence | reflexivity].
  - exact Hcol.
Qed.


End Densification.

(** ** Properties of a call of FromCNTKMB *)
Section FromCNTKMB_correct.
Context {E : Type} `{Element E}.

Lemma True_Eye (n : N) (dataType : DataType) (device : DeviceDescriptor)
    (w w' : World E) (o : outcome (NDArrayView E)) :
  True → Eye n dataType device w = (o, w') → True.
Proof. trivial. Qed.

(** A call whose loop reaches argument [i] and fails there fails as a
    whole, with the error and the state of that iteration. *)
Lemma FromCNTKMB_after_upto (res0 : list (list (CNTKVariable E)))
    (inputs : list (Value E)) (isSequence : list bool) (device : DeviceDescriptor)
    (w : World E) (i : nat) (σ σ' : Locals E) (o : outcome unit) :
  (i < length inputs)%nat →
  FromCNTKMB_upto inputs isSequence device w i = (Ret tt, σ) →
  FromCNTKMB_arg inputs isSequence device i σ = (o, σ') → o ≠ Ret tt →
  FromCNTKMB res0 inputs isSequence device w = (o, res σ', world σ').
Proof.
  intros Hi Hupto Hbody Hne. unfold FromCNTKMB, FromCNTKMB_upto in *.
  replace (length inputs) with (i + S (length inputs - S i))%nat at 1 by lia.
  rewrite for_loop_add, Hupto. simpl Nat.add. rewrite for_loop_S, Hbody.
  destruct o as [[] | e |]; [contradiction | reflexivity | reflexivity].
Qed.

(** After a normal return, entry [s] of [res[i]] is the constant made from
    sequence [s] of argument [i] by the shape step and the densification
    step. *)
Lemma FromCNTKMB_ret_example (res0 res' : list (list (CNTKVariable E)))
    (inputs : list (Value E)) (isSequence : list bool) (device : DeviceDescriptor)
    (w w' : World E) (i s : nat) (variable : CNTKVariable E)
    (sequences : list (NDArrayView E)) (data : NDArrayView E) :
  cache_ok w →
  FromCNTKMB res0 inputs isSequence device w = (Ret tt, res', w') →
  FromCNTKMB_unpack inputs isSequence device i = Ret (variable, sequences) →
  sequences !! s = Some data →
  ∃ (arg : list (CNTKVariable E)) (d1 d2 : NDArrayView E) (wa wb : World E),
    res' !! i = Some arg ∧ length arg = length sequences ∧
    FromCNTKMB_shape (1 <? length (DynamicAxes variable))%nat data = Ret d1 ∧
    cache_ok wa ∧ FromCNTKMB_dense d1 wa = (Ret d2, wb) ∧
    arg !! s = Some (Constant d2).
Proof.
  intros Hok Hrun Hun Hs.
  destruct (FromCNTKMB_run cache_ok Eye_cache_ok inputs isSequence device
              res0 res' w w' (Ret tt) Hok Hrun) as (_ & _ & Hdone & _).
  assert (Hi : (i < length inputs)%nat).
  { unfold FromCNTKMB_unpack in Hun.
    destruct (inputs !! i) eqn:Hin; [|discriminate].
    apply lookup_lt_Some in Hin. exact Hin. }
  destruct (Hdone eq_refl i Hi) as (v & sq & arg & Hun' & Hr & Hlen & Hex).
  rewrite Hun in Hun'. injection Hun' as <- <-.
  destruct (Hex s (lookup_lt_Some _ _ _ Hs))
    as (data' & d1 & d2 & wa & wb & Hs' & Hsh & Hwa & Hd & Hv).
  rewrite Hs in Hs'. injection Hs' as <-.
  exists arg, d1, d2, wa, wb. repeat (split; [assumption|]). assumption.
Qed.

Lemma sequence_view_lookup (data : NDArrayView E) (sample : NDShape) (len : N)
    (n s : nat) :
  (s < n)%nat →
  map (sequence_view data sample len) (seq 0 n) !! s
    = Some (sequence_view data sample len s).
Proof.
  intros Hs. change (map ?f ?l) with (f <$> l).
  rewrite list_lookup_fmap, lookup_seq_lt by exact Hs. reflexivity.
Qed.

Lemma sequence_view_count (data : NDArrayView E) (sample : NDShape) (len : N)
    (n : nat) :
  length (map (sequence_view data sample len) (seq 0 n)) = n.
Proof. rewrite length_map, length_seq. reflexivity. Qed.

(** *** The sequence-count check *)

(** A call whose loop reaches argument [i] with a recorded, non-zero
    [numSeq] and finds another number of sequences there throws the
    mismatch error, leaving [res] as the earlier arguments filled it. *)
Lemma FromCNTKMB_mismatch_detected (res0 : list (list (CNTKVariable E)))
    (inputs : list (Value E)) (isSequence : list bool) (device : DeviceDescriptor)
    (w : World E) (i : nat) (σ : Locals E) (variable : CNTKVariable E)
    (sequences : list (NDArrayView E)) :
  FromCNTKMB_upto inputs isSequence device w i = (Ret tt, σ) →
  FromCNTKMB_unpack inputs isSequence device i = Ret (variable, sequences) →
  numSeq σ ≠ 0%nat → length sequences ≠ numSeq σ →
  FromCNTKMB res0 inputs isSequence device w
    = (Throw BatchShapeMismatchError, res σ, world σ).
Proof.
  intros Hupto Hun Hnz Hne.
  assert (Hi : (i < length inputs)%nat).
  { unfold FromCNTKMB_unpack in Hun.
    destruct (inputs !! i) eqn:Hin; [|discriminate].
    apply lookup_lt_Some in Hin. exact Hin. }
  apply (FromCNTKMB_after_upto res0 inputs isSequence device w i σ σ _ Hi Hupto);
    [|discriminate].
  rewrite FromCNTKMB_arg_unfold, Hun.
  apply Nat.eqb_neq in Hnz. rewrite Hnz.
  replace (numSeq σ =? length sequences)%nat with false
    by (symmetry; apply Nat.eqb_neq; congruence).
  reflexivity.
Qed.

(** [numSeq] is recorded from the first argument when that argument
    unpacks to at least one sequence. *)
Lemma FromCNTKMB_numSeq_recorded (inputs : list (Value E)) (isSequence : list bool)
    (device : DeviceDescriptor) (w : World E) (i : nat) (σ : Locals E)
    (variable : CNTKVariable E) (sequences : list (NDArrayView E)) :
  (0 < i ≤ length inputs)%nat →
  FromCNTKMB_upto inputs isSequence device w i = (Ret tt, σ) →
  FromCNTKMB_unpack inputs isSequence device 0 = Ret (variable, sequences) →
  length sequences ≠ 0%nat → numSeq σ = length sequences.
Proof.
  intros Hi Hupto Hun Hnz.
  destruct (args_inv_upto (λ _, True) True_Eye inputs isSequence device w i σ I
              ltac:(lia) Hupto) as (_ & _ & _ & _ & Hcount).
  destruct (Hcount 0%nat variable sequences ltac:(lia) Hun) as [Hz | Heq];
    [contradiction | symmetry; exact Heq].
Qed.

Lemma Index_throws (data : NDArrayView E) (i : N) (e : exn) :
  Index data i = Throw e → ∃ what, e = invalid_argument what.
Proof.
  unfold Index, SliceView, AsShape.
  repeat match goal with
         | |- context [match ?x with _ => _ end] => destruct x
         end; intros Heq; try discriminate; injection Heq as <-; eauto.
Qed.

(** The loop of [MakeEye] does not throw, so [MakeEye] throws only what the
    constructor of its buffer throws. *)
Lemma MakeEye_throws (elementSize n : N) (dataType : DataType)
    (device : DeviceDescriptor) (w w' : World E) (e : exn) :
  MakeEye elementSize n dataType device w = (Throw e, w') →
  (∃ what, e = length_error what) ∨ e = bad_alloc.
Proof.
  rewrite MakeEye_unfold. cbv zeta. unfold vector_new.
  destruct (_ <? _)%N; [intros Heq; injection Heq as <- _; eauto|].
  destruct (can_allocate _ _); [|intros Heq; injection Heq as <- _; eauto].
  destruct (for_loop _ _ _ _) as [[[] | e2 |] b] eqn:Hloop; try discriminate.
  exfalso.
  destruct (for_loop_inv (MakeEye_set n) (λ _ _, True) (N.to_nat n) 0 _ _ _ I
              ltac:(trivial) Hloop) as [[Hc _] | (_ & k & t & _ & _ & Hb)];
    [discriminate|].
  unfold MakeEye_set in Hb. destruct (_ <? _)%nat; discriminate.
Qed.

Lemma Eye_throws (n : N) (dataType : DataType) (device : DeviceDescriptor)
    (w w' : World E) (e : exn) :
  Eye n dataType device w = (Throw e, w') →
  e = UnsupportedTypeError ∨ (∃ what, e = length_error what) ∨ e = bad_alloc.
Proof.
  intros Hrun. destruct (cached w !! (n, dataType)) as [t|] eqn:Hl.
  - rewrite (Eye_hit _ _ _ _ _ Hl) in Hrun. discriminate.
  - destruct (decide (dataType = Float ∨ dataType = Double)) as [Hdt | Hdt].
    + rewrite (Eye_miss_supported _ _ _ _ Hl Hdt) in Hrun.
      destruct (MakeEye _ _ _ _ w) as [[eye | e1 |] w1] eqn:Hmk; try discriminate.
      injection Hrun as <- _. right. apply (MakeEye_throws _ _ _ _ _ _ _ Hmk).
    + rewrite Eye_miss_unsupported in Hrun by tauto.
      injection Hrun as <- _. left. reflexivity.
Qed.

Lemma FromCNTKMB_dense_throws (d : NDArrayView E) (w w' : World E) (e : exn) :
  FromCNTKMB_dense d w = (Throw e, w') →
  e = UnsupportedTypeError ∨ (∃ what, e = invalid_argument what) ∨
  (∃ what, e = length_error what) ∨ e = bad_alloc.
Proof.
  rewrite FromCNTKMB_dense_unfold.
  destruct (IsSparse d); [|discriminate].
  destruct (Shape d !! 0%nat) as [n|]; [|discriminate].
  destruct (Eye n (GetDataType d) (Device d) w) as [[eye | e1 |] w1] eqn:HE.
  - unfold MatrixProduct, mat_op. simpl.
    destruct (_ && _); intros Heq; [discriminate|].
    injection Heq as <- <-. right. left. eauto.
  - intros Heq. injection Heq as <- <-.
    destruct (Eye_throws _ _ _ _ _ _ HE) as [-> | [Hle | ->]]; tauto.
  - discriminate.
Qed.

Lemma FromCNTKMB_unpack_throws (inputs : list (Value E)) (isSequence : list bool)
    (device : DeviceDescriptor) (i : nat) (e : exn) :
  FromCNTKMB_unpack inputs isSequence device i = Throw e →
  ∃ what, e = invalid_argument what.
Proof.
  unfold FromCNTKMB_unpack.
  destruct (inputs !! i) as [input|]; [|discriminate]. cbn [of_option obind].
  destruct (SubShape _ _ _) as [sampleShape | e1 |] eqn:Hsub; [| |discriminate].
  - cbn [obind]. destruct (isSequence !! i) as [isSeq|]; [|discriminate].
    cbn [of_option obind].
    destruct (UnpackVariableValue _ _ _) as [sq | e1 |] eqn:Hu; [discriminate| |discriminate].
    cbn [obind]. intros Heq. injection Heq as <-.
    unfold UnpackVariableValue in Hu.
    destruct (drop _ _) as [|len [|batch [|x l]]]; try (injection Hu as <-; eauto).
    destruct (bool_decide _); [discriminate|]. injection Hu as <-. eauto.
  - cbn [obind]. intros Heq. injection Heq as <-.
    unfold SubShape in Hsub. destruct (_ && _); [discriminate|].
    injection Hsub as <-. eauto.
Qed.

(** Only the sequence-count check throws the mismatch error. *)
Lemma FromCNTKMB_fill_throws (hasAxis : bool) (sequences : list (NDArrayView E))
    (n : nat) (st st' : list (CNTKVariable E) * World E) (e : exn) :
  FromCNTKMB_fill hasAxis sequences n st = (Throw e, st') →
  e ≠ BatchShapeMismatchError.
Proof.
  destruct st as [arg w]. rewrite FromCNTKMB_fill_unfold. intros Hrun.
  destruct (for_loop_inv (FromCNTKMB_example hasAxis sequences) (λ _ _, True)
              n 0 _ _ _ I ltac:(trivial) Hrun)
    as [[Hc _] | (_ & k & [a u] & _ & _ & Hb)]; [discriminate|].
  rewrite FromCNTKMB_example_unfold in Hb.
  destruct (sequences !! k) as [data|]; [|discriminate].
  destruct (FromCNTKMB_shape hasAxis data) as [d1 | e1 |] eqn:Hsh; [| |discriminate].
  - destruct (FromCNTKMB_dense d1 u) as [[d2 | e2 |] u'] eqn:Hd.
    + destruct (k <? length a)%nat; discriminate.
    + injection Hb as <- _.
      destruct (FromCNTKMB_dense_throws _ _ _ _ Hd)
        as [-> | [[what ->] | [[what ->] | ->]]]; discriminate.
    + discriminate.
  - injection Hb as <- _. unfold FromCNTKMB_shape in Hsh.
    destruct hasAxis; simpl in Hsh; [discriminate|].
    destruct (last (Dimensions (Shape data))) as [back|]; [|discriminate].
    destruct (back =? 1)%N; simpl in Hsh.
    + destruct (Index_throws _ _ _ Hsh) as [what ->]. discriminate.
    + injection Hsh as <-. discriminate.
Qed.

(** When all the arguments that unpack do so to the same number [c] of
    sequences, no call throws the mismatch error. *)
Lemma FromCNTKMB_equal_counts_no_mismatch (res0 res' : list (list (CNTKVariable E)))
    (inputs : list (Value E)) (isSequence : list bool) (device : DeviceDescriptor)
    (w w' : World E) (o : outcome unit) (c : nat) :
  (∀ j variable sequences,
     FromCNTKMB_unpack inputs isSequence device j = Ret (variable, sequences) →
     length sequences = c) →
  FromCNTKMB res0 inputs isSequence device w = (o, res', w') →
  o ≠ Throw BatchShapeMismatchError.
Proof.
  intros Hc Hrun. unfold FromCNTKMB, FromCNTKMB_upto in Hrun.
  destruct (for_loop _ _ _ _) as [o1 σ1] eqn:Hloop. injection Hrun as <- <- <-.
  set (J := λ (_ : nat) (σ : Locals E), numSeq σ = 0%nat ∨ numSeq σ = c).
  assert (H0 : J 0%nat (FromCNTKMB_entry inputs w)) by (left; reflexivity).
  assert (Hstep : ∀ k t t', (0 ≤ k < 0 + length inputs)%nat → J k t →
            FromCNTKMB_arg inputs isSequence device k t = (Ret tt, t') → J (S k) t').
  { intros k t t' _ _ Hb.
    destruct (arg_step (λ _, True) True_Eye inputs isSequence device
                k t t' (Ret tt) I Hb) as (_ & _ & _ & Hret).
    destruct (Hret eq_refl) as (_ & v & sq & Hun & Hns & _).
    right. rewrite Hns. apply (Hc k v sq Hun). }
  destruct (for_loop_inv (FromCNTKMB_arg inputs isSequence device) J
              (length inputs) 0 _ _ _ H0 Hstep Hloop)
    as [[-> _] | (_ & k & t & _ & Hns & Hb)]; [discriminate|].
  rewrite FromCNTKMB_arg_unfold in Hb.
  destruct (FromCNTKMB_unpack inputs isSequence device k)
    as [[variable sequences] | e |] eqn:Hun.
  - rewrite (Hc k variable sequences Hun) in Hb.
    replace ((numSeq t =? 0)%nat || (numSeq t =? c)%nat) with true in Hb.
    2:{ symmetry. apply orb_true_iff. destruct Hns as [Hz | Hz];
          [left | right]; apply Nat.eqb_eq; exact Hz. }
    destruct (res t !! k) as [arg|]; [|injection Hb as <- _; discriminate].
    destruct (FromCNTKMB_fill _ _ _ _) as [o2 [arg' u']] eqn:Hfill.
    injection Hb as <- _. intros ->.
    apply (FromCNTKMB_fill_throws _ _ _ _ _ _ Hfill). reflexivity.
  - injection Hb as <- _. intros Heq. injection Heq as ->.
    destruct (FromCNTKMB_unpack_throws _ _ _ _ _ Hun) as [what Hwhat].
    discriminate.
  - injection Hb as <- _. discriminate.
Qed.

(** A call that does not return stopped in its first failing argument
    [k]: the arguments before it were processed, and the call ends with
    the outcome and the state of iteration [k]. *)
Lemma FromCNTKMB_fails_at (res0 res' : list (list (CNTKVariable E)))
    (inputs : list (Value E)) (isSequence : list bool) (device : DeviceDescriptor)
    (w w' : World E) (o : outcome unit) :
  FromCNTKMB res0 inputs isSequence device w = (o, res', w') → o ≠ Ret tt →
  ∃ (k : nat) (σ σ' : Locals E),
    (k < length inputs)%nat ∧
    FromCNTKMB_upto inputs isSequence device w k = (Ret tt, σ) ∧
    FromCNTKMB_arg inputs isSequence device k σ = (o, σ') ∧
    res' = res σ' ∧ w' = world σ'.
Proof.
  intros Hrun Hne. unfold FromCNTKMB, FromCNTKMB_upto in Hrun.
  destruct (for_loop _ _ _ _) as [o1 σ1] eqn:Hloop. injection Hrun as -> <- <-.
  destruct (for_loop_stops _ _ _ _ _ _ Hloop Hne) as (k & σ & Hk & Hupto & Hbody).
  exists k, σ, σ1. repeat split; assumption.
Qed.

(** Only the sequence-count check throws the mismatch error: an argument
    that fails with it has unpacked to a number of sequences other than
    the recorded, non-zero [numSeq]. *)
Lemma FromCNTKMB_arg_mismatch (inputs : list (Value E)) (isSequence : list bool)
    (device : DeviceDescriptor) (k : nat) (σ σ' : Locals E) :
  FromCNTKMB_arg inputs isSequence device k σ = (Throw BatchShapeMismatchError, σ') →
  ∃ variable sequences,
    FromCNTKMB_unpack inputs isSequence device k = Ret (variable, sequences) ∧
    numSeq σ ≠ 0%nat ∧ numSeq σ ≠ length sequences.
Proof.
  rewrite FromCNTKMB_arg_unfold.
  destruct (FromCNTKMB_unpack inputs isSequence device k)
    as [[variable sequences] | e |] eqn:Hun.
  - destruct (numSeq σ =? 0)%nat eqn:H0; simpl.
    + destruct (res σ !! k) as [arg|]; [|discriminate].
      destruct (FromCNTKMB_fill _ _ _ _) as [o2 [arg' u']] eqn:Hfill.
      intros Heq. injection Heq as -> _.
      exfalso. apply (FromCNTKMB_fill_throws _ _ _ _ _ _ Hfill). reflexivity.
    + destruct (numSeq σ =? length sequences)%nat eqn:Hn.
      * destruct (res σ !! k) as [arg|]; [|discriminate].
        destruct (FromCNTKMB_fill _ _ _ _) as [o2 [arg' u']] eqn:Hfill.
        intros Heq. injection Heq as -> _.
        exfalso. apply (FromCNTKMB_fill_throws _ _ _ _ _ _ Hfill). reflexivity.
      * intros _. exists variable, sequences. split; [reflexivity|].
        split; [apply Nat.eqb_neq; exact H0 | apply Nat.eqb_neq; exact Hn].
  - intros Heq. injection Heq as -> _.
    destruct (FromCNTKMB_unpack_throws _ _ _ _ _ Hun) as [what Hwhat]. discriminate.
  - discriminate.
Qed.

(** C1: when the first argument unpacks to [c > 0] sequences (streams are
    non-empty), [numSeq] is [c] from then on; a call whose loop reaches a
    later argument that unpacks to another number of sequences throws the
    mismatch error there; the mismatch error is thrown only for such an
    argument; and when every argument unpacks to [c] sequences no call
    throws it. *)
Theorem FromCNTKMB_sequence_counts (inputs : list (Value E)) (isSequence : list bool)
    (device : DeviceDescriptor) (w : World E) (v0 : CNTKVariable E)
    (sq0 : list (NDArrayView E)) :
  FromCNTKMB_unpack inputs isSequence device 0 = Ret (v0, sq0) →
  length sq0 ≠ 0%nat →
  (∀ (i : nat) (σ : Locals E), (0 < i ≤ length inputs)%nat →
     FromCNTKMB_upto inputs isSequence device w i = (Ret tt, σ) →
     numSeq σ = length sq0) ∧
  (∀ (res0 : list (list (CNTKVariable E))) (i : nat) (σ : Locals E)
     (variable : CNTKVariable E) (sequences : list (NDArrayView E)),
     (0 < i)%nat →
     FromCNTKMB_upto inputs isSequence device w i = (Ret tt, σ) →
     FromCNTKMB_unpack inputs isSequence device i = Ret (variable, sequences) →
     length sequences ≠ length sq0 →
     FromCNTKMB res0 inputs isSequence device w
       = (Throw BatchShapeMismatchError, res σ, world σ)) ∧
  (∀ (res0 res' : list (list (CNTKVariable E))) (w' : World E),
     FromCNTKMB res0 inputs isSequence device w
       = (Throw BatchShapeMismatchError, res', w') →
     ∃ (i : nat) (variable : CNTKVariable E) (sequences : list (NDArrayView E)),
       (0 < i < length inputs)%nat ∧
       FromCNTKMB_unpack inputs isSequence device i = Ret (variable, sequences) ∧
       length sequences ≠ length sq0) ∧
  ((∀ (j : nat) (variable : CNTKVariable E) (sequences : list (NDArrayView E)),
      FromCNTKMB_unpack inputs isSequence device j = Ret (variable, sequences) →
      length sequences = length sq0) →
   ∀ (res0 res' : list (list (CNTKVariable E))) (w' : World E),
     FromCNTKMB res0 inputs isSequence device w
       ≠ (Throw BatchShapeMismatchError, res', w')).
Proof.
  intros Hun0 Hnz.
  assert (Hrec : ∀ (i : nat) (σ : Locals E), (0 < i ≤ length inputs)%nat →
            FromCNTKMB_upto inputs isSequence device w i = (Ret tt, σ) →
            numSeq σ = length sq0).
  { intros i σ Hi Hupto.
    apply (FromCNTKMB_numSeq_recorded inputs isSequence device w i σ v0 sq0
             Hi Hupto Hun0 Hnz). }
  assert (Hfrom : ∀ (res0 res' : list (list (CNTKVariable E))) (w' : World E),
            FromCNTKMB res0 inputs isSequence device w
              = (Throw BatchShapeMismatchError, res', w') →
            ∃ (i : nat) (variable : CNTKVariable E) (sequences : list (NDArrayView E)),
              (0 < i < length inputs)%nat ∧
              FromCNTKMB_unpack inputs isSequence device i = Ret (variable, sequences) ∧
              length sequences ≠ length sq0).
  { intros res0 res' w' Hrun.
    destruct (FromCNTKMB_fails_at _ _ _ _ _ _ _ _ Hrun ltac:(discriminate))
      as (k & σ & σ' & Hk & Hupto & Hbody & _).
    destruct (FromCNTKMB_arg_mismatch _ _ _ _ _ _ Hbody)
      as (variable & sequences & Hun & Hns0 & Hns).
    destruct k as [|k].
    { unfold FromCNTKMB_upto in Hupto. simpl in Hupto. unfold ret in Hupto.
      injection Hupto as <-. contradiction Hns0. reflexivity. }
    exists (S k), variable, sequences. split; [lia|]. split; [exact Hun|].
    rewrite <- (Hrec (S k) σ ltac:(lia) Hupto). congruence. }
  split; [exact Hrec|]. split; [|split; [exact Hfrom|]].
  - intros res0 i σ variable sequences Hi Hupto Hun Hne.
    assert (Hlt : (i < length inputs)%nat).
    { unfold FromCNTKMB_unpack in Hun.
      destruct (inputs !! i) eqn:Hin; [|discriminate].
      apply lookup_lt_Some in Hin. exact Hin. }
    pose proof (Hrec i σ ltac:(lia) Hupto) as Hns.
    apply (FromCNTKMB_mismatch_detected res0 inputs isSequence device w i σ
             variable sequences Hupto Hun); congruence.
  - intros Hall res0 res' w' Hrun.
    destruct (Hfrom res0 res' w' Hrun) as (i & variable & sequences & _ & Hun & Hne).
    apply Hne. apply (Hall i variable sequences Hun).
Qed.

(** C2 (amended): a failing call of [FromCNTKMB], whatever the error,
    returns no value, but its out-parameter [res] is not rolled back. The
    call stops in its first failing argument [k] (the arguments before [k]
    were processed, argument [k] throws the error of the call), and [res]
    is left as that iteration left it: [numArgs] entries, of which those of
    the arguments before [k] are fully populated (one constant per
    unpacked sequence) and those after [k] are empty. *)
Theorem FromCNTKMB_failure_keeps_partial_res
    (res0 res' : list (list (CNTKVariable E))) (inputs : list (Value E))
    (isSequence : list bool) (device : DeviceDescriptor) (w w' : World E) (e : exn) :
  FromCNTKMB res0 inputs isSequence device w = (Throw e, res', w') →
  length res' = length inputs ∧
  ∃ (k : nat) (σ σ' : Locals E),
    (k < length inputs)%nat ∧
    FromCNTKMB_upto inputs isSequence device w k = (Ret tt, σ) ∧
    FromCNTKMB_arg inputs isSequence device k σ = (Throw e, σ') ∧
    res' = res σ' ∧
    (∀ j : nat, (j < k)%nat →
       ∃ variable sequences arg,
         FromCNTKMB_unpack inputs isSequence device j = Ret (variable, sequences) ∧
         res' !! j = Some arg ∧ length arg = length sequences ∧
         ∀ s : nat, (s < length sequences)%nat →
           ∃ d : NDArrayView E, arg !! s = Some (Constant d)) ∧
    (∀ j : nat, (k < j < length inputs)%nat → res' !! j = Some []).
Proof.
  intros Hrun.
  destruct (FromCNTKMB_run (λ _, True) True_Eye inputs isSequence device
              res0 res' w w' (Throw e) I Hrun) as (_ & Hlen & _ & _).
  split; [exact Hlen|].
  destruct (FromCNTKMB_fails_at _ _ _ _ _ _ _ _ Hrun ltac:(discriminate))
    as (k & σ & σ' & Hk & Hupto & Hbody & Hres & _).
  exists k, σ, σ'. do 4 (split; [assumption|]).
  destruct (args_inv_upto (λ _, True) True_Eye inputs isSequence device w k σ I
              ltac:(lia) Hupto) as (_ & _ & Hdone & Hrest & _).
  destruct (arg_step (λ _, True) True_Eye inputs isSequence device k σ σ' _ I Hbody)
    as (_ & _ & Hother & _).
  subst res'. split.
  - intros j Hj. rewrite Hother by lia.
    destruct (Hdone j Hj) as (variable & sequences & arg & Hun & Hr & Hl & Hex).
    exists variable, sequences, arg. repeat split; try assumption.
    intros s Hs. destruct (Hex s Hs) as (_ & _ & d2 & _ & _ & _ & _ & _ & _ & Hv).
    exists d2. exact Hv.
  - intros j Hj. rewrite Hother by lia. apply Hrest. lia.
Qed.

(** C10: [FromCNTKMB] clears [res] on entry and resizes it to [numArgs]
    entries: the whole result of the call (outcome, final [res], cache) is
    the same for any two initial contents of [res], it is the result of the
    call started on an empty [res], and the final [res] has exactly
    [numArgs] entries. *)
Theorem FromCNTKMB_ignores_initial_res
    (res1 res2 : list (list (CNTKVariable E))) (inputs : list (Value E))
    (isSequence : list bool) (device : DeviceDescriptor) (w : World E) :
  FromCNTKMB res1 inputs isSequence device w
    = FromCNTKMB res2 inputs isSequence device w ∧
  FromCNTKMB res1 inputs isSequence device w
    = FromCNTKMB [] inputs isSequence device w ∧
  length (FromCNTKMB res1 inputs isSequence device w).1.2 = length inputs.
Proof.
  split; [reflexivity|]. split; [reflexivity|].
  destruct (FromCNTKMB res1 inputs isSequence device w) as [[o res'] w'] eqn:Hrun.
  apply (FromCNTKMB_run (λ _, True) True_Eye inputs isSequence device
           res1 res' w w' o I Hrun).
Qed.

(** C6 (amended): in a call that returns, every example [X] (the unpacked
    sequence after the shape step) that is sparse-encoded, of shape
    [n :: rest], is replaced by [MatrixProduct(false, eye, false, X, false,
    1.0, 1)], where [eye] is the identity tensor of order [n], [n] the
    leading dimension of [X], obtained from [Eye] for the data type and
    device of [X]; the stored constant wraps that product, which has the
    shape and data type of [X], in dense storage; the data type is one of
    the two supported ones. The product has the elements of [X] whenever
    these are values on which the arithmetic of the element type is exact
    (for [float] and [double]: finite and not the negative zero). *)
Theorem FromCNTKMB_densifies_by_identity_product
    (res0 res' : list (list (CNTKVariable E))) (inputs : list (Value E))
    (isSequence : list bool) (device : DeviceDescriptor) (w w' : World E)
    (i s : nat) (variable : CNTKVariable E) (sequences : list (NDArrayView E))
    (data X : NDArrayView E) (n : N) (rest : list N) :
  cache_ok w →
  FromCNTKMB res0 inputs isSequence device w = (Ret tt, res', w') →
  FromCNTKMB_unpack inputs isSequence device i = Ret (variable, sequences) →
  sequences !! s = Some data →
  FromCNTKMB_shape (1 <? length (DynamicAxes variable))%nat data = Ret X →
  IsSparse X = true → Shape X = n :: rest → (n * n < SIZE_MOD)%N → well_formed X →
  ∃ (eye product : NDArrayView E) (arg : list (CNTKVariable E)) (wa wb : World E),
    Eye n (GetDataType X) (Device X) wa = (Ret eye, wb) ∧
    identity_tensor n (GetDataType X) eye ∧
    MatrixProduct false eye false X false e_one 1 = Ret product ∧
    res' !! i = Some arg ∧ arg !! s = Some (Constant product) ∧
    Shape product = Shape X ∧
    GetDataType product = GetDataType X ∧ IsSparse product = false ∧
    (GetDataType X = Float ∨ GetDataType X = Double) ∧
    (∀ P : E → Prop, ExactOn P → Forall P (buffer X) → buffer product = buffer X).
Proof.
  intros Hok Hrun Hun Hs Hsh Hsp HX Hn Hwf.
  destruct (FromCNTKMB_ret_example _ _ _ _ _ _ _ _ _ _ _ _ Hok Hrun Hun Hs)
    as (arg & d1 & d2 & wa & wb & Hr & _ & Hsh' & Hwa & Hd & Hv).
  rewrite Hsh in Hsh'. injection Hsh' as <-.
  destruct (FromCNTKMB_dense_shape _ _ _ _ Hwa Hd) as (Hs2 & Hdt2 & _ & Hsp2).
  pose proof Hd as Hd'. rewrite FromCNTKMB_dense_unfold, Hsp, HX in Hd'.
  simpl in Hd'.
  destruct (Eye n (GetDataType X) (Device X) wa) as [[eye | e |] w1] eqn:HE;
    try discriminate.
  destruct (MatrixProduct false eye false X false e_one 1) as [p | e |] eqn:Hp;
    try discriminate.
  injection Hd' as -> ->.
  pose proof (Eye_ret_identity _ _ _ _ _ _ Hwa Hn HE) as Hid.
  exists eye, d2, arg, wa, wb.
  split; [exact HE|]. split; [exact Hid|]. split; [exact Hp|].
  split; [exact Hr|]. split; [exact Hv|].
  split; [exact Hs2|]. split; [exact Hdt2|]. split; [exact Hsp2|]. split.
  - apply (Eye_cache_ok _ _ _ _ _ _ Hwa HE n (GetDataType X) eye).
    apply (Eye_ret_cached _ _ _ _ _ _ HE).
  - intros P exact HP.
    rewrite (MatrixProduct_identity P eye X n rest Hid HX Hwf HP) in Hp.
    injection Hp as <-. reflexivity.
Qed.

(** C7: for a stream declared non-sequential ([isSequence[i]] false), of
    shape sample shape ++ [len, batch], whose unpacked examples have
    trailing dimension [len]. If [len] is not 1, the check of every example
    throws the malformed-stream error, a call whose loop reaches the stream
    fails with that error, and no call returns. If [len] is 1, [Index
    example 0] is applied and gives the example under the shape without
    its trailing axis, and after a normal return the stored constant has
    that shape. *)
Theorem FromCNTKMB_nonsequential_stream
    (res0 : list (list (CNTKVariable E))) (inputs : list (Value E))
    (isSequence : list bool) (device : DeviceDescriptor) (w : World E)
    (i : nat) (input : Value E) (sample : NDShape) (len batch : N) :
  inputs !! i = Some input → isSequence !! i = Some false →
  Shape (Data input) = sample ++ [len; batch] →
  let example := sequence_view (Data input) sample len in
  (len ≠ 1%N →
     (∀ s : nat, FromCNTKMB_shape false (example s) = Throw MalformedStreamError) ∧
     (∀ σ : Locals E,
        FromCNTKMB_upto inputs isSequence device w i = (Ret tt, σ) →
        numSeq σ = 0%nat ∨ numSeq σ = N.to_nat batch → batch ≠ 0%N →
        ∃ res' w', FromCNTKMB res0 inputs isSequence device w
                   = (Throw MalformedStreamError, res', w')) ∧
     (∀ res' w', batch ≠ 0%N →
        FromCNTKMB res0 inputs isSequence device w ≠ (Ret tt, res', w'))) ∧
  (len = 1%N →
     (∀ s : nat,
        FromCNTKMB_shape false (example s) = Index (example s) 0 ∧
        ∃ t : NDArrayView E,
          Index (example s) 0 = Ret t ∧ Shape t = removelast (Shape (example s)) ∧
          Shape t = sample ∧ buffer t = buffer (example s)) ∧
     (cache_ok w → ∀ res' w',
        FromCNTKMB res0 inputs isSequence device w = (Ret tt, res', w') →
        ∃ arg : list (CNTKVariable E),
          res' !! i = Some arg ∧
          ∀ s : nat, (s < N.to_nat batch)%nat →
            ∃ t : NDArrayView E,
              arg !! s = Some (Constant t) ∧
              Shape t = removelast (Shape (example s)))).
Proof.
  intros Hin Hflag Hshape example.
  pose proof (FromCNTKMB_unpack_stream inputs isSequence device i input false
                sample len batch Hin Hflag Hshape) as Hun.
  assert (Hi : (i < length inputs)%nat) by (apply lookup_lt_Some in Hin; exact Hin).
  assert (Hlast : ∀ s, last (Shape (example s)) = Some len).
  { intros s. unfold example, sequence_view. simpl. apply last_snoc. }
  split.
  - intros Hlen.
    assert (Hmal : ∀ s, FromCNTKMB_shape false (example s) = Throw MalformedStreamError).
    { intros s. apply (FromCNTKMB_shape_malformed (example s) len (Hlast s) Hlen). }
    split; [exact Hmal|]. split.
    + intros σ Hupto Hns Hbatch.
      destruct (args_inv_upto (λ _, True) True_Eye inputs isSequence device w i σ I
                  ltac:(lia) Hupto) as (_ & _ & _ & Hrest & _).
      pose proof (Hrest i ltac:(lia)) as Hri.
      assert (Hbody : ∃ σ', FromCNTKMB_arg inputs isSequence device i σ
                            = (Throw MalformedStreamError, σ')).
      { rewrite FromCNTKMB_arg_unfold, Hun, sequence_view_count, Hri.
        replace ((numSeq σ =? 0)%nat || (numSeq σ =? N.to_nat batch)%nat) with true.
        2:{ symmetry. apply orb_true_iff. destruct Hns as [Hz | Hz];
              [left | right]; apply Nat.eqb_eq; exact Hz. }
        rewrite stream_variable_hasAxis, FromCNTKMB_fill_unfold.
        destruct (N.to_nat batch) as [|b] eqn:Hb; [lia|].
        rewrite for_loop_S, FromCNTKMB_example_unfold.
        rewrite sequence_view_lookup by lia. fold example. rewrite Hmal.
        eexists. reflexivity. }
      destruct Hbody as [σ' Hbody].
      exists (res σ'), (world σ').
      apply (FromCNTKMB_after_upto res0 inputs isSequence device w i σ σ' _
               Hi Hupto Hbody). discriminate.
    + intros res' w' Hbatch Hrun.
      destruct (FromCNTKMB_run (λ _, True) True_Eye inputs isSequence device
                  res0 res' w w' (Ret tt) I Hrun) as (_ & _ & Hdone & _).
      destruct (Hdone eq_refl i Hi) as (v & sq & arg & Hun' & _ & _ & Hex).
      rewrite Hun in Hun'. injection Hun' as <- <-.
      rewrite sequence_view_count, stream_variable_hasAxis in Hex.
      destruct (Hex 0%nat ltac:(lia)) as (d & d1 & _ & _ & _ & Hs & Hsh & _).
      rewrite sequence_view_lookup in Hs by lia. injection Hs as <-.
      fold example in Hsh. rewrite Hmal in Hsh. discriminate.
  - intros ->.
    assert (Hidx : ∀ s, Index (example s) 0 =
              Ret {| GetDataType := GetDataType (example s); Shape := sample;
                     Device := Device (example s); IsSparse := IsSparse (example s);
                     IsReadOnly := IsReadOnly (example s);
                     buffer := buffer (example s) |}).
    { intros s. rewrite (Index_unfold (example s) sample 1 0) by reflexivity.
      change ((0 =? 0)%N && (1 =? 1)%N) with true. cbv iota.
      apply AsShape_last. reflexivity. }
    assert (Hrm : ∀ s, removelast (Shape (example s)) = sample).
    { intros s. unfold example, sequence_view. simpl. apply removelast_last. }
    split.
    + intros s. split.
      * unfold FromCNTKMB_shape, Dimensions. simpl negb. cbv iota.
        rewrite (Hlast s). reflexivity.
      * eexists. split; [apply Hidx|]. rewrite Hrm. repeat split.
    + intros Hok res' w' Hrun.
      destruct (FromCNTKMB_run cache_ok Eye_cache_ok inputs isSequence device
                  res0 res' w w' (Ret tt) Hok Hrun) as (_ & _ & Hdone & _).
      destruct (Hdone eq_refl i Hi) as (v & sq & arg & Hun' & Hr & _ & Hex).
      rewrite Hun in Hun'. injection Hun' as <- <-.
      rewrite sequence_view_count, stream_variable_hasAxis in Hex.
      exists arg. split; [exact Hr|]. intros s Hs.
      destruct (Hex s Hs) as (d & d1 & d2 & wa & wb & Hsd & Hsh & Hwa & Hd & Hv).
      rewrite sequence_view_lookup in Hsd by exact Hs. injection Hsd as <-.
      fold example in Hsh.
      destruct (FromCNTKMB_shape_false _ _ Hsh) as (init & Hinit & ->).
      destruct (FromCNTKMB_dense_shape _ _ _ _ Hwa Hd) as (Hs2 & _).
      exists d2. split; [exact Hv|]. rewrite Hs2. cbn [Shape].
      rewrite Hinit, removelast_last. reflexivity.
Qed.


(** C8: on a cache written by [Eye] only, [Eye n dataType device] returns
    only when [dataType] is [Float] or [Double]; for these two types it
    returns whenever the tensor is cached or the buffer of [MakeEye] can
    be constructed, and it never throws the unsupported-type error; for
    every other data type it throws the unsupported-type error and leaves
    the cache and the count of [MakeEye] calls unchanged (nothing is
    retried). The error propagates: the densification step of a sparse
    example of such a type throws it, and a call of [FromCNTKMB] whose loop
    reaches a sparse sequential stream of such a type fails with it. *)
Theorem Eye_supported_types (n : N) (dataType : DataType)
    (device : DeviceDescriptor) (w : World E) :
  cache_ok w →
  ((∃ t w', Eye n dataType device w = (Ret t, w')) →
   dataType = Float ∨ dataType = Double) ∧
  (dataType = Float ∨ dataType = Double →
   (is_Some (cached w !! (n, dataType)) ∨ buffer_fits dataType n w →
    ∃ t w', Eye n dataType device w = (Ret t, w')) ∧
   ∀ w', Eye n dataType device w ≠ (Throw UnsupportedTypeError, w')) ∧
  (dataType ≠ Float → dataType ≠ Double →
   Eye n dataType device w = (Throw UnsupportedTypeError, w) ∧
   (∀ (X : NDArrayView E) (rest : list N),
      IsSparse X = true → Shape X = n :: rest → GetDataType X = dataType →
      FromCNTKMB_dense X w = (Throw UnsupportedTypeError, w)) ∧
   (∀ (res0 : list (list (CNTKVariable E))) (inputs : list (Value E))
      (isSequence : list bool) (dev0 : DeviceDescriptor) (w0 : World E) (i : nat)
      (σ : Locals E) (input : Value E) (sample : NDShape) (len batch : N),
      cache_ok w0 →
      FromCNTKMB_upto inputs isSequence dev0 w0 i = (Ret tt, σ) →
      inputs !! i = Some input → isSequence !! i = Some true →
      Shape (Data input) = sample ++ [len; batch] → batch ≠ 0%N →
      numSeq σ = 0%nat ∨ numSeq σ = N.to_nat batch →
      IsSparse (Data input) = true → GetDataType (Data input) = dataType →
      ∃ res', FromCNTKMB res0 inputs isSequence dev0 w0
              = (Throw UnsupportedTypeError, res', world σ))).
Proof.
  intros Hok.
  assert (Hthrow : dataType ≠ Float → dataType ≠ Double →
            ∀ (n' : N) (dev' : DeviceDescriptor) (u : World E), cache_ok u →
              Eye n' dataType dev' u = (Throw UnsupportedTypeError, u)).
  { intros Hf Hd n' dev' u Hu. apply Eye_miss_unsupported; try assumption.
    destruct (cached u !! (n', dataType)) as [t|] eqn:Hl; [|reflexivity].
    destruct (Hu _ _ _ Hl) as [[-> | ->] _]; contradiction. }
  assert (Hdense : dataType ≠ Float → dataType ≠ Double →
            ∀ (X : NDArrayView E) (n' : N) (rest : list N) (u : World E),
              cache_ok u → IsSparse X = true → Shape X = n' :: rest →
              GetDataType X = dataType →
              FromCNTKMB_dense X u = (Throw UnsupportedTypeError, u)).
  { intros Hf Hd X n' rest u Hu Hsp HX Hdt.
    rewrite FromCNTKMB_dense_unfold, Hsp, HX. simpl.
    rewrite Hdt, Hthrow by assumption. reflexivity. }
  split; [|split].
  - intros (t & w' & Hrun).
    destruct dataType; try (left; reflexivity); try (right; reflexivity);
      rewrite Hthrow in Hrun by (discriminate || exact Hok); discriminate.
  - intros Hdt. split.
    + intros Hcan.
      destruct (cached w !! (n, dataType)) as [t|] eqn:Hl.
      * exists t, w. apply Eye_hit. exact Hl.
      * destruct Hcan as [[t Ht] | [Hmax Hmem]]; [discriminate|].
        rewrite (Eye_miss_supported n dataType device w Hl Hdt).
        destruct (MakeEye_ok (ElementType_size dataType) n dataType device w
                    Hmax Hmem) as (b & _ & _ & ->).
        eexists _, _. reflexivity.
    + intros w' Hrun.
      destruct (cached w !! (n, dataType)) as [t|] eqn:Hl.
      * rewrite (Eye_hit _ _ _ _ _ Hl) in Hrun. discriminate.
      * rewrite (Eye_miss_supported n dataType device w Hl Hdt) in Hrun.
        destruct (MakeEye _ _ _ _ w) as [[eye | e1 |] w1] eqn:Hmk; try discriminate.
        injection Hrun as -> _.
        destruct (MakeEye_throws _ _ _ _ _ _ _ Hmk) as [[what Hw] | Hw]; discriminate.
  - intros Hf Hd. split; [apply Hthrow; assumption|]. split.
    + intros X rest Hsp HX Hdt. apply (Hdense Hf Hd X n rest w Hok Hsp HX Hdt).
    + intros res0 inputs isSequence dev0 w0 i σ input sample len batch
        Hok0 Hupto Hin Hflag Hshape Hbatch Hns Hsp Hdt.
      pose proof (FromCNTKMB_unpack_stream inputs isSequence dev0 i input true
                    sample len batch Hin Hflag Hshape) as Hun.
      assert (Hi : (i < length inputs)%nat)
        by (apply lookup_lt_Some in Hin; exact Hin).
      destruct (args_inv_upto cache_ok Eye_cache_ok inputs isSequence dev0 w0 i σ
                  Hok0 ltac:(lia) Hupto) as (Hokσ & _ & _ & Hrest & _).
      pose proof (Hrest i ltac:(lia)) as Hri.
      assert (Hbody : ∃ r, FromCNTKMB_arg inputs isSequence dev0 i σ
                = (Throw UnsupportedTypeError,
                   {| res := r; numSeq := N.to_nat batch; world := world σ |})).
      { rewrite FromCNTKMB_arg_unfold, Hun, sequence_view_count, Hri.
        replace ((numSeq σ =? 0)%nat || (numSeq σ =? N.to_nat batch)%nat) with true.
        2:{ symmetry. apply orb_true_iff. destruct Hns as [Hz | Hz];
              [left | right]; apply Nat.eqb_eq; exact Hz. }
        rewrite stream_variable_hasAxis, FromCNTKMB_fill_unfold.
        destruct (N.to_nat batch) as [|b] eqn:Hb; [lia|].
        rewrite for_loop_S, FromCNTKMB_example_unfold.
        rewrite sequence_view_lookup by lia.
        cbn [FromCNTKMB_shape negb].
        assert (Hhead : ∃ n0 rest,
                  Shape (sequence_view (Data input) sample len 0) = n0 :: rest)
          by (destruct sample; simpl; eauto).
        destruct Hhead as (n0 & rest & Hhead).
        rewrite (Hdense Hf Hd (sequence_view (Data input) sample len 0) n0 rest
                   (world σ) Hokσ Hsp Hhead Hdt).
        eexists. reflexivity. }
      destruct Hbody as [r Hbody].
      exists r.
      apply (FromCNTKMB_after_upto res0 inputs isSequence dev0 w0 i σ _ _
               Hi Hupto Hbody). discriminate.
Qed.

End FromCNTKMB_correct.

(** ** Further properties of Index *)
Section Index_more.
Context {E : Type} `{Element E}.

(** The value of [Index T i] for a valid index. *)
Lemma Index_ret (T : NDArrayView E) (init : list N) (d i : N) :
  Shape T = init ++ [d] → (i < d)%N → well_formed T →
  let P := N.to_nat (TotalSize init) in
  Index T i =
    Ret {| GetDataType := GetDataType T; Shape := init; Device := Device T;
           IsSparse := IsSparse T;
           IsReadOnly := if (i =? 0)%N && (d =? 1)%N then IsReadOnly T else true;
           buffer := take P (drop (N.to_nat i * P) (buffer T)) |}.
Proof.
  intros Hshape Hi Hwf P. rewrite (Index_unfold T init d i Hshape).
  destruct ((i =? 0)%N && (d =? 1)%N) eqn:Hcase.
  - apply andb_true_iff in Hcase as [Hi0 Hd1].
    apply N.eqb_eq in Hi0, Hd1. subst i d.
    rewrite (AsShape_last T init Hshape). do 2 f_equal.
    simpl. rewrite drop_0. rewrite take_ge; [reflexivity|].
    unfold well_formed in Hwf. rewrite Hwf, Hshape, TotalSize_app.
    change (TotalSize [1%N]) with 1%N. unfold P. lia.
  - apply (SliceView_last T init d i Hshape Hi Hwf).
Qed.

(** The slices of a tensor along its last axis partition its elements: for
    a well-formed tensor of shape [init ++ [d]] every [Index T k], [k < d],
    returns, and the buffers of the [d] slices, glued in the order of [k],
    are the buffer of the tensor. *)
Theorem Index_slices_partition (T : NDArrayView E) (init : list N) (d : N) :
  Shape T = init ++ [d] → well_formed T →
  (∀ k : nat, (k < N.to_nat d)%nat → ∃ t, Index T (N.of_nat k) = Ret t) ∧
  concat (map (λ k, match Index T (N.of_nat k) with
                    | Ret t => buffer t
                    | _ => []
                    end) (seq 0 (N.to_nat d))) = buffer T.
Proof.
  intros Hshape Hwf. split.
  - intros k Hk. eexists. apply (Index_ret T init d (N.of_nat k) Hshape); [lia | exact Hwf].
  - set (P := N.to_nat (TotalSize init)).
    etransitivity; [|apply (concat_chunks P (N.to_nat d) (buffer T))].
    + f_equal. apply map_ext_in. intros k Hk. apply in_seq in Hk.
      rewrite (Index_ret T init d (N.of_nat k) Hshape) by (lia || exact Hwf).
      simpl. rewrite Nat2N.id. reflexivity.
    + unfold well_formed in Hwf. rewrite Hwf, Hshape, TotalSize_app.
      change (TotalSize [d]) with (d * 1)%N. unfold P. lia.
Qed.

(** Indexing the last two axes in turn selects the block at the
    column-major offset [i + d1 * j]: for a well-formed tensor of shape
    [init ++ [d1; d2]], [Index (Index T j) i] is the tensor of shape [init]
    made of the [P] elements that start at [(i + d1 * j) * P], [P] being the
    number of elements of [init]. *)
Theorem Index_twice (T : NDArrayView E) (init : list N) (d1 d2 i j : N) :
  Shape T = init ++ [d1; d2] → (i < d1)%N → (j < d2)%N → well_formed T →
  let P := N.to_nat (TotalSize init) in
  ∃ t1 t2 : NDArrayView E,
    Index T j = Ret t1 ∧ Index t1 i = Ret t2 ∧ Shape t2 = init ∧
    buffer t2
      = take P (drop ((N.to_nat i + N.to_nat d1 * N.to_nat j) * P) (buffer T)).
Proof.
  intros Hshape Hi Hj Hwf P.
  assert (Hshape' : Shape T = (init ++ [d1]) ++ [d2]) by (rewrite <- app_assoc; exact Hshape).
  pose proof (Index_ret T (init ++ [d1]) d2 j Hshape' Hj Hwf) as H1.
  cbv zeta in H1. rewrite TotalSize_app in H1.
  change (TotalSize [d1]) with (d1 * 1)%N in H1.
  set (P1 := N.to_nat (TotalSize init * (d1 * 1))) in H1.
  assert (HP1 : P1 = (P * N.to_nat d1)%nat) by (unfold P1, P; lia).
  assert (Hlen : length (buffer T) = (P1 * N.to_nat d2)%nat).
  { unfold well_formed in Hwf. rewrite Hwf, Hshape', !TotalSize_app.
    change (TotalSize [d1]) with (d1 * 1)%N. change (TotalSize [d2]) with (d2 * 1)%N.
    unfold P1. lia. }
  eexists. eexists. split; [exact H1|].
  match type of H1 with _ = Ret ?t => set (t1 := t) end.
  assert (Hwf1 : well_formed t1).
  { unfold well_formed, t1. simpl. rewrite length_take, length_drop, Hlen.
    rewrite TotalSize_app. change (TotalSize [d1]) with (d1 * 1)%N. fold P1.
    assert (N.to_nat j < N.to_nat d2)%nat by lia. nia. }
  pose proof (Index_ret t1 init d1 i eq_refl Hi Hwf1) as H2. cbv zeta in H2.
  split; [exact H2|]. split; [reflexivity|]. simpl. fold P.
  apply list_eq. intros k.
  destruct (decide (k < P)%nat) as [Hk | Hk].
  - rewrite !lookup_take_lt by exact Hk. rewrite !lookup_drop.
    rewrite lookup_take_lt by (assert (N.to_nat i < N.to_nat d1)%nat by lia; nia).
    rewrite lookup_drop. f_equal. nia.
  - rewrite !lookup_take_ge by lia. reflexivity.
Qed.

(** [Index] has undefined behaviour exactly on a tensor without axes
    ([back()] of an empty vector); on every tensor of rank at least 1 it
    returns or throws. *)
Theorem Index_undefined_iff (T : NDArrayView E) (i : N) :
  Index T i = Undef ↔ Shape T = [].
Proof.
  split.
  - intros HU. destruct (Shape T) as [|d0 rest] eqn:Hshape; [reflexivity|].
    exfalso.
    destruct (exists_last (l := d0 :: rest) ltac:(discriminate)) as (init & d & Heq).
    rewrite Heq in Hshape.
    rewrite (Index_unfold T init d i Hshape) in HU.
    unfold AsShape, SliceView in HU.
    repeat match type of HU with
           | (if ?c then _ else _) = _ => destruct c
           end; discriminate.
  - intros Hshape. unfold Index, Dimensions. rewrite Hshape. reflexivity.
Qed.

End Index_more.

(** ** Further properties of MakeEye and Eye *)
Section Eye_more.
Context {E : Type} `{Element E}.



(** What a call of [Eye] does to the cache: a call that returns leaves the
    cache as it was but for its own key, which holds the tensor it returns
    (on a hit it held it already); a call that throws leaves the cache as
    it was. *)
Theorem Eye_changes_only_its_key (n : N) (dataType : DataType)
    (device : DeviceDescriptor) (w w' : World E) (o : outcome (NDArrayView E)) :
  Eye n dataType device w = (o, w') →
  (∀ t : NDArrayView E, o = Ret t → cached w' = <[(n, dataType) := t]> (cached w)) ∧
  (∀ e : exn, o = Throw e → cached w' = cached w).
Proof.
  intros Hrun.
  destruct (cached w !! (n, dataType)) as [t0|] eqn:Hl.
  { rewrite (Eye_hit _ _ _ _ _ Hl) in Hrun. injection Hrun as <- <-.
    split; [|discriminate]. intros t Heq. injection Heq as <-.
    symmetry. apply insert_id. exact Hl. }
  destruct (decide (dataType = Float ∨ dataType = Double)) as [Hdt | Hdt].
  2:{ rewrite Eye_miss_unsupported in Hrun by tauto. injection Hrun as <- <-.
      split; [discriminate | reflexivity]. }
  rewrite (Eye_miss_supported _ _ _ _ Hl Hdt) in Hrun.
  pose proof (MakeEye_world (ElementType_size dataType) n dataType device w) as Hw.
  destruct (MakeEye _ _ _ _ w) as [[eye | e |] w1]; simpl in Hw; subst w1;
    injection Hrun as <- <-; (split; [|try discriminate; reflexivity]).
  - intros t Heq. injection Heq as <-. reflexivity.
  - discriminate.
  - discriminate.
Qed.

(** The device argument only matters on a miss: the tensor created by
    [Eye n dataType d1] lives on [d1], and every later call for the same
    key returns a tensor on [d1], whatever device it asks for. *)
Theorem Eye_device_of_first_request (n : N) (dataType : DataType)
    (d1 d2 : DeviceDescriptor) (w w1 : World E) (t1 : NDArrayView E)
    (calls : list (N * DataType * DeviceDescriptor)) :
  cached w !! (n, dataType) = None →
  Eye n dataType d1 w = (Ret t1, w1) →
  Device t1 = d1 ∧
  ∃ t : NDArrayView E,
    (Eye n dataType d2 (Eye_calls calls w1)).1 = Ret t ∧ Device t = d1.
Proof.
  intros Hmiss Hrun.
  assert (Hdev : Device t1 = d1).
  { apply (Eye_miss_ret _ _ _ _ _ _ Hmiss Hrun). }
  split; [exact Hdev|]. exists t1. split; [|exact Hdev].
  rewrite (Eye_hit n dataType d2 (Eye_calls calls w1) t1); [reflexivity|].
  apply Eye_calls_keep_entries. apply (Eye_ret_cached _ _ _ _ _ _ Hrun).
Qed.

Lemma Eye_fits_cached (n : N) (dataType : DataType) (device : DeviceDescriptor)
    (w : World E) :
  dataType = Float ∨ dataType = Double → buffer_fits dataType n w →
  is_Some (cached (Eye n dataType device w).2 !! (n, dataType)).
Proof.
  intros Hdt [Hmax Hmem].
  destruct (cached w !! (n, dataType)) as [t|] eqn:Hl.
  - rewrite (Eye_hit _ _ _ _ _ Hl). simpl. rewrite Hl. eauto.
  - rewrite (Eye_miss_supported _ _ _ _ Hl Hdt).
    destruct (MakeEye_ok (ElementType_size dataType) n dataType device w Hmax Hmem)
      as (b & _ & _ & ->).
    simpl. rewrite lookup_insert_eq. eauto.
Qed.

(** [MakeEye] is called once per cache entry: after a sequence of calls of
    [Eye] in which every buffer can be constructed, the cache holds a
    tensor for every key of a supported type that was asked for, and when
    the number of calls of [MakeEye] equalled the number of entries before
    the sequence, it does so after it (a hit and an unsupported type call
    nothing, a miss calls [MakeEye] once and stores its tensor). *)
Theorem Eye_builds_once_per_key (calls : list (N * DataType * DeviceDescriptor))
    (w : World E) :
  Forall (λ call, buffer_fits call.1.2 call.1.1 w) calls →
  eyesMade w = size (cached w) →
  eyesMade (Eye_calls calls w) = size (cached (Eye_calls calls w)) ∧
  ∀ (n : N) (dataType : DataType) (device : DeviceDescriptor),
    (n, dataType, device) ∈ calls → dataType = Float ∨ dataType = Double →
    is_Some (cached (Eye_calls calls w) !! (n, dataType)).
Proof.
  revert w. induction calls as [|[[n dt] dev] calls IH]; intros w Hall Hw.
  { split; [exact Hw|]. intros n dt dev Hin. apply elem_of_nil in Hin. contradiction. }
  apply Forall_cons in Hall as [Hfit Hall]. simpl in Hfit.
  assert (Hall' : Forall (λ call, buffer_fits call.1.2 call.1.1 (Eye n dt dev w).2)
                         calls).
  { apply (Forall_impl _ _ _ Hall). intros call [Hm Ha]. split; [exact Hm|].
    rewrite Eye_can_allocate. exact Ha. }
  assert (Hw' : eyesMade (Eye n dt dev w).2 = size (cached (Eye n dt dev w).2)).
  { destruct Hfit as [Hmax Hmem].
    destruct (cached w !! (n, dt)) as [t|] eqn:Hl.
    { rewrite (Eye_hit _ _ _ _ _ Hl). exact Hw. }
    destruct (decide (dt = Float ∨ dt = Double)) as [Hdt | Hdt].
    2:{ rewrite Eye_miss_unsupported by tauto. exact Hw. }
    rewrite (Eye_miss_supported _ _ _ _ Hl Hdt).
    destruct (MakeEye_ok (ElementType_size dt) n dt dev w Hmax Hmem)
      as (b & _ & _ & ->).
    simpl. rewrite (map_size_insert_None _ _ _ Hl), Hw. reflexivity. }
  destruct (IH (Eye n dt dev w).2 Hall' Hw') as [Hcount Hkeys].
  split; [exact Hcount|].
  intros n' dt' dev' Hin Hdt. apply elem_of_cons in Hin as [Heq | Hin].
  - injection Heq as -> -> ->. simpl.
    destruct (Eye_fits_cached n dt dev w Hdt Hfit) as [t Ht].
    exists t. apply Eye_calls_keep_entries. exact Ht.
  - apply (Hkeys n' dt' dev' Hin Hdt).
Qed.

End Eye_more.

(** ** Further properties of FromCNTKMB *)
Section FromCNTKMB_more.
Context {E : Type} `{Element E}.

Lemma for_loop_ext {St : Type} (body1 body2 : nat → M St unit) (todo i : nat) (s : St) :
  (∀ k t, (i ≤ k < i + todo)%nat → body1 k t = body2 k t) →
  for_loop body1 todo i s = for_loop body2 todo i s.
Proof.
  revert i s. induction todo as [|todo IH]; intros i s Hext; [reflexivity|].
  rewrite !for_loop_S, (Hext i s) by lia.
  destruct (body2 i s) as [[[] | e |] t]; try reflexivity.
  apply IH. intros k u Hk. apply Hext. lia.
Qed.

(** What a successful preparation of argument [i] has read and returns. *)
Lemma FromCNTKMB_unpack_inv (inputs : list (Value E)) (isSequence : list bool)
    (device : DeviceDescriptor) (i : nat) (variable : CNTKVariable E)
    (sequences : list (NDArrayView E)) :
  FromCNTKMB_unpack inputs isSequence device i = Ret (variable, sequences) →
  ∃ (input : Value E) (isSeq : bool) (sample : NDShape) (len batch : N),
    inputs !! i = Some input ∧ isSequence !! i = Some isSeq ∧
    Shape (Data input) = sample ++ [len; batch] ∧
    variable = stream_variable input sample isSeq ∧
    sequences = map (sequence_view (Data input) sample len) (seq 0 (N.to_nat batch)).
Proof.
  unfold FromCNTKMB_unpack.
  destruct (inputs !! i) as [input|]; [|discriminate]. cbn [of_option obind].
  destruct (SubShape _ _ _) as [sample | e |]; try discriminate. cbn [obind].
  destruct (isSequence !! i) as [isSeq|]; [|discriminate]. cbn [of_option obind].
  destruct (UnpackVariableValue _ _ _) as [sq | e |] eqn:Hu; try discriminate.
  cbn [obind]. intros Heq. injection Heq as <- <-.
  unfold UnpackVariableValue in Hu.
  destruct (drop (length sample) (Shape (Data input)))
    as [|len [|batch [|x l]]] eqn:Hdrop; try discriminate.
  destruct (bool_decide (take (length sample) (Shape (Data input)) = sample)) eqn:Hb;
    [|discriminate].
  apply bool_decide_eq_true_1 in Hb. injection Hu as <-.
  exists input, isSeq, sample, len, batch.
  split; [reflexivity|]. split; [reflexivity|]. split; [|split; reflexivity].
  rewrite <- (take_drop (length sample) (Shape (Data input))), Hb, Hdrop. reflexivity.
Qed.

(** The shape step keeps data type, device and storage format. *)
Lemma FromCNTKMB_shape_keeps (hasAxis : bool) (data d1 : NDArrayView E) :
  FromCNTKMB_shape hasAxis data = Ret d1 →
  GetDataType d1 = GetDataType data ∧ Device d1 = Device data ∧
  IsSparse d1 = IsSparse data.
Proof.
  destruct hasAxis.
  - intros Heq. injection Heq as <-. repeat split.
  - intros Hsh. destruct (FromCNTKMB_shape_false _ _ Hsh) as (init & _ & ->).
    repeat split.
Qed.

(** A call that returns after a first stream of [c > 0] sequences has
    filled a rectangular result: [res] has [numArgs] entries, each of
    exactly [c] variables, and every one of them is a constant (no
    default-constructed variable is left). *)
Theorem FromCNTKMB_rectangular (res0 res' : list (list (CNTKVariable E)))
    (inputs : list (Value E)) (isSequence : list bool) (device : DeviceDescriptor)
    (w w' : World E) (v0 : CNTKVariable E) (sq0 : list (NDArrayView E)) :
  FromCNTKMB res0 inputs isSequence device w = (Ret tt, res', w') →
  FromCNTKMB_unpack inputs isSequence device 0 = Ret (v0, sq0) →
  length sq0 ≠ 0%nat →
  length res' = length inputs ∧
  ∀ (j : nat) (arg : list (CNTKVariable E)), res' !! j = Some arg →
    length arg = length sq0 ∧
    ∀ x : CNTKVariable E, x ∈ arg → ∃ d : NDArrayView E, x = Constant d.
Proof.
  intros Hrun Hun0 Hnz.
  destruct (FromCNTKMB_run (λ _, True) True_Eye inputs isSequence device
              res0 res' w w' (Ret tt) I Hrun) as (_ & Hlen & Hdone & _).
  split; [exact Hlen|].
  set (c := length sq0) in *.
  set (J := λ (i : nat) (σ : Locals E),
              (i = 0%nat ∧ numSeq σ = 0%nat) ∨
              ((0 < i)%nat ∧ numSeq σ = c ∧
               ∀ j v sq, (j < i)%nat →
                 FromCNTKMB_unpack inputs isSequence device j = Ret (v, sq) →
                 length sq = c)).
  assert (H0 : J 0%nat (FromCNTKMB_entry inputs w)) by (left; split; reflexivity).
  assert (Hstep : ∀ k t t', (0 ≤ k < 0 + length inputs)%nat → J k t →
            FromCNTKMB_arg inputs isSequence device k t = (Ret tt, t') → J (S k) t').
  { intros k t t' _ HJ Hb.
    destruct (arg_step (λ _, True) True_Eye inputs isSequence device
                k t t' (Ret tt) I Hb) as (_ & _ & _ & Hret).
    destruct (Hret eq_refl) as (_ & vk & sqk & Hunk & Hns' & Hns).
    right. split; [lia|].
    destruct HJ as [[-> Hz] | (Hk & Hc & Hprev)].
    - rewrite Hun0 in Hunk. injection Hunk as <- <-.
      split; [exact Hns'|]. intros j v sq Hj Hunj.
      assert (j = 0%nat) as -> by lia. rewrite Hun0 in Hunj.
      injection Hunj as <- <-. reflexivity.
    - assert (Hck : length sqk = c) by (destruct Hns as [Hz | Hz]; lia).
      split; [lia|]. intros j v sq Hj Hunj.
      destruct (decide (j = k)) as [-> | Hne].
      + rewrite Hunk in Hunj. injection Hunj as <- <-. exact Hck.
      + apply (Hprev j v sq); [lia | exact Hunj]. }
  unfold FromCNTKMB, FromCNTKMB_upto in Hrun.
  destruct (for_loop _ _ _ _) as [o1 σ1] eqn:Hloop. injection Hrun as -> <- <-.
  assert (Hpos : (0 < length inputs)%nat).
  { destruct (FromCNTKMB_unpack_inv _ _ _ _ _ _ Hun0) as (input & _ & _ & _ & _ & Hin & _).
    apply lookup_lt_Some in Hin. exact Hin. }
  destruct (for_loop_inv (FromCNTKMB_arg inputs isSequence device) J
              (length inputs) 0 _ _ _ H0 Hstep Hloop)
    as [[_ [[Hz _] | (_ & _ & Hcounts)]] | [Hne _]]; [lia | | contradiction].
  intros j arg Hj.
  destruct (Hdone eq_refl j ltac:(rewrite <- Hlen; apply (lookup_lt_Some _ _ _ Hj)))
    as (v & sq & arg' & Hun & Hr & Hla & Hex).
  rewrite Hj in Hr. injection Hr as <-.
  split; [rewrite Hla; apply (Hcounts j v sq); [|exact Hun];
          rewrite <- Hlen; apply (lookup_lt_Some _ _ _ Hj)|].
  intros x Hx. apply list_elem_of_lookup in Hx as [s Hs].
  destruct (Hex s ltac:(rewrite <- Hla; apply (lookup_lt_Some _ _ _ Hs)))
    as (_ & _ & d2 & _ & _ & _ & _ & _ & _ & Hv).
  exists d2. congruence.
Qed.

(** After a first stream of [c > 0] sequences, a call whose loop reaches a
    stream that unpacks to another number of sequences throws the mismatch
    error; [res] and the cache stay as the earlier streams left them, and
    the entry of the offending stream is still empty. *)
Theorem FromCNTKMB_mismatch_after_first (res0 : list (list (CNTKVariable E)))
    (inputs : list (Value E)) (isSequence : list bool) (device : DeviceDescriptor)
    (w : World E) (i : nat) (σ : Locals E) (v0 v : CNTKVariable E)
    (sq0 sq : list (NDArrayView E)) :
  FromCNTKMB_unpack inputs isSequence device 0 = Ret (v0, sq0) →
  length sq0 ≠ 0%nat → (0 < i)%nat →
  FromCNTKMB_upto inputs isSequence device w i = (Ret tt, σ) →
  FromCNTKMB_unpack inputs isSequence device i = Ret (v, sq) →
  length sq ≠ length sq0 →
  FromCNTKMB res0 inputs isSequence device w
    = (Throw BatchShapeMismatchError, res σ, world σ) ∧
  res σ !! i = Some [].
Proof.
  intros Hun0 Hnz Hi Hupto Hun Hne.
  assert (Hlt : (i < length inputs)%nat).
  { destruct (FromCNTKMB_unpack_inv _ _ _ _ _ _ Hun) as (input & _ & _ & _ & _ & Hin & _).
    apply lookup_lt_Some in Hin. exact Hin. }
  pose proof (FromCNTKMB_numSeq_recorded inputs isSequence device w i σ v0 sq0
                ltac:(lia) Hupto Hun0 Hnz) as Hns.
  split.
  - apply (FromCNTKMB_mismatch_detected res0 inputs isSequence device w i σ v sq
             Hupto Hun); congruence.
  - destruct (args_inv_upto (λ _, True) True_Eye inputs isSequence device w i σ I
                ltac:(lia) Hupto) as (_ & _ & _ & Hrest & _).
    apply Hrest. lia.
Qed.

(** The cache only grows during a call: whatever the outcome, every entry
    present before the call is present, unchanged, after it, and a cache
    written only by [Eye] stays so. *)
Theorem FromCNTKMB_cache_grows (res0 res' : list (list (CNTKVariable E)))
    (inputs : list (Value E)) (isSequence : list bool) (device : DeviceDescriptor)
    (w w' : World E) (o : outcome unit) :
  FromCNTKMB res0 inputs isSequence device w = (o, res', w') →
  (∀ (key : N * DataType) (t : NDArrayView E),
     cached w !! key = Some t → cached w' !! key = Some t) ∧
  (cache_ok w → cache_ok w').
Proof.
  intros Hrun. split.
  - intros key t Hk.
    apply (FromCNTKMB_run (λ u, cached u !! key = Some t)
             ltac:(intros n dt dev u u' o' Hu HE;
                   pose proof (Eye_keeps_entries n dt dev u key t Hu) as Hkeep;
                   rewrite HE in Hkeep; exact Hkeep)
             inputs isSequence device res0 res' w w' o Hk Hrun).
  - intros Hok.
    apply (FromCNTKMB_run cache_ok Eye_cache_ok inputs isSequence device
             res0 res' w w' o Hok Hrun).
Qed.

Lemma FromCNTKMB_example_dense_world (hasAxis : bool)
    (sequences : list (NDArrayView E)) (s : nat)
    (arg arg' : list (CNTKVariable E)) (w w' : World E) (o : outcome unit) :
  (∀ d : NDArrayView E, d ∈ sequences → IsSparse d = false) →
  FromCNTKMB_example hasAxis sequences s (arg, w) = (o, (arg', w')) → w' = w.
Proof.
  intros Hdense Hrun. rewrite FromCNTKMB_example_unfold in Hrun.
  destruct (sequences !! s) as [data|] eqn:Hs; [|injection Hrun as _ _ <-; reflexivity].
  destruct (FromCNTKMB_shape hasAxis data) as [d1 | e |] eqn:Hsh;
    try (injection Hrun as _ _ <-; reflexivity).
  destruct (FromCNTKMB_shape_keeps _ _ _ Hsh) as (_ & _ & Hsp).
  rewrite FromCNTKMB_dense_unfold, Hsp in Hrun.
  rewrite (Hdense data) in Hrun by (apply list_elem_of_lookup; eauto).
  destruct (s <? length arg)%nat; injection Hrun as _ _ <-; reflexivity.
Qed.

Lemma FromCNTKMB_arg_dense_world (inputs : list (Value E)) (isSequence : list bool)
    (device : DeviceDescriptor) (i : nat) (σ σ' : Locals E) (o : outcome unit) :
  (∀ input : Value E, input ∈ inputs → IsSparse (Data input) = false) →
  FromCNTKMB_arg inputs isSequence device i σ = (o, σ') → world σ' = world σ.
Proof.
  intros Hdense Hrun. rewrite FromCNTKMB_arg_unfold in Hrun.
  destruct (FromCNTKMB_unpack inputs isSequence device i)
    as [[variable sequences] | e |] eqn:Hun; try (injection Hrun as _ <-; reflexivity).
  destruct (_ || _); [|injection Hrun as _ <-; reflexivity].
  destruct (res σ !! i) as [arg|]; [|injection Hrun as _ <-; reflexivity].
  destruct (FromCNTKMB_fill _ _ _ _) as [o1 [arg' u']] eqn:Hfill.
  injection Hrun as _ <-. simpl.
  destruct (FromCNTKMB_unpack_inv _ _ _ _ _ _ Hun)
    as (input & isSeq & sample & len & batch & Hin & _ & _ & _ & Hsq).
  assert (Hsd : ∀ d : NDArrayView E, d ∈ sequences → IsSparse d = false).
  { intros d Hd. rewrite Hsq in Hd. apply list_elem_of_In, in_map_iff in Hd.
    destruct Hd as (k & <- & _). simpl. apply Hdense.
    apply list_elem_of_lookup. eauto. }
  rewrite FromCNTKMB_fill_unfold in Hfill.
  set (J := λ (_ : nat) (st : list (CNTKVariable E) * World E), st.2 = world σ).
  assert (Hstep : ∀ k t t', (0 ≤ k < 0 + length sequences)%nat → J k t →
            FromCNTKMB_example (1 <? length (DynamicAxes variable))%nat sequences k t
              = (Ret tt, t') → J (S k) t').
  { intros k [a u] [a0 u0] _ Hu Hb. unfold J in *. simpl in *. subst u.
    apply (FromCNTKMB_example_dense_world _ _ _ _ _ _ _ _ Hsd Hb). }
  destruct (for_loop_inv _ J (length sequences) 0
              (resize (length sequences) DefaultVariable arg, world σ) o1 (arg', u')
              eq_refl Hstep Hfill)
    as [[_ Hw] | (_ & k & [a u] & _ & Hu & Hb)]; [exact Hw|].
  unfold J in Hu. simpl in Hu. subst u.
  apply (FromCNTKMB_example_dense_world _ _ _ _ _ _ _ _ Hsd Hb).
Qed.

(** A batch without a sparse stream never uses the identity cache: whatever
    its outcome, the call leaves the cache (and the count of [MakeEye]
    calls) exactly as it found it. *)
Theorem FromCNTKMB_dense_batch_keeps_cache (res0 res' : list (list (CNTKVariable E)))
    (inputs : list (Value E)) (isSequence : list bool) (device : DeviceDescriptor)
    (w w' : World E) (o : outcome unit) :
  (∀ input : Value E, input ∈ inputs → IsSparse (Data input) = false) →
  FromCNTKMB res0 inputs isSequence device w = (o, res', w') → w' = w.
Proof.
  intros Hdense Hrun. unfold FromCNTKMB, FromCNTKMB_upto in Hrun.
  destruct (for_loop _ _ _ _) as [o1 σ1] eqn:Hloop. injection Hrun as _ _ <-.
  set (J := λ (_ : nat) (σ : Locals E), world σ = w).
  assert (Hstep : ∀ k t t', (0 ≤ k < 0 + length inputs)%nat → J k t →
            FromCNTKMB_arg inputs isSequence device k t = (Ret tt, t') → J (S k) t').
  { intros k t t' _ Ht Hb. unfold J in *.
    rewrite (FromCNTKMB_arg_dense_world _ _ _ _ _ _ _ Hdense Hb). exact Ht. }
  destruct (for_loop_inv (FromCNTKMB_arg inputs isSequence device) J
              (length inputs) 0 (FromCNTKMB_entry inputs w) o1 σ1
              eq_refl Hstep Hloop)
    as [[_ Hw] | (_ & k & t & _ & Ht & Hb)]; [exact Hw|].
  unfold J in Ht.
  rewrite (FromCNTKMB_arg_dense_world _ _ _ _ _ _ _ Hdense Hb). exact Ht.
Qed.

(** Only the first [numArgs] entries of [isSequence] are read: two flag
    vectors that agree on those positions give the same result. *)
Theorem FromCNTKMB_reads_first_flags (res0 : list (list (CNTKVariable E)))
    (inputs : list (Value E)) (flags1 flags2 : list bool)
    (device : DeviceDescriptor) (w : World E) :
  (∀ i : nat, (i < length inputs)%nat → flags1 !! i = flags2 !! i) →
  FromCNTKMB res0 inputs flags1 device w = FromCNTKMB res0 inputs flags2 device w.
Proof.
  intros Hagree. unfold FromCNTKMB, FromCNTKMB_upto.
  rewrite (for_loop_ext (FromCNTKMB_arg inputs flags1 device)
             (FromCNTKMB_arg inputs flags2 device)); [reflexivity|].
  intros k t Hk. unfold FromCNTKMB_arg, FromCNTKMB_unpack.
  rewrite (Hagree k) by lia. reflexivity.
Qed.

(** [isSequence[i]] is read without a bounds check: a call whose loop
    reaches a stream (of rank at least 2) for which [isSequence] has no
    entry has undefined behaviour. *)
Theorem FromCNTKMB_missing_flag_undefined (res0 : list (list (CNTKVariable E)))
    (inputs : list (Value E)) (isSequence : list bool) (device : DeviceDescriptor)
    (w : World E) (i : nat) (σ : Locals E) (input : Value E)
    (sample : NDShape) (len batch : N) :
  FromCNTKMB_upto inputs isSequence device w i = (Ret tt, σ) →
  inputs !! i = Some input → Shape (Data input) = sample ++ [len; batch] →
  (length isSequence ≤ i)%nat →
  (FromCNTKMB res0 inputs isSequence device w).1.1 = Undef.
Proof.
  intros Hupto Hin Hshape Hshort.
  rewrite (FromCNTKMB_after_upto res0 inputs isSequence device w i σ σ Undef
             (lookup_lt_Some _ _ _ Hin) Hupto); [reflexivity| |discriminate].
  rewrite FromCNTKMB_arg_unfold. unfold FromCNTKMB_unpack.
  rewrite Hin. cbn [of_option obind]. rewrite Hshape, SubShape_sample.
  cbn [obind]. rewrite (lookup_ge_None_2 isSequence i Hshort). reflexivity.
Qed.

(** A dense stream declared sequential is handed over as it was unpacked:
    after a normal return [res[i]] holds exactly the unpacked views, in
    their order, each wrapped in a constant (nothing is sliced off and
    nothing is multiplied). *)
Theorem FromCNTKMB_sequential_stream (res0 res' : list (list (CNTKVariable E)))
    (inputs : list (Value E)) (isSequence : list bool) (device : DeviceDescriptor)
    (w w' : World E) (i : nat) (variable : CNTKVariable E)
    (sequences : list (NDArrayView E)) :
  FromCNTKMB res0 inputs isSequence device w = (Ret tt, res', w') →
  isSequence !! i = Some true →
  FromCNTKMB_unpack inputs isSequence device i = Ret (variable, sequences) →
  (∀ data : NDArrayView E, data ∈ sequences → IsSparse data = false) →
  res' !! i = Some (map Constant sequences).
Proof.
  intros Hrun Hflag Hun Hdense.
  assert (Hi : (i < length inputs)%nat).
  { unfold FromCNTKMB_unpack in Hun.
    destruct (inputs !! i) eqn:Hin; [|discriminate].
    apply lookup_lt_Some in Hin. exact Hin. }
  destruct (FromCNTKMB_run (λ _, True) True_Eye inputs isSequence device
              res0 res' w w' (Ret tt) I Hrun) as (_ & _ & Hdone & _).
  destruct (Hdone eq_refl i Hi) as (v & sq & arg & Hun' & Hr & Hlen & Hex).
  rewrite Hun in Hun'. injection Hun' as <- <-.
  rewrite (FromCNTKMB_unpack_hasAxis _ _ _ _ _ _ _ Hflag Hun) in Hex.
  rewrite Hr. f_equal. apply list_eq. intros s.
  change (map Constant sequences) with (Constant <$> sequences).
  rewrite list_lookup_fmap.
  destruct (sequences !! s) as [data|] eqn:Hs.
  - destruct (Hex s (lookup_lt_Some _ _ _ Hs))
      as (data' & d1 & d2 & wa & wb & Hs' & Hsh & _ & Hd & Hv).
    rewrite Hs in Hs'. injection Hs' as <-. injection Hsh as <-.
    rewrite FromCNTKMB_dense_unfold in Hd.
    rewrite (Hdense data) in Hd by (apply list_elem_of_lookup; eauto).
    injection Hd as <- _. exact Hv.
  - apply lookup_ge_None_2. rewrite Hlen. apply lookup_ge_None_1. exact Hs.
Qed.

Lemma FromCNTKMB_dense_is_dense (d1 d2 : NDArrayView E) (wa wb : World E) :
  FromCNTKMB_dense d1 wa = (Ret d2, wb) → IsSparse d2 = false.
Proof.
  rewrite FromCNTKMB_dense_unfold.
  destruct (IsSparse d1) eqn:Hsp; [|intros Heq; injection Heq as <- _; exact Hsp].
  destruct (Shape d1 !! 0%nat) as [n|]; [|discriminate].
  destruct (Eye _ _ _ _) as [[eye | e |] w1]; try discriminate.
  unfold MatrixProduct.
  destruct (mat_op false _ _ (buffer eye)) as [[m k] a].
  destruct (mat_op false _ _ (buffer d1)) as [[k' p] b].
  destruct (_ && _); [|discriminate].
  intros Heq. injection Heq as <- _. reflexivity.
Qed.

(** [FromCNTKMB] never hands out a sparse tensor or a default-constructed
    variable: after a normal return every variable in [res] is a constant
    in dense storage. *)
Theorem FromCNTKMB_result_dense (res0 res' : list (list (CNTKVariable E)))
    (inputs : list (Value E)) (isSequence : list bool) (device : DeviceDescriptor)
    (w w' : World E) (j : nat) (arg : list (CNTKVariable E))
    (x : CNTKVariable E) :
  FromCNTKMB res0 inputs isSequence device w = (Ret tt, res', w') →
  res' !! j = Some arg → x ∈ arg →
  ∃ d : NDArrayView E, x = Constant d ∧ IsSparse d = false.
Proof.
  intros Hrun Hj Hx.
  destruct (FromCNTKMB_run (λ _, True) True_Eye inputs isSequence device
              res0 res' w w' (Ret tt) I Hrun) as (_ & Hlen & Hdone & _).
  assert (Hlt : (j < length inputs)%nat)
    by (rewrite <- Hlen; apply (lookup_lt_Some _ _ _ Hj)).
  destruct (Hdone eq_refl j Hlt) as (v & sq & arg' & Hun & Hr & Hla & Hex).
  rewrite Hj in Hr. injection Hr as <-.
  apply list_elem_of_lookup in Hx as [s Hs].
  destruct (Hex s ltac:(rewrite <- Hla; apply (lookup_lt_Some _ _ _ Hs)))
    as (d & d1 & d2 & wa & wb & _ & _ & _ & Hd & Hv).
  exists d2. split; [congruence|].
  apply (FromCNTKMB_dense_is_dense _ _ _ _ Hd).
Qed.

Lemma FromCNTKMB_example_arg (hasAxis : bool) (sequences : list (NDArrayView E))
    (s : nat) (arg arg' : list (CNTKVariable E)) (w w' : World E) (o : outcome unit) :
  FromCNTKMB_example hasAxis sequences s (arg, w) = (o, (arg', w')) →
  (o ≠ Ret tt → arg' = arg) ∧
  (o = Ret tt → ∃ d : NDArrayView E, arg' = <[s := Constant d]> arg).
Proof.
  intros Hrun. rewrite FromCNTKMB_example_unfold in Hrun.
  destruct (sequences !! s) as [data|];
    [|injection Hrun as <- <- _; split; [reflexivity | discriminate]].
  destruct (FromCNTKMB_shape hasAxis data) as [d1 | e |];
    try (injection Hrun as <- <- _; split; [reflexivity | discriminate]).
  destruct (FromCNTKMB_dense d1 w) as [[d2 | e |] u];
    try (injection Hrun as <- <- _; split; [reflexivity | discriminate]).
  destruct (s <? length arg)%nat;
    [|injection Hrun as <- <- _; split; [reflexivity | discriminate]].
  injection Hrun as <- <- _. split; [intros Hne; contradiction | eauto].
Qed.

(** The entry of an argument whose loop over the sequences fails: the
    constants of the [m] examples handled, then default variables. *)
Lemma FromCNTKMB_fill_partial (hasAxis : bool) (sequences : list (NDArrayView E))
    (n : nat) (arg' : list (CNTKVariable E)) (w w' : World E) (o : outcome unit) :
  FromCNTKMB_fill hasAxis sequences n ([], w) = (o, (arg', w')) → o ≠ Ret tt →
  ∃ m : nat, (m < n)%nat ∧ length arg' = n ∧
    (∀ s : nat, (s < m)%nat → ∃ d : NDArrayView E, arg' !! s = Some (Constant d)) ∧
    (∀ s : nat, (m ≤ s < n)%nat → arg' !! s = Some DefaultVariable).
Proof.
  intros Hrun Hne. rewrite FromCNTKMB_fill_unfold in Hrun.
  set (J := λ (k : nat) (st : list (CNTKVariable E) * World E),
              length st.1 = n ∧
              (∀ s : nat, (s < k)%nat → ∃ d : NDArrayView E, st.1 !! s = Some (Constant d)) ∧
              (∀ s : nat, (k ≤ s < n)%nat → st.1 !! s = Some DefaultVariable)).
  assert (H0 : J 0%nat (resize n DefaultVariable ([] : list (CNTKVariable E)), w)).
  { unfold J. simpl. rewrite resize_nil. split; [apply length_replicate|].
    split; [intros s Hs; lia|]. intros s Hs. apply lookup_replicate_2. lia. }
  assert (Hstep : ∀ k t t', (0 ≤ k < 0 + n)%nat → J k t →
            FromCNTKMB_example hasAxis sequences k t = (Ret tt, t') → J (S k) t').
  { intros k [a u] [a0 u0] Hk (Hlen & Hc & Hd) Hb. unfold J. simpl in *.
    destruct (FromCNTKMB_example_arg _ _ _ _ _ _ _ _ Hb) as [_ Hret].
    destruct (Hret eq_refl) as [d ->].
    split; [rewrite length_insert; exact Hlen|]. split.
    - intros s Hs. destruct (decide (s = k)) as [-> | Hsk].
      + exists d. apply list_lookup_insert_eq. lia.
      + rewrite list_lookup_insert_ne by congruence. apply Hc. lia.
    - intros s Hs. rewrite list_lookup_insert_ne by lia. apply Hd. lia. }
  destruct (for_loop_inv _ J n 0 _ o (arg', w') H0 Hstep Hrun)
    as [[-> _] | (_ & k & [a u] & Hk & (Hlen & Hc & Hd) & Hb)]; [contradiction|].
  simpl in *.
  destruct (FromCNTKMB_example_arg _ _ _ _ _ _ _ _ Hb) as [Hsame _].
  rewrite (Hsame Hne). exists k. split; [lia|]. split; [exact Hlen|].
  split; assumption.
Qed.

(** What a throwing call leaves in the entry of its failing argument [k]
    (the first argument of the loop that does not return): nothing when
    the stream could not be unpacked or its sequence count did not match;
    otherwise, [numSeq] being the count just recorded or checked, the entry
    holds [numSeq] variables, the constants of the examples handled before
    the failure followed by default-constructed variables. *)
Theorem FromCNTKMB_failure_entry (res0 res' : list (list (CNTKVariable E)))
    (inputs : list (Value E)) (isSequence : list bool) (device : DeviceDescriptor)
    (w w' : World E) (e : exn) :
  FromCNTKMB res0 inputs isSequence device w = (Throw e, res', w') →
  ∃ (k : nat) (σ σ' : Locals E) (argk : list (CNTKVariable E)),
    (k < length inputs)%nat ∧
    FromCNTKMB_upto inputs isSequence device w k = (Ret tt, σ) ∧
    FromCNTKMB_arg inputs isSequence device k σ = (Throw e, σ') ∧
    res' !! k = Some argk ∧
    ((argk = [] ∧
      (FromCNTKMB_unpack inputs isSequence device k = Throw e ∨
       e = BatchShapeMismatchError)) ∨
     (∃ (variable : CNTKVariable E) (sequences : list (NDArrayView E)) (m : nat),
        FromCNTKMB_unpack inputs isSequence device k = Ret (variable, sequences) ∧
        numSeq σ' = length sequences ∧ length argk = numSeq σ' ∧
        (m < numSeq σ')%nat ∧
        (∀ s : nat, (s < m)%nat →
           ∃ d : NDArrayView E, argk !! s = Some (Constant d)) ∧
        (∀ s : nat, (m ≤ s < numSeq σ')%nat → argk !! s = Some DefaultVariable))).
Proof.
  intros Hrun.
  destruct (FromCNTKMB_fails_at _ _ _ _ _ _ _ _ Hrun ltac:(discriminate))
    as (k & σ & σ' & Hk & Hupto & Hbody & -> & _).
  destruct (args_inv_upto (λ _, True) True_Eye inputs isSequence device w k σ I
              ltac:(lia) Hupto) as (_ & _ & _ & Hrest & _).
  pose proof (Hrest k ltac:(lia)) as Hrk.
  pose proof Hbody as Hb. rewrite FromCNTKMB_arg_unfold in Hb.
  destruct (FromCNTKMB_unpack inputs isSequence device k)
    as [[variable sequences] | e0 |] eqn:Hun; [| |discriminate].
  - destruct (_ || _).
    + rewrite Hrk in Hb.
      destruct (FromCNTKMB_fill _ _ _ _) as [o1 [arg' u']] eqn:Hfill.
      injection Hb as -> <-.
      destruct (FromCNTKMB_fill_partial _ _ _ _ _ _ _ Hfill ltac:(discriminate))
        as (m & Hm & Hla & Hc & Hd).
      exists k, σ, {| res := <[k := arg']> (res σ); numSeq := length sequences;
                      world := u' |}, arg'.
      split; [exact Hk|]. split; [exact Hupto|].
      split; [exact Hbody|]. cbn [res numSeq].
      split; [apply list_lookup_insert_eq; apply (lookup_lt_Some _ _ _ Hrk)|].
      right. exists variable, sequences, m. repeat (split; [done|]). exact Hd.
    + injection Hb as <- <-.
      exists k, σ, σ, []. split; [exact Hk|]. split; [exact Hupto|].
      split; [exact Hbody|]. split; [exact Hrk|]. left. split; [reflexivity|].
      right. reflexivity.
  - injection Hb as <- <-.
    exists k, σ, σ, []. split; [exact Hk|]. split; [exact Hupto|].
    split; [exact Hbody|]. split; [exact Hrk|]. left. split; [reflexivity|].
    left. exact Hun.
Qed.

End FromCNTKMB_more.

(** ** Concrete batches *)
Section Examples.

(** C2, as stated, fails for each of the three errors: after a first
    stream of one sequence, a second stream that unpacks to 2 sequences, or
    is declared non-sequential with trailing dimension 2, or is sparse with
    an unsupported element type, makes the call throw, and the caller's
    [res] then holds the constant of the first stream. *)
Lemma FromCNTKMB_failure_leaves_partial_res :
  FromCNTKMB [] [batch_of_1; batch_of_2] [true; true] CPUDevice initial_world
    = (Throw BatchShapeMismatchError,
       [[Constant (dense_view [2; 1]%N [1; 2]%Z)]; []], initial_world)
  ∧ FromCNTKMB [] [batch_of_1; long_single] [true; false] CPUDevice initial_world
    = (Throw MalformedStreamError,
       [[Constant (dense_view [2; 1]%N [1; 2]%Z)]; [DefaultVariable]], initial_world)
  ∧ FromCNTKMB [] [batch_of_1; uchar_batch] [true; true] CPUDevice initial_world
    = (Throw UnsupportedTypeError,
       [[Constant (dense_view [2; 1]%N [1; 2]%Z)]; [DefaultVariable]], initial_world)
  ∧ ¬ leaves_no_partial_result [batch_of_1; batch_of_2] [true; true] CPUDevice
        initial_world
  ∧ ¬ leaves_no_partial_result [batch_of_1; long_single] [true; false] CPUDevice
        initial_world
  ∧ ¬ leaves_no_partial_result [batch_of_1; uchar_batch] [true; true] CPUDevice
        initial_world.
Proof.
  assert (H1 : FromCNTKMB [] [batch_of_1; batch_of_2] [true; true] CPUDevice
                 initial_world
               = (Throw BatchShapeMismatchError,
                  [[Constant (dense_view [2; 1]%N [1; 2]%Z)]; []], initial_world))
    by (vm_compute; reflexivity).
  assert (H2 : FromCNTKMB [] [batch_of_1; long_single] [true; false] CPUDevice
                 initial_world
               = (Throw MalformedStreamError,
                  [[Constant (dense_view [2; 1]%N [1; 2]%Z)]; [DefaultVariable]],
                  initial_world))
    by (vm_compute; reflexivity).
  assert (H3 : FromCNTKMB [] [batch_of_1; uchar_batch] [true; true] CPUDevice
                 initial_world
               = (Throw UnsupportedTypeError,
                  [[Constant (dense_view [2; 1]%N [1; 2]%Z)]; [DefaultVariable]],
                  initial_world))
    by (vm_compute; reflexivity).
  split; [exact H1|]. split; [exact H2|]. split; [exact H3|].
  split; [|split]; intros Hclaim.
  - specialize (Hclaim [] _ _ _ H1 [Constant (dense_view [2; 1]%N [1; 2]%Z)]).
    discriminate Hclaim. apply list_elem_of_here.
  - specialize (Hclaim [] _ _ _ H2 [Constant (dense_view [2; 1]%N [1; 2]%Z)]).
    discriminate Hclaim. apply list_elem_of_here.
  - specialize (Hclaim [] _ _ _ H3 [Constant (dense_view [2; 1]%N [1; 2]%Z)]).
    discriminate Hclaim. apply list_elem_of_here.
Qed.

Lemma FromCNTKMB_failure_keeps_partial_res_witness :
  ∃ (k : nat) (σ σ' : Locals Z),
    (k < 2)%nat ∧
    FromCNTKMB_upto [batch_of_1; batch_of_2] [true; true] CPUDevice initial_world k
      = (Ret tt, σ) ∧
    FromCNTKMB_arg [batch_of_1; batch_of_2] [true; true] CPUDevice k σ
      = (Throw BatchShapeMismatchError, σ') ∧
    [[Constant (dense_view [2; 1]%N [1; 2]%Z)]; []] = res σ' ∧
    (∀ j : nat, (j < k)%nat →
       ∃ variable sequences arg,
         FromCNTKMB_unpack [batch_of_1; batch_of_2] [true; true] CPUDevice j
           = Ret (variable, sequences) ∧
         [[Constant (dense_view [2; 1]%N [1; 2]%Z)]; []] !! j = Some arg ∧
         length arg = length sequences ∧
         ∀ s : nat, (s < length sequences)%nat →
           ∃ d : NDArrayView Z, arg !! s = Some (Constant d)) ∧
    (∀ j : nat, (k < j < 2)%nat →
       [[Constant (dense_view [2; 1]%N [1; 2]%Z)]; []] !! j = Some []).
Proof.
  apply (proj2 (FromCNTKMB_failure_keeps_partial_res []
                  [[Constant (dense_view [2; 1]%N [1; 2]%Z)]; []]
                  [batch_of_1; batch_of_2] [true; true] CPUDevice
                  initial_world initial_world BatchShapeMismatchError
                  ltac:(vm_compute; reflexivity))).
Defined.

(** C6, as stated, fails for [float]: the product of the identity of order
    2 with the sparse example (+inf, 1) is (+inf, NaN), because the zero of
    the second row is multiplied with the infinity. *)
Lemma FromCNTKMB_identity_product_not_exact :
  ∃ (eye product : NDArrayView binary32),
    identity_tensor 2 Float eye ∧
    MatrixProduct false eye false inf_example false e_one 1 = Ret product ∧
    (FromCNTKMB [] [inf_batch] [false] CPUDevice initial_world).1
      = (Ret tt, [[Constant product]]) ∧
    buffer inf_example = [float_inf; float_1] ∧
    buffer product = [float_inf; S754_nan] ∧
    buffer product ≠ buffer inf_example.
Proof.
  exists (mkNDArrayView Float [2; 2]%N CPUDevice false false
            [float_1; S754_zero false; S754_zero false; float_1]),
         (mkNDArrayView Float [2]%N CPUDevice false false [float_inf; S754_nan]).
  split.
  { split; [reflexivity|]. split; [reflexivity|]. split; [reflexivity|].
    split; [reflexivity|]. intros [|[|i]] [|[|j]] Hi Hj; try reflexivity; simpl in *; lia. }
  split; [vm_compute; reflexivity|]. split; [vm_compute; reflexivity|].
  split; [reflexivity|]. split; [reflexivity|]. discriminate.
Qed.

(** *** Instances of the theorems *)

Lemma FromCNTKMB_sequence_counts_witness :
  let σ := (FromCNTKMB_upto [batch_of_1; batch_of_2] [true; true] CPUDevice
              initial_world 1).2 in
  numSeq σ = 1%nat ∧
  FromCNTKMB [] [batch_of_1; batch_of_2] [true; true] CPUDevice initial_world
    = (Throw BatchShapeMismatchError, res σ, world σ).
Proof.
  destruct (FromCNTKMB_sequence_counts [batch_of_1; batch_of_2] [true; true]
              CPUDevice initial_world
              (InputVariable [2%N] false Float [DefaultDynamicAxis; DefaultBatchAxis])
              [dense_view [2; 1]%N [1; 2]%Z]
              ltac:(vm_compute; reflexivity) ltac:(discriminate))
    as (Hrec & Hthrow & _).
  split.
  - apply (Hrec 1%nat); [simpl; lia | vm_compute; reflexivity].
  - apply (Hthrow [] 1%nat _
             (InputVariable [2%N] false Float [DefaultDynamicAxis; DefaultBatchAxis])
             [dense_view [2; 1]%N [3; 4]%Z; dense_view [2; 1]%N [5; 6]%Z]);
      [lia | vm_compute; reflexivity | vm_compute; reflexivity | discriminate].
Defined.

Lemma Index_drops_last_axis_witness :
  Shape tensor_2x3 = [2%N] ++ [3%N] ∧ (1 < 3)%N ∧ well_formed tensor_2x3 ∧
  ∃ T' : NDArrayView Z,
    Index tensor_2x3 1 = Ret T' ∧ Shape T' = [2%N] ∧ buffer T' = [3; 4]%Z.
Proof.
  split; [reflexivity|]. split; [reflexivity|]. split; [reflexivity|].
  destruct (Index_drops_last_axis tensor_2x3 [2%N] 3 1 eq_refl eq_refl eq_refl)
    as (T' & HI & HS & _ & HB & _).
  exists T'. split; [exact HI|]. split; [exact HS|]. exact HB.
Defined.

Lemma buffer_fits_initial (dataType : DataType) :
  buffer_fits dataType 2 (@initial_world Z).
Proof. split; [destruct dataType; apply N.leb_le; reflexivity | reflexivity]. Defined.

Lemma Eye_miss_builds_identity_witness :
  cached (@initial_world Z) !! (2%N, Float) = None ∧
  (Float = Float ∨ Float = Double) ∧ buffer_fits Float 2 (@initial_world Z) ∧
  ∃ b : list Z,
    length b = 4%nat ∧
    cached (Eye 2 Float (GPUDevice 0) initial_world).2 !! (2%N, Float)
      = Some (DeepClone (mkNDArrayView Float [2; 2]%N CPUDevice false false b)
                        (GPUDevice 0)).
Proof.
  split; [reflexivity|]. split; [left; reflexivity|].
  split; [apply buffer_fits_initial|].
  destruct (Eye_miss_builds_identity 2 Float (GPUDevice 0) (@initial_world Z)
              eq_refl (or_introl eq_refl) (buffer_fits_initial Float))
    as (b & _ & _ & Hlen & _ & _ & _ & _ & _ & _ & _ & _ & _ & Hc).
  exists b. split; [exact Hlen | exact Hc].
Defined.

Lemma Eye_hit_returns_cached_witness :
  Eye 2 Float CPUDevice initial_world
    = (Ret eye_2, (Eye 2 Float CPUDevice (@initial_world Z)).2) ∧
  let w1 := (Eye 2 Float CPUDevice (@initial_world Z)).2 in
  let w2 := Eye_calls [(3%N, Double, CPUDevice)] w1 in
  cached w2 !! (2%N, Float) = Some eye_2 ∧
  Eye 2 Float (GPUDevice 1) w2 = (Ret eye_2, w2) ∧
  eyesMade w1 = 1%nat.
Proof.
  split; [vm_compute; reflexivity|].
  assert (Hfirst : Eye 2 Float CPUDevice (@initial_world Z)
                   = (Ret eye_2, (Eye 2 Float CPUDevice (@initial_world Z)).2))
    by (vm_compute; reflexivity).
  destruct (Eye_hit_returns_cached 2 Float CPUDevice (GPUDevice 1) initial_world
              (Eye 2 Float CPUDevice (@initial_world Z)).2 eye_2
              [(3%N, Double, CPUDevice)] Hfirst)
    as (_ & Hstored & Hhit & _ & _ & Hmiss & _).
  split; [exact Hstored|]. split; [exact Hhit|].
  apply (Hmiss eq_refl).
Defined.

Lemma Eye_supported_types_witness :
  cache_ok (@initial_world Z) ∧
  Eye 2 UChar CPUDevice (@initial_world Z) = (Throw UnsupportedTypeError, initial_world) ∧
  ∃ t w', Eye 2 Double CPUDevice (@initial_world Z) = (Ret t, w').
Proof.
  split; [exact cache_ok_initial|]. split.
  - apply (Eye_supported_types 2 UChar CPUDevice (@initial_world Z)
             cache_ok_initial); discriminate.
  - apply (Eye_supported_types 2 Double CPUDevice (@initial_world Z)
             cache_ok_initial); [right; reflexivity|].
    right. apply buffer_fits_initial.
Defined.

Lemma FromCNTKMB_densifies_by_identity_product_witness :
  ∃ (eye product : NDArrayView binary32) (arg : list (CNTKVariable binary32)),
    identity_tensor 2 Float eye ∧
    MatrixProduct false eye false float_example false e_one 1 = Ret product ∧
    (FromCNTKMB [] [float_batch] [false] CPUDevice initial_world).1.2 !! 0%nat
      = Some arg ∧
    arg !! 0%nat = Some (Constant product) ∧
    IsSparse product = false ∧
    Forall (plain 24 128) (buffer float_example) ∧
    buffer product = [float_2; float_3].
Proof.
  destruct (FromCNTKMB_densifies_by_identity_product []
              (FromCNTKMB [] [float_batch] [false] CPUDevice initial_world).1.2
              [float_batch] [false] CPUDevice initial_world
              (FromCNTKMB [] [float_batch] [false] CPUDevice initial_world).2
              0 0
              (InputVariable [2%N] true Float [DefaultBatchAxis])
              [mkNDArrayView Float [2; 1]%N CPUDevice true false [float_2; float_3]]
              (mkNDArrayView Float [2; 1]%N CPUDevice true false [float_2; float_3])
              float_example 2 [] cache_ok_initial)
    as (eye & product & arg & wa & wb & _ & Hid & Hp & Hr & Hv & _ & _ & Hsp & _ & Hb);
    try (vm_compute; reflexivity).
  assert (Hplain : Forall (plain 24 128) (buffer float_example)).
  { repeat (apply List.Forall_cons; [reflexivity|]). apply List.Forall_nil. }
  exists eye, product, arg.
  split; [exact Hid|]. split; [exact Hp|]. split; [exact Hr|].
  split; [exact Hv|]. split; [exact Hsp|]. split; [exact Hplain|].
  apply (Hb (plain 24 128) binary32_ExactOn Hplain).
Defined.

Lemma FromCNTKMB_nonsequential_stream_witness :
  [long_batch] !! 0%nat = Some long_batch ∧ [false] !! 0%nat = Some false ∧
  Shape (Data long_batch) = [2%N] ++ [2%N; 2%N] ∧
  ∃ res' w',
    FromCNTKMB [] [long_batch] [false] CPUDevice initial_world
      = (Throw MalformedStreamError, res', w').
Proof.
  split; [reflexivity|]. split; [reflexivity|]. split; [reflexivity|].
  destruct (FromCNTKMB_nonsequential_stream [] [long_batch] [false] CPUDevice
              initial_world 0 long_batch [2%N] 2 2 eq_refl eq_refl eq_refl)
    as [Hbad _].
  destruct (Hbad ltac:(discriminate)) as (_ & Hcall & _).
  apply (Hcall (FromCNTKMB_entry [long_batch] initial_world) eq_refl
           (or_introl eq_refl)).
  discriminate.
Defined.


(** *** Instances of the further properties *)

Lemma Index_slices_partition_witness :
  Shape tensor_2x3 = [2%N] ++ [3%N] ∧ well_formed tensor_2x3 ∧
  concat (map (λ k, match Index tensor_2x3 (N.of_nat k) with
                    | Ret t => buffer t
                    | _ => []
                    end) [0; 1; 2]%nat) = [1; 2; 3; 4; 5; 6]%Z.
Proof.
  split; [reflexivity|]. split; [reflexivity|].
  exact (proj2 (Index_slices_partition tensor_2x3 [2%N] 3 eq_refl eq_refl)).
Defined.

Lemma Index_twice_witness :
  well_formed (Data long_batch) ∧
  ∃ t1 t2 : NDArrayView Z,
    Index (Data long_batch) 1 = Ret t1 ∧ Index t1 0 = Ret t2 ∧
    Shape t2 = [2%N] ∧ buffer t2 = [5; 6]%Z.
Proof.
  split; [reflexivity|].
  exact (Index_twice (Data long_batch) [2%N] 2 2 0 1 eq_refl eq_refl eq_refl eq_refl).
Defined.


Lemma Eye_changes_only_its_key_witness :
  let w := (Eye 3 Double CPUDevice (@initial_world Z)).2 in
  cached (Eye 2 Float CPUDevice w).2 = <[(2%N, Float) := eye_2]> (cached w) ∧
  cached (Eye 2 UChar CPUDevice w).2 = cached w.
Proof.
  split.
  - apply (Eye_changes_only_its_key 2 Float CPUDevice
             (Eye 3 Double CPUDevice (@initial_world Z)).2
             (Eye 2 Float CPUDevice (Eye 3 Double CPUDevice (@initial_world Z)).2).2
             (Ret eye_2));
      [vm_compute; reflexivity | reflexivity].
  - apply (Eye_changes_only_its_key 2 UChar CPUDevice
             (Eye 3 Double CPUDevice (@initial_world Z)).2
             (Eye 2 UChar CPUDevice (Eye 3 Double CPUDevice (@initial_world Z)).2).2
             (Throw UnsupportedTypeError)) with (e := UnsupportedTypeError);
      [vm_compute; reflexivity | reflexivity].
Defined.

Lemma Eye_device_of_first_request_witness :
  ∃ t : NDArrayView Z,
    (Eye 2 Float CPUDevice
       (Eye_calls [(3%N, Double, CPUDevice)]
          (Eye 2 Float (GPUDevice 0) initial_world).2)).1 = Ret t ∧
    Device t = GPUDevice 0.
Proof.
  apply (Eye_device_of_first_request 2 Float (GPUDevice 0) CPUDevice
           (@initial_world Z) (Eye 2 Float (GPUDevice 0) initial_world).2
           (DeepClone eye_2 (GPUDevice 0)) [(3%N, Double, CPUDevice)]).
  - reflexivity.
  - vm_compute. reflexivity.
Defined.

Lemma Eye_builds_once_per_key_witness :
  let w := Eye_calls [(2%N, Float, CPUDevice); (2%N, Float, GPUDevice 0);
                      (3%N, Double, CPUDevice); (2%N, UChar, CPUDevice)]
                     (@initial_world Z) in
  eyesMade w = size (cached w) ∧ is_Some (cached w !! (3%N, Double)).
Proof.
  destruct (Eye_builds_once_per_key
              [(2%N, Float, CPUDevice); (2%N, Float, GPUDevice 0);
               (3%N, Double, CPUDevice); (2%N, UChar, CPUDevice)]
              (@initial_world Z)) as [Hcount Hkeys].
  - repeat (apply List.Forall_cons;
            [split; [apply N.leb_le; reflexivity | reflexivity]|]).
    apply List.Forall_nil.
  - vm_compute. reflexivity.
  - split; [exact Hcount|].
    apply (Hkeys 3%N Double CPUDevice); [|right; reflexivity].
    apply elem_of_cons. right. apply elem_of_cons. right.
    apply elem_of_cons. left. reflexivity.
Defined.

Lemma FromCNTKMB_rectangular_witness :
  let run := FromCNTKMB [] [batch_of_2; sparse_batch] [true; false] CPUDevice
               initial_world in
  run.1.1 = Ret tt ∧ length run.1.2 = 2%nat ∧
  ∀ (j : nat) (arg : list (CNTKVariable Z)), run.1.2 !! j = Some arg →
    length arg = 2%nat ∧
    ∀ x : CNTKVariable Z, x ∈ arg → ∃ d : NDArrayView Z, x = Constant d.
Proof.
  split; [vm_compute; reflexivity|].
  apply (FromCNTKMB_rectangular []
           (FromCNTKMB [] [batch_of_2; sparse_batch] [true; false] CPUDevice
              initial_world).1.2
           [batch_of_2; sparse_batch] [true; false] CPUDevice initial_world
           (FromCNTKMB [] [batch_of_2; sparse_batch] [true; false] CPUDevice
              initial_world).2
           (InputVariable [2%N] false Float [DefaultDynamicAxis; DefaultBatchAxis])
           [dense_view [2; 1]%N [3; 4]%Z; dense_view [2; 1]%N [5; 6]%Z]).
  - vm_compute. reflexivity.
  - vm_compute. reflexivity.
  - discriminate.
Defined.

Lemma FromCNTKMB_mismatch_after_first_witness :
  let σ := (FromCNTKMB_upto [batch_of_1; batch_of_2] [true; true] CPUDevice
              initial_world 1).2 in
  FromCNTKMB [] [batch_of_1; batch_of_2] [true; true] CPUDevice initial_world
    = (Throw BatchShapeMismatchError, res σ, world σ) ∧
  res σ !! 1%nat = Some [].
Proof.
  apply (FromCNTKMB_mismatch_after_first [] [batch_of_1; batch_of_2] [true; true]
           CPUDevice initial_world 1
           (FromCNTKMB_upto [batch_of_1; batch_of_2] [true; true] CPUDevice
              initial_world 1).2
           (InputVariable [2%N] false Float [DefaultDynamicAxis; DefaultBatchAxis])
           (InputVariable [2%N] false Float [DefaultDynamicAxis; DefaultBatchAxis])
           [dense_view [2; 1]%N [1; 2]%Z]
           [dense_view [2; 1]%N [3; 4]%Z; dense_view [2; 1]%N [5; 6]%Z]).
  - vm_compute. reflexivity.
  - discriminate.
  - lia.
  - vm_compute. reflexivity.
  - vm_compute. reflexivity.
  - discriminate.
Defined.

Lemma FromCNTKMB_cache_grows_witness :
  let w := (Eye 3 Double CPUDevice (@initial_world Z)).2 in
  let w' := (FromCNTKMB [] [sparse_batch] [false] CPUDevice w).2 in
  (∀ (key : N * DataType) (t : NDArrayView Z),
     cached w !! key = Some t → cached w' !! key = Some t) ∧
  (cache_ok w → cache_ok w').
Proof.
  apply (FromCNTKMB_cache_grows []
           (FromCNTKMB [] [sparse_batch] [false] CPUDevice
              (Eye 3 Double CPUDevice (@initial_world Z)).2).1.2
           [sparse_batch] [false] CPUDevice
           (Eye 3 Double CPUDevice (@initial_world Z)).2
           (FromCNTKMB [] [sparse_batch] [false] CPUDevice
              (Eye 3 Double CPUDevice (@initial_world Z)).2).2
           (Ret tt)).
  vm_compute. reflexivity.
Defined.

Lemma FromCNTKMB_dense_batch_keeps_cache_witness :
  let w := (Eye 2 Float CPUDevice (@initial_world Z)).2 in
  (FromCNTKMB [] [batch_of_1; long_batch] [true; false] CPUDevice w).1.1
    = Throw BatchShapeMismatchError ∧
  (FromCNTKMB [] [batch_of_1; long_batch] [true; false] CPUDevice w).2 = w.
Proof.
  split; [vm_compute; reflexivity|].
  apply (FromCNTKMB_dense_batch_keeps_cache []
           (FromCNTKMB [] [batch_of_1; long_batch] [true; false] CPUDevice
              (Eye 2 Float CPUDevice (@initial_world Z)).2).1.2
           [batch_of_1; long_batch] [true; false] CPUDevice
           (Eye 2 Float CPUDevice (@initial_world Z)).2
           (FromCNTKMB [] [batch_of_1; long_batch] [true; false] CPUDevice
              (Eye 2 Float CPUDevice (@initial_world Z)).2).2
           (Throw BatchShapeMismatchError)).
  - intros input Hin.
    apply elem_of_cons in Hin as [-> | Hin]; [reflexivity|].
    apply elem_of_cons in Hin as [-> | Hin]; [reflexivity|].
    apply elem_of_nil in Hin. contradiction.
  - vm_compute. reflexivity.
Defined.

Lemma FromCNTKMB_reads_first_flags_witness :
  FromCNTKMB [] [batch_of_3] [false] CPUDevice initial_world
    = FromCNTKMB [] [batch_of_3] [false; true; true] CPUDevice initial_world.
Proof.
  apply (FromCNTKMB_reads_first_flags [] [batch_of_3] [false] [false; true; true]
           CPUDevice initial_world).
  intros i Hi. destruct i as [|i]; [reflexivity | simpl in Hi; lia].
Defined.

Lemma FromCNTKMB_missing_flag_undefined_witness :
  (FromCNTKMB [] [batch_of_1; batch_of_1] [true] CPUDevice initial_world).1.1
    = Undef.
Proof.
  apply (FromCNTKMB_missing_flag_undefined [] [batch_of_1; batch_of_1] [true]
           CPUDevice initial_world 1
           (FromCNTKMB_upto [batch_of_1; batch_of_1] [true] CPUDevice
              initial_world 1).2
           batch_of_1 [2%N] 1 1).
  - vm_compute. reflexivity.
  - reflexivity.
  - reflexivity.
  - simpl. lia.
Defined.

Lemma FromCNTKMB_sequential_stream_witness :
  (FromCNTKMB [] [long_batch] [true] CPUDevice initial_world).1.2 !! 0%nat
    = Some [Constant (dense_view [2; 2]%N [1; 2; 3; 4]%Z);
            Constant (dense_view [2; 2]%N [5; 6; 7; 8]%Z)].
Proof.
  apply (FromCNTKMB_sequential_stream []
           (FromCNTKMB [] [long_batch] [true] CPUDevice initial_world).1.2
           [long_batch] [true] CPUDevice initial_world
           (FromCNTKMB [] [long_batch] [true] CPUDevice initial_world).2
           0 (InputVariable [2%N] false Float [DefaultDynamicAxis; DefaultBatchAxis])
           [dense_view [2; 2]%N [1; 2; 3; 4]%Z; dense_view [2; 2]%N [5; 6; 7; 8]%Z]).
  - vm_compute. reflexivity.
  - reflexivity.
  - vm_compute. reflexivity.
  - intros data Hin.
    apply elem_of_cons in Hin as [-> | Hin]; [reflexivity|].
    apply elem_of_cons in Hin as [-> | Hin]; [reflexivity|].
    apply elem_of_nil in Hin. contradiction.
Defined.

Lemma FromCNTKMB_result_dense_witness :
  (FromCNTKMB [] [sparse_batch] [false] CPUDevice initial_world).1.2 !! 0%nat
    = Some [Constant (dense_view [2]%N [3; 4]%Z);
            Constant (dense_view [2]%N [5; 6]%Z)] ∧
  ∃ d : NDArrayView Z,
    Constant (dense_view [2]%N [5; 6]%Z) = Constant d ∧ IsSparse d = false.
Proof.
  split; [vm_compute; reflexivity|].
  apply (FromCNTKMB_result_dense []
           (FromCNTKMB [] [sparse_batch] [false] CPUDevice initial_world).1.2
           [sparse_batch] [false] CPUDevice initial_world
           (FromCNTKMB [] [sparse_batch] [false] CPUDevice initial_world).2
           0
           [Constant (dense_view [2]%N [3; 4]%Z);
            Constant (dense_view [2]%N [5; 6]%Z)]
           (Constant (dense_view [2]%N [5; 6]%Z))).
  - vm_compute. reflexivity.
  - vm_compute. reflexivity.
  - apply elem_of_cons. right. apply elem_of_cons. left. reflexivity.
Defined.

Lemma FromCNTKMB_equal_counts_no_mismatch_witness :
  (FromCNTKMB [] [batch_of_2; sparse_batch] [true; false] CPUDevice
     initial_world).1.1 ≠ Throw BatchShapeMismatchError.
Proof.
  apply (FromCNTKMB_equal_counts_no_mismatch []
           (FromCNTKMB [] [batch_of_2; sparse_batch] [true; false] CPUDevice
              initial_world).1.2
           [batch_of_2; sparse_batch] [true; false] CPUDevice initial_world
           (FromCNTKMB [] [batch_of_2; sparse_batch] [true; false] CPUDevice
              initial_world).2
           (FromCNTKMB [] [batch_of_2; sparse_batch] [true; false] CPUDevice
              initial_world).1.1
           2%nat).
  - intros j variable sequences Hun.
    destruct j as [|[|j]]; vm_compute in Hun; [| |discriminate];
      injection Hun as _ <-; reflexivity.
  - vm_compute. reflexivity.
Defined.

Lemma FromCNTKMB_failure_entry_witness :
  let run := FromCNTKMB [] [batch_of_2; long_batch; batch_of_2] [true; false; true]
               CPUDevice initial_world in
  run.1.1 = Throw MalformedStreamError ∧
  ∃ (k : nat) (σ σ' : Locals Z) (argk : list (CNTKVariable Z)),
    (k < 3)%nat ∧
    FromCNTKMB_upto [batch_of_2; long_batch; batch_of_2] [true; false; true]
      CPUDevice initial_world k = (Ret tt, σ) ∧
    FromCNTKMB_arg [batch_of_2; long_batch; batch_of_2] [true; false; true]
      CPUDevice k σ = (Throw MalformedStreamError, σ') ∧
    run.1.2 !! k = Some argk.
Proof.
  split; [vm_compute; reflexivity|].
  destruct (FromCNTKMB_failure_entry []
              (FromCNTKMB [] [batch_of_2; long_batch; batch_of_2] [true; false; true]
                 CPUDevice initial_world).1.2
              [batch_of_2; long_batch; batch_of_2] [true; false; true]
              CPUDevice initial_world
              (FromCNTKMB [] [batch_of_2; long_batch; batch_of_2] [true; false; true]
                 CPUDevice initial_world).2
              MalformedStreamError)
    as (k & σ & σ' & argk & Hk & Hupto & Hbody & Hentry & _).
  - vm_compute. reflexivity.
  - exists k, σ, σ', argk. repeat (split; [assumption|]). exact Hentry.
Defined.

End Examples.

End Dynamite.
